(** * Task-Management: board / task state engine

    A shallow embedding of the Express route handlers for tasks
    ([backend/src/routes/task.routes.js]), boards and columns (the router
    that defines [canAccessBoard]) and projects
    ([backend/src/routes/project.routes.js]), of the Mongoose [pre('save')]
    hooks of the Board and Project models, and of the [moveTask] action of
    the client store ([frontend/src/store/boardStore.js]).

    Modelling conventions.
    - An ObjectId is a number; the collections of the document store are
      finite maps from the [_id] of a document to its other fields.
    - A handler is a function from the store (and the request) to the
      response and the new store.  Every store call is taken to succeed,
      except where a schema [required] check or the unique [_id] index
      rejects the write: the handler's [catch] branch then answers 500 and
      the rejected write and the steps after it do not happen, while the
      writes made before it stay.  [save()] checks the whole document, the
      required strings it was loaded with included.
    - A route is its middleware chain followed by its handler; a request
      is served by the first route registered for its method and path.
    - [req.user.id] (set by the [authenticate] middleware) is an argument
      [uid] of every handler.
    - Ids made by [new mongoose.Types.ObjectId()] or given to a new
      document are arguments of the handler that creates them.
    - Timestamps, due dates, labels and attachments are left out; a
      description that is not sent is the empty string; a project, board,
      task or user id that is not a well-formed ObjectId is outside the
      model.
    - A string is the sequence of the bytes of its UTF-8 encoding; string
      paths declared with [trim: true] are stored trimmed.
    - A numeric index ([order], [sourceIndex], [destinationIndex]) is an
      integer of [Z]; the server reads the one sent to it as the nearest
      double. *)

From stdpp Require Import base list gmap strings.

Abbreviation ObjectId := N.

(** ** JavaScript array helpers *)

Module JS.

(** [Array.prototype.findIndex]: the index of the first element satisfying
    [p]; [None] stands for -1. *)
Fixpoint findIndex {A} (p : A → bool) (l : list A) : option nat :=
  match l with
  | [] => None
  | x :: l' => if p x then Some 0 else S <$> findIndex p l'
  end.

(** [Array.prototype.find]. *)
Fixpoint find {A} (p : A → bool) (l : list A) : option A :=
  match l with
  | [] => None
  | x :: l' => if p x then Some x else find p l'
  end.

(** The actual start of [splice(start, ...)] on an array of length [len]:
    a negative [start] counts from the end, and the result is kept inside
    [0, len]. *)
Definition splice_start (start : Z) (len : nat) : nat :=
  if (start <? 0)%Z
  then Z.to_nat (Z.max (Z.of_nat len + start) 0)
  else Z.to_nat (Z.min start (Z.of_nat len)).

(** [l.splice(start, 1)]: the array left in [l]. *)
Definition splice_remove {A} (start : Z) (l : list A) : list A :=
  delete (splice_start start (length l)) l.

(** [l.splice(start, 0, x)]: the array left in [l]. *)
Definition splice_insert {A} (start : Z) (x : A) (l : list A) : list A :=
  let k := splice_start start (length l) in
  take k l ++ x :: drop k l.

(** The white space removed by [String.prototype.trim]: the WhiteSpace
    and LineTerminator code points of ECMAScript, by the bytes of their
    UTF-8 encoding.  In one byte: U+0009 to U+000D and U+0020. *)
Definition white1 (a : N) : bool :=
  bool_decide (9 ≤ a ≤ 13 ∨ a = 32)%N.

(** In two bytes: U+00A0. *)
Definition white2 (a b : N) : bool :=
  bool_decide (a = 194 ∧ b = 160)%N.

(** In three bytes: U+1680, U+2000 to U+200A, U+2028, U+2029, U+202F,
    U+205F, U+3000 and U+FEFF. *)
Definition white3 (a b c : N) : bool :=
  bool_decide
    ((a = 225 ∧ b = 154 ∧ c = 128)
     ∨ (a = 226 ∧ b = 128 ∧ (128 ≤ c ≤ 138 ∨ c = 168 ∨ c = 169 ∨ c = 175))
     ∨ (a = 226 ∧ b = 129 ∧ c = 159)
     ∨ (a = 227 ∧ b = 128 ∧ c = 128)
     ∨ (a = 239 ∧ b = 187 ∧ c = 191))%N.

(** The bytes left once the white space at the head is gone; with
    [fromEnd] the list is a string read backwards. *)
Fixpoint strip (fromEnd : bool) (l : list N) : list N :=
  match l with
  | [] => []
  | a :: l1 =>
    if white1 a then strip fromEnd l1 else
    match l1 with
    | [] => l
    | b :: l2 =>
      if (if fromEnd then white2 b a else white2 a b)
      then strip fromEnd l2 else
      match l2 with
      | [] => l
      | c :: l3 =>
        if (if fromEnd then white3 c b a else white3 a b c)
        then strip fromEnd l3 else l
      end
    end
  end.

Definition bytes (s : string) : list N :=
  Ascii.N_of_ascii <$> String.list_ascii_of_string s.

Definition of_bytes (l : list N) : string :=
  String.string_of_list_ascii (Ascii.ascii_of_N <$> l).

Definition trimStart (s : string) : string :=
  of_bytes (strip false (bytes s)).

Definition trimEnd (s : string) : string :=
  of_bytes (reverse (strip true (reverse (bytes s)))).

(** [String.prototype.trim], as applied by a schema path with [trim: true]. *)
Definition trim (s : string) : string := trimEnd (trimStart s).

(** A [required] string path rejects the value that is empty once trimmed. *)
Definition blank (s : string) : bool := bool_decide (trim s = EmptyString).

(** The number that [JSON.parse] makes of an integer: the nearest double,
    a tie going to the even significand.  An integer smaller than 2^53 in
    size is read as it is. *)
Definition to_double (z : Z) : Z :=
  let a := Z.abs z in
  if (a <? 2 ^ 53)%Z then z else
  let e := (Z.log2 a - 52)%Z in
  let q := Z.shiftr a e in
  let r := (a - Z.shiftl q e)%Z in
  let half := Z.shiftl 1 (e - 1) in
  let q1 :=
    if (r <? half)%Z then q
    else if (half <? r)%Z then (q + 1)%Z
    else if Z.even q then q else (q + 1)%Z in
  (Z.sgn z * Z.shiftl q1 e)%Z.

(** The [isNumeric] validator reads [String(n)], which is a plain run of
    digits for the integers smaller than 10^21 in size and is written
    with an exponent (or is [Infinity]) from there. *)
Definition isNumeric (n : Z) : bool := (Z.abs n <? 10 ^ 21)%Z.

End JS.

(** ** Documents *)

Record Column := mkColumn {
  col_id : ObjectId;
  col_title : string;
  col_order : nat;
  taskIds : list ObjectId
}.

Record Board := mkBoard {
  board_title : string;
  board_description : string;
  board_project : ObjectId;
  columns : list Column;
  columnOrder : list ObjectId
}.

Record Task := mkTask {
  task_title : string;
  task_description : string;
  task_board : ObjectId;
  task_column : ObjectId;
  task_order : Z;
  assignedTo : list ObjectId;
  createdBy : ObjectId
}.

Inductive Role := owner | admin | member.

Record Member := mkMember { m_user : ObjectId; m_role : Role }.

Record Project := mkProject {
  project_name : string;
  project_description : string;
  project_owner : ObjectId;
  members : list Member
}.

Record Activity := mkActivity {
  act_user : ObjectId;
  act_action : string;
  act_entityType : string;
  act_entityId : ObjectId;
  act_projectId : ObjectId;
  act_boardId : option ObjectId
}.

Record Notification := mkNotification {
  n_recipient : ObjectId;
  n_sender : ObjectId;
  n_type : string;
  n_entityType : string;
  n_entityId : ObjectId;
  n_projectId : option ObjectId
}.

(** The document store: one finite map per collection with documents that
    are looked up by id, a list for the append-only ones. *)
Record Store := mkStore {
  projects : gmap ObjectId Project;
  boards : gmap ObjectId Board;
  tasks : gmap ObjectId Task;
  activities : list Activity;
  notifications : list Notification
}.

#[global] Instance Role_eq_dec : EqDecision Role.
Proof. solve_decision. Defined.

(** ** Responses *)

Inductive Body :=
| Message (m : string)
| ValidationErrors
| BoardDoc (id : ObjectId) (b : Board)
| TaskDoc (id : ObjectId) (t : Task)
| ProjectAndBoard (pid : ObjectId) (p : Project) (bid : ObjectId) (b : Board)
| TaskAndBoard (tid : ObjectId) (t : Task) (bid : ObjectId) (b : Board).

Record Response := mkResponse { status : nat; body : Body }.

Definition json (code : nat) (b : Body) : Response := mkResponse code b.

(** The error taxonomy of the specification, read off the HTTP status. *)
Definition NotFound (r : Response) : Prop := status r = 404.
Definition Forbidden (r : Response) : Prop := status r = 403.
Definition ValidationError (r : Response) : Prop := status r = 400.

(** ** Field updates *)

Definition set_taskIds (l : list ObjectId) (c : Column) : Column :=
  mkColumn (col_id c) (col_title c) (col_order c) l.

Definition set_col_order (n : nat) (c : Column) : Column :=
  mkColumn (col_id c) (col_title c) n (taskIds c).

Definition set_columns (cols : list Column) (b : Board) : Board :=
  mkBoard (board_title b) (board_description b) (board_project b) cols
          (columnOrder b).

Definition set_columnOrder (o : list ObjectId) (b : Board) : Board :=
  mkBoard (board_title b) (board_description b) (board_project b)
          (columns b) o.

Definition set_boards (bs : gmap ObjectId Board) (st : Store) : Store :=
  mkStore (projects st) bs (tasks st) (activities st) (notifications st).

Definition set_tasks (ts : gmap ObjectId Task) (st : Store) : Store :=
  mkStore (projects st) (boards st) ts (activities st) (notifications st).

(** [activity.save()]. *)
Definition log_activity (a : Activity) (st : Store) : Store :=
  mkStore (projects st) (boards st) (tasks st) (activities st ++ [a])
          (notifications st).

(** [Notification.insertMany]. *)
Definition insert_notifications (ns : list Notification) (st : Store) : Store :=
  mkStore (projects st) (boards st) (tasks st) (activities st)
          (notifications st ++ ns).

(** [column => column._id.toString() === columnId] *)
Definition has_id (columnId : ObjectId) (c : Column) : bool :=
  bool_decide (col_id c = columnId).

(** [member => member.user.toString() === req.user.id] *)
Definition is_user (uid : ObjectId) (m : Member) : bool :=
  bool_decide (m_user m = uid).

(** [project.members.some(...)] *)
Definition isMember (uid : ObjectId) (p : Project) : bool :=
  existsb (is_user uid) (members p).

(** ** Validation on save

    What [save()] checks of a document, new or loaded: the strings that
    the schema requires are not empty. *)

Definition valid_board (b : Board) : bool :=
  negb (bool_decide (board_title b = EmptyString))
  && forallb (λ c, negb (bool_decide (col_title c = EmptyString))) (columns b).

Definition valid_task (t : Task) : bool :=
  negb (bool_decide (task_title t = EmptyString)).

Definition valid_project (p : Project) : bool :=
  negb (bool_decide (project_name p = EmptyString)).

(** ** Access-control middleware *)

Inductive Access (A : Type) :=
| Granted (ctx : A)
| Denied (r : Response).
Arguments Granted {A} ctx.
Arguments Denied {A} r.

(** What [canAccessTask] leaves in [req]: [req.task], [req.board],
    [req.project]. *)
Record TaskCtx := mkTaskCtx {
  req_task : Task;
  tc_board : Board;
  tc_project : Project
}.

Record BoardCtx := mkBoardCtx {
  req_board : Board;
  req_project : Project
}.

Definition canAccessTask (st : Store) (uid id : ObjectId) : Access TaskCtx :=
  match tasks st !! id with
  | None => Denied (json 404 (Message "Task not found"))
  | Some task =>
    match boards st !! task_board task with
    | None => Denied (json 404 (Message "Board not found"))
    | Some board =>
      match projects st !! board_project board with
      | None => Denied (json 404 (Message "Project not found"))
      | Some project =>
        if isMember uid project
        then Granted (mkTaskCtx task board project)
        else Denied (json 403 (Message "Not authorized to access this task"))
      end
    end
  end.

Definition canAccessBoard (st : Store) (uid id : ObjectId) : Access BoardCtx :=
  match boards st !! id with
  | None => Denied (json 404 (Message "Board not found"))
  | Some board =>
    match projects st !! board_project board with
    | None => Denied (json 404 (Message "Project not found"))
    | Some project =>
      if isMember uid project
      then Granted (mkBoardCtx board project)
      else Denied (json 403 (Message "Not authorized to access this board"))
    end
  end.

(** A route [[authenticate, canAccessTask, ...], handler]: the handler runs
    only when the middleware calls [next()]. *)
Definition withTaskAccess
    (handler : TaskCtx → Store → Response * Store)
    (st : Store) (uid id : ObjectId) : Response * Store :=
  match canAccessTask st uid id with
  | Denied r => (r, st)
  | Granted ctx => handler ctx st
  end.

Definition withBoardAccess
    (handler : BoardCtx → Store → Response * Store)
    (st : Store) (uid id : ObjectId) : Response * Store :=
  match canAccessBoard st uid id with
  | Denied r => (r, st)
  | Granted ctx => handler ctx st
  end.

(** ** Board routes *)

(** [POST /api/boards/:id/columns]; [newId] is the id made by
    [new mongoose.Types.ObjectId()]. *)
Definition createColumn_handler (id uid : ObjectId) (title : string)
    (newId : ObjectId) (ctx : BoardCtx) (st : Store) : Response * Store :=
  if bool_decide (title = EmptyString)
  then (json 400 ValidationErrors, st) else
  let board := req_board ctx in
  let newColumn := mkColumn newId (JS.trim title) (length (columns board)) [] in
  let board1 := set_columns (columns board ++ [newColumn]) board in
  let board2 := set_columnOrder (columnOrder board1 ++ [newId]) board1 in
  (* req.board.save(): the new column's title is required after trim,
     and so are the titles the board was loaded with *)
  if negb (valid_board board2)
  then (json 500 (Message "Server error"), st) else
  let st1 := set_boards (<[id := board2]> (boards st)) st in
  let st2 := log_activity
    (mkActivity uid "created" "column" newId (board_project board) (Some id))
    st1 in
  (json 201 (BoardDoc id board2), st2).

Definition createColumn (st : Store) (uid id : ObjectId) (title : string)
    (newId : ObjectId) : Response * Store :=
  withBoardAccess (createColumn_handler id uid title newId) st uid id.

(** [Task.deleteMany({ _id: { $in: taskIds } })] *)
Definition deleteMany_ids (ids : list ObjectId) (ts : gmap ObjectId Task)
    : gmap ObjectId Task :=
  filter (λ kv, kv.1 ∉ ids) ts.

(** [DELETE /api/boards/:id/columns/:columnId] *)
Definition deleteColumn_handler (id uid columnId : ObjectId)
    (ctx : BoardCtx) (st : Store) : Response * Store :=
  let board := req_board ctx in
  match JS.findIndex (has_id columnId) (columns board) with
  | None => (json 404 (Message "Column not found"), st)
  | Some columnIndex =>
    let ids := default [] (taskIds <$> columns board !! columnIndex) in
    let st1 :=
      if bool_decide (0 < length ids)
      then set_tasks (deleteMany_ids ids (tasks st)) st else st in
    let board1 := set_columns (delete columnIndex (columns board)) board in
    let board2 :=
      match JS.findIndex (λ i, bool_decide (i = columnId)) (columnOrder board1) with
      | Some orderIndex =>
          set_columnOrder (delete orderIndex (columnOrder board1)) board1
      | None => board1
      end in
    (* req.board.save(), after the tasks are gone *)
    if negb (valid_board board2)
    then (json 500 (Message "Server error"), st1) else
    let st2 := set_boards (<[id := board2]> (boards st1)) st1 in
    let st3 := log_activity
      (mkActivity uid "deleted" "column" columnId (board_project board) (Some id))
      st2 in
    (json 200 (BoardDoc id board2), st3)
  end.

Definition deleteColumn (st : Store) (uid id columnId : ObjectId)
    : Response * Store :=
  withBoardAccess (deleteColumn_handler id uid columnId) st uid id.

(** One turn of [columnOrder.forEach((columnId, index) => ...)]. *)
Definition set_order_of (columnId : ObjectId) (index : nat)
    (cols : list Column) : list Column :=
  match JS.findIndex (has_id columnId) cols with
  | Some columnIndex => alter (set_col_order index) columnIndex cols
  | None => cols
  end.

Fixpoint forEach_set_order (columnOrder : list ObjectId) (index : nat)
    (cols : list Column) : list Column :=
  match columnOrder with
  | [] => cols
  | columnId :: rest =>
      forEach_set_order rest (S index) (set_order_of columnId index cols)
  end.

(** The handler registered for [PUT /api/boards/:id/columns/reorder]; the
    body's [columnOrder] is an array of ids, so the [isArray] validator
    passes.  The handler turns each id of the array into an ObjectId by
    [mongoose.Types.ObjectId(id)], a call without [new]: [callable] says
    whether the library in use admits that call (Mongoose up to 6) or
    throws on it (ObjectId a class, Mongoose 7 and later). *)
Definition reorderColumns_handler (callable : bool) (id uid : ObjectId)
    (newOrder : list ObjectId) (ctx : BoardCtx) (st : Store)
    : Response * Store :=
  let board := req_board ctx in
  let validColumnIds := col_id <$> columns board in
  let allIdsValid := forallb (λ i, bool_decide (i ∈ validColumnIds)) newOrder in
  if negb allIdsValid
  then (json 400 (Message "Invalid column IDs in order array"), st)
  else
    (* columnOrder.map(id => mongoose.Types.ObjectId(id)) *)
    if negb callable && bool_decide (0 < length newOrder)
    then (json 500 (Message "Server error"), st) else
    let board1 := set_columnOrder newOrder board in
    let board2 :=
      set_columns (forEach_set_order newOrder 0 (columns board1)) board1 in
    (* req.board.save() *)
    if negb (valid_board board2)
    then (json 500 (Message "Server error"), st) else
    let st1 := set_boards (<[id := board2]> (boards st)) st in
    let st2 := log_activity
      (mkActivity uid "updated" "board" id (board_project board) (Some id))
      st1 in
    (json 200 (BoardDoc id board2), st2).

(** What is given for [:columnId] in a path: an id, or another word. *)
Inductive Segment :=
| Id (columnId : ObjectId)
| Word (w : string).

Definition set_col_title (t : string) (c : Column) : Column :=
  mkColumn (col_id c) t (col_order c) (taskIds c).

(** [PUT /api/boards/:id/columns/:columnId] with body [{ title }].  The
    handler assigns the title even when none is sent; the column schema
    then rejects the save.  A word that is no id is the [toString()] of no
    column's [_id]. *)
Definition updateColumn_handler (id uid : ObjectId) (columnId : Segment)
    (title : option string) (ctx : BoardCtx) (st : Store)
    : Response * Store :=
  if bool_decide (title = Some EmptyString)
  then (json 400 ValidationErrors, st) else
  let board := req_board ctx in
  match columnId with
  | Word _ => (json 404 (Message "Column not found"), st)
  | Id columnId =>
    match JS.findIndex (has_id columnId) (columns board) with
    | None => (json 404 (Message "Column not found"), st)
    | Some columnIndex =>
      match title with
      | None => (json 500 (Message "Server error"), st)
      | Some t =>
        let board1 :=
          set_columns
            (alter (set_col_title (JS.trim t)) columnIndex (columns board))
            board in
        (* req.board.save() *)
        if negb (valid_board board1)
        then (json 500 (Message "Server error"), st) else
        let st1 := set_boards (<[id := board1]> (boards st)) st in
        let st2 := log_activity
          (mkActivity uid "updated" "column" columnId (board_project board)
                      (Some id)) st1 in
        (json 200 (BoardDoc id board1), st2)
      end
    end
  end.

(** The route as the router serves it. *)
Definition putColumn (st : Store) (uid id : ObjectId) (columnId : Segment)
    (title : option string) : Response * Store :=
  withBoardAccess (updateColumn_handler id uid columnId title) st uid id.

Definition updateColumn (st : Store) (uid id columnId : ObjectId)
    (title : option string) : Response * Store :=
  putColumn st uid id (Id columnId) title.

(** The request [PUT /api/boards/:id/columns/reorder] with body
    [{ columnOrder }], as the client store sends it.  The router has
    [PUT /:id/columns/:columnId] registered before [PUT /:id/columns/reorder]:
    it serves the request by the former, with [reorder] for [:columnId]
    and no title, and the handler above is not reached. *)
Definition reorderColumns (st : Store) (uid id : ObjectId)
    (newOrder : list ObjectId) : Response * Store :=
  putColumn st uid id (Word "reorder") None.

(** [DELETE /api/boards/:id] *)
Definition deleteBoard_handler (id uid : ObjectId) (ctx : BoardCtx)
    (st : Store) : Response * Store :=
  let allowed :=
    match JS.find (is_user uid) (members (req_project ctx)) with
    | None => false
    | Some m => bool_decide (m_role m = admin ∨ m_role m = owner)
    end in
  if negb allowed
  then (json 403 (Message "Not authorized to delete this board"), st)
  else
    let st1 := set_boards (delete id (boards st)) st in
    let st2 :=
      set_tasks (filter (λ kv, task_board kv.2 ≠ id) (tasks st1)) st1 in
    let st3 := log_activity
      (mkActivity uid "deleted" "board" id (board_project (req_board ctx)) None)
      st2 in
    (json 200 (Message "Board deleted successfully"), st3).

Definition deleteBoard (st : Store) (uid id : ObjectId) : Response * Store :=
  withBoardAccess (deleteBoard_handler id uid) st uid id.

(** ** Task routes *)

(** The fields of the body of [POST /api/tasks]. *)
Record NewTask := mkNewTask {
  nt_title : string;
  nt_description : string;
  nt_boardId : ObjectId;
  nt_columnId : ObjectId;
  nt_assignedTo : list ObjectId
}.

(** [POST /api/tasks]; [newId] is the [_id] given to the new document. *)
Definition createTask (st : Store) (uid : ObjectId) (req : NewTask)
    (newId : ObjectId) : Response * Store :=
  if bool_decide (nt_title req = EmptyString)
  then (json 400 ValidationErrors, st) else
  let boardId := nt_boardId req in
  let columnId := nt_columnId req in
  match boards st !! boardId with
  | None => (json 404 (Message "Board not found"), st)
  | Some board =>
    match JS.findIndex (has_id columnId) (columns board) with
    | None => (json 404 (Message "Column not found in this board"), st)
    | Some columnIndex =>
      match projects st !! board_project board with
      | None => (json 404 (Message "Project not found"), st)
      | Some project =>
        if negb (isMember uid project)
        then (json 403 (Message "Not authorized to create tasks in this board"), st)
        else
          let ids := default [] (taskIds <$> columns board !! columnIndex) in
          let task := mkTask (JS.trim (nt_title req))
                             (JS.trim (nt_description req)) boardId
                             columnId (Z.of_nat (length ids))
                             (nt_assignedTo req) uid in
          (* task.save(): the title is required after trim, the _id unique *)
          if JS.blank (nt_title req) || bool_decide (is_Some (tasks st !! newId))
          then (json 500 (Message "Server error"), st)
          else
            let st1 := set_tasks (<[newId := task]> (tasks st)) st in
            let board1 :=
              set_columns
                (alter (set_taskIds (ids ++ [newId])) columnIndex (columns board))
                board in
            (* board.save(), after the task is stored *)
            if negb (valid_board board1)
            then (json 500 (Message "Server error"), st1) else
            let st2 := set_boards (<[boardId := board1]> (boards st1)) st1 in
            let st3 := log_activity
              (mkActivity uid "created" "task" newId (board_project board)
                          (Some boardId)) st2 in
            let st4 :=
              if bool_decide (0 < length (nt_assignedTo req))
              then insert_notifications
                     ((λ userId, mkNotification userId uid "task_assigned" "task"
                                   newId (Some (board_project board)))
                        <$> nt_assignedTo req) st3
              else st3 in
            (json 201 (TaskDoc newId task), st4)
      end
    end
  end.

(** [GET /api/tasks/:id] *)
Definition getTask_handler (id : ObjectId) (ctx : TaskCtx) (st : Store)
    : Response * Store :=
  (json 200 (TaskDoc id (req_task ctx)), st).

Definition getTask (st : Store) (uid id : ObjectId) : Response * Store :=
  withTaskAccess (getTask_handler id) st uid id.

(** The removal shared by the delete and move routes: find the column
    named by [req.task.column], find the task's id in it, splice it out. *)
Definition remove_from_column (columnIndex : nat) (id : ObjectId)
    (cols : list Column) : list Column :=
  let ids := default [] (taskIds <$> cols !! columnIndex) in
  match JS.findIndex (λ taskId, bool_decide (taskId = id)) ids with
  | Some taskIndex => alter (set_taskIds (delete taskIndex ids)) columnIndex cols
  | None => cols
  end.

(** [DELETE /api/tasks/:id]: the board is saved only when the task's id
    was found in its column, and the task is deleted after that. *)
Definition deleteTask_handler (id uid : ObjectId) (ctx : TaskCtx) (st : Store)
    : Response * Store :=
  let task := req_task ctx in
  let board := tc_board ctx in
  let saved : option Store :=
    match JS.findIndex (has_id (task_column task)) (columns board) with
    | Some columnIndex =>
      match JS.findIndex (λ taskId, bool_decide (taskId = id))
              (default [] (taskIds <$> columns board !! columnIndex)) with
      | Some taskIndex =>
          let board1 :=
            set_columns (remove_from_column columnIndex id (columns board))
                        board in
          (* req.board.save() *)
          if negb (valid_board board1) then None else
          Some (set_boards (<[task_board task := board1]> (boards st)) st)
      | None => Some st
      end
    | None => Some st
    end in
  match saved with
  | None => (json 500 (Message "Server error"), st)
  | Some st1 =>
    let st2 := set_tasks (delete id (tasks st1)) st1 in
    let st3 := log_activity
      (mkActivity uid "deleted" "task" id (board_project board)
                  (Some (task_board task))) st2 in
    (json 200 (Message "Task deleted successfully"), st3)
  end.

Definition deleteTask (st : Store) (uid id : ObjectId) : Response * Store :=
  withTaskAccess (deleteTask_handler id uid) st uid id.

Definition set_column_order (columnId : ObjectId) (order : Z) (t : Task) : Task :=
  mkTask (task_title t) (task_description t) (task_board t) columnId order
         (assignedTo t) (createdBy t).

(** The columns after the first step of the move route: the task's id is
    taken out of its current column. *)
Definition detach (id : ObjectId) (task : Task) (cols : list Column)
    : list Column :=
  match JS.findIndex (has_id (task_column task)) cols with
  | Some sourceColumnIndex => remove_from_column sourceColumnIndex id cols
  | None => cols
  end.

(** The board after the two splices of the move route. *)
Definition move_in_board (id columnId : ObjectId) (order : Z)
    (task : Task) (targetColumnIndex : nat) (board : Board) : Board :=
  let cols1 := detach id task (columns board) in
  let targetTaskIds := default [] (taskIds <$> cols1 !! targetColumnIndex) in
  set_columns
    (alter (set_taskIds (JS.splice_insert order id targetTaskIds))
           targetColumnIndex cols1)
    board.

(** [PUT /api/tasks/:id/move] with body [{ columnId, order }], an id and
    an integer.  The server has the integer as a double; the [isNumeric]
    validator refuses the large ones.  The board is saved before the
    task. *)
Definition moveTask_handler (id uid columnId : ObjectId) (order : Z)
    (ctx : TaskCtx) (st : Store) : Response * Store :=
  let order := JS.to_double order in
  if negb (JS.isNumeric order)
  then (json 400 ValidationErrors, st) else
  let task := req_task ctx in
  let board := tc_board ctx in
  match JS.findIndex (has_id columnId) (columns board) with
  | None => (json 404 (Message "Target column not found"), st)
  | Some targetColumnIndex =>
    let board1 := move_in_board id columnId order task targetColumnIndex board in
    (* req.board.save() *)
    if negb (valid_board board1)
    then (json 500 (Message "Server error"), st) else
    let st1 := set_boards (<[task_board task := board1]> (boards st)) st in
    let task1 := set_column_order columnId order task in
    (* req.task.save(), after the board is written *)
    if negb (valid_task task1)
    then (json 500 (Message "Server error"), st1) else
    let st2 := set_tasks (<[id := task1]> (tasks st1)) st1 in
    let st3 := log_activity
      (mkActivity uid "moved" "task" id (board_project board)
                  (Some (task_board task))) st2 in
    (json 200 (TaskAndBoard id task1 (task_board task) board1), st3)
  end.

Definition moveTask (st : Store) (uid id columnId : ObjectId) (order : Z)
    : Response * Store :=
  withTaskAccess (moveTask_handler id uid columnId order) st uid id.

(** ** Model hooks *)

(** [boardSchema.pre('save')]: a new board without columns gets the three
    default ones; [c1], [c2], [c3] are their fresh ids. *)
Definition board_pre_save (isNew : bool) (c1 c2 c3 : ObjectId) (b : Board)
    : Board :=
  if isNew && bool_decide (length (columns b) = 0) then
    let todoColumn := mkColumn c1 (JS.trim "To Do") 0 [] in
    let inProgressColumn := mkColumn c2 (JS.trim "In Progress") 1 [] in
    let doneColumn := mkColumn c3 (JS.trim "Done") 2 [] in
    set_columnOrder
      [col_id todoColumn; col_id inProgressColumn; col_id doneColumn]
      (set_columns [todoColumn; inProgressColumn; doneColumn] b)
  else b.

(** [projectSchema.pre('save')]: the owner becomes a member with role
    [owner] unless already listed as such. *)
Definition project_pre_save (isNew : bool) (p : Project) : Project :=
  if isNew then
    let ownerExists :=
      existsb (λ m, bool_decide (m_user m = project_owner p)
                    && bool_decide (m_role m = owner)) (members p) in
    if negb ownerExists
    then mkProject (project_name p) (project_description p) (project_owner p)
                   (members p ++ [mkMember (project_owner p) owner])
    else p
  else p.

(** ** Project routes *)

Definition set_projects (ps : gmap ObjectId Project) (st : Store) : Store :=
  mkStore ps (boards st) (tasks st) (activities st) (notifications st).

(** The ids handed out while a project is created: the project's, the
    default board's and those of its three columns. *)
Record NewIds := mkNewIds {
  new_project : ObjectId;
  new_board : ObjectId;
  new_c1 : ObjectId;
  new_c2 : ObjectId;
  new_c3 : ObjectId
}.

(** [POST /api/projects] with body [{ name, description }]. *)
Definition createProject (st : Store) (uid : ObjectId)
    (name description : string) (ids : NewIds) : Response * Store :=
  if bool_decide (name = EmptyString)
  then (json 400 ValidationErrors, st) else
  let project :=
    project_pre_save true
      (mkProject (JS.trim name) (JS.trim description) uid []) in
  (* project.save(): the name is required after trim, the _id unique *)
  if JS.blank name || bool_decide (is_Some (projects st !! new_project ids))
  then (json 500 (Message "Server error"), st)
  else
    let st1 := set_projects (<[new_project ids := project]> (projects st)) st in
    let board :=
      board_pre_save true (new_c1 ids) (new_c2 ids) (new_c3 ids)
        (mkBoard (JS.trim "Main Board")
                 (JS.trim "Default board for the project")
                 (new_project ids) [] []) in
    (* board.save() *)
    if bool_decide (is_Some (boards st1 !! new_board ids))
    then (json 500 (Message "Server error"), st1)
    else
      let st2 := set_boards (<[new_board ids := board]> (boards st1)) st1 in
      let st3 := log_activity
        (mkActivity uid "created" "project" (new_project ids)
                    (new_project ids) None) st2 in
      (json 201 (ProjectAndBoard (new_project ids) project (new_board ids) board),
       st3).

(** The [isAdminOrOwner] middleware. *)
Definition isAdminOrOwner (st : Store) (uid id : ObjectId) : Access Project :=
  match projects st !! id with
  | None => Denied (json 404 (Message "Project not found"))
  | Some project =>
    match JS.find (is_user uid) (members project) with
    | None => Denied (json 403 (Message "Not authorized to perform this action"))
    | Some m =>
      if bool_decide (m_role m = admin ∨ m_role m = owner)
      then Granted project
      else Denied (json 403 (Message "Not authorized to perform this action"))
    end
  end.

(** [DELETE /api/projects/:id] *)
Definition deleteProject (st : Store) (uid id : ObjectId) : Response * Store :=
  match isAdminOrOwner st uid id with
  | Denied r => (r, st)
  | Granted project =>
    if negb (bool_decide (project_owner project = uid))
    then (json 403 (Message "Only the project owner can delete the project"), st)
    else
      (json 200 (Message "Project deleted successfully"),
       mkStore
         (delete id (projects st))
         (filter (λ kv, board_project kv.2 ≠ id) (boards st))
         (tasks st)
         (filter (λ a, act_projectId a ≠ id) (activities st))
         (filter (λ n, n_projectId n ≠ Some id) (notifications st)))
  end.

(** ** The client store ([boardStore.js]) *)

Module BoardStore.

(** The mirror kept by the store: [currentBoard] and [tasks] (each task
    with its [_id]). *)
Record State := mkState {
  currentBoard : Board;
  tasks : list (ObjectId * Task)
}.

(** The arguments of a [moveTask] call. *)
Record MoveCall := mkMoveCall {
  taskId : ObjectId;
  sourceColumnId : ObjectId;
  destinationColumnId : ObjectId;
  sourceIndex : Z;
  destinationIndex : Z
}.

(** The optimistic update of [moveTask] on [currentBoard]. *)
Definition optimistic_move (c : MoveCall) (board : Board) : Board :=
  match JS.findIndex (has_id (sourceColumnId c)) (columns board),
        JS.findIndex (has_id (destinationColumnId c)) (columns board) with
  | Some sourceColumnIndex, Some destinationColumnIndex =>
    let taskIds1 :=
      JS.splice_remove (sourceIndex c)
        (default [] (taskIds <$> columns board !! sourceColumnIndex)) in
    let cols1 := alter (set_taskIds taskIds1) sourceColumnIndex (columns board) in
    let destTaskIds :=
      JS.splice_insert (destinationIndex c) (taskId c)
        (default [] (taskIds <$> cols1 !! destinationColumnIndex)) in
    set_columns (alter (set_taskIds destTaskIds) destinationColumnIndex cols1)
                board
  | _, _ => board
  end.



(** The update of [tasks] once the server has answered. *)
Definition moveTask_confirm (c : MoveCall) (s : State) : State :=
  mkState (currentBoard s)
    ((λ t, if bool_decide (t.1 = taskId c)
           then (t.1, set_column_order (destinationColumnId c)
                                       (destinationIndex c) t.2)
           else t) <$> tasks s).

End BoardStore.

(** ** Resolution chains *)

(** The chain task → board → owning project of a task id. *)
Definition task_chain (st : Store) (id : ObjectId)
    : option (Task * Board * Project) :=
  task ← tasks st !! id;
  board ← boards st !! task_board task;
  project ← projects st !! board_project board;
  Some (task, board, project).

(** The chain board → owning project of a board id. *)
Definition board_chain (st : Store) (id : ObjectId)
    : option (Board * Project) :=
  board ← boards st !! id;
  project ← projects st !! board_project board;
  Some (board, project).

(** ** Removal by id *)

(** The array left by the pattern
    [i = l.findIndex(x => x.toString() === id); if (i !== -1) l.splice(i, 1)]. *)
Definition remove_first (id : ObjectId) (l : list ObjectId) : list ObjectId :=
  match JS.findIndex (λ x, bool_decide (x = id)) l with
  | Some i => delete i l
  | None => l
  end.

(** [f] applied to the [taskIds] of the column at index [i]. *)
Definition map_taskIds (f : list ObjectId → list ObjectId) (i : nat)
    (cols : list Column) : list Column :=
  alter (λ c, set_taskIds (f (taskIds c)) c) i cols.

(** [x] clamped to the interval from [lo] to [hi]. *)
Definition clamp (lo hi x : Z) : Z := Z.max lo (Z.min x hi).

(** ** Reading a board *)

(** The [taskIds] of the first column of [b] with id [columnId]. *)
Definition column_taskIds (columnId : ObjectId) (b : Board) : list ObjectId :=
  default [] (taskIds <$> JS.find (has_id columnId) (columns b)).

Definition column_ids (b : Board) : list ObjectId := col_id <$> columns b.

(** ** Consistency of the store *)

(** Every task's [column] is the id of the column that lists it. *)
Definition column_consistent (st : Store) : Prop :=
  ∀ id task bid board c,
    tasks st !! id = Some task → boards st !! bid = Some board →
    c ∈ columns board → id ∈ taskIds c →
    task_column task = col_id c.

(** Every task's [order] is its index in the [taskIds] that list it. *)
Definition order_consistent (st : Store) : Prop :=
  ∀ id task bid board c i,
    tasks st !! id = Some task → boards st !! bid = Some board →
    c ∈ columns board → taskIds c !! i = Some id →
    task_order task = Z.of_nat i.

(** A well-formed store: an id listed by a column of a board is the id of
    a stored task of that board whose [column] is that column; column ids
    are not repeated inside a board, nor task ids inside a column. *)
Record store_wf (st : Store) : Prop := mk_store_wf {
  wf_listed : ∀ bid board c id,
    boards st !! bid = Some board → c ∈ columns board → id ∈ taskIds c →
    ∃ task, tasks st !! id = Some task
            ∧ task_board task = bid ∧ task_column task = col_id c;
  wf_column_ids : ∀ bid board,
    boards st !! bid = Some board → NoDup (column_ids board);
  wf_taskIds : ∀ bid board c,
    boards st !! bid = Some board → c ∈ columns board → NoDup (taskIds c)
}.

(** Every stored task is listed by a column of its board. *)
Definition all_listed (st : Store) : Prop :=
  ∀ id task, tasks st !! id = Some task →
    ∃ board c, boards st !! task_board task = Some board
               ∧ c ∈ columns board ∧ id ∈ taskIds c.

(** Requests to the three task routes, with the requester. *)
Inductive TaskRequest :=
| CreateTask (uid : ObjectId) (req : NewTask) (newId : ObjectId)
| MoveTask (uid id columnId : ObjectId) (order : Z)
| DeleteTask (uid id : ObjectId).

Definition handle_task (st : Store) (q : TaskRequest) : Response * Store :=
  match q with
  | CreateTask uid req newId => createTask st uid req newId
  | MoveTask uid id columnId order => moveTask st uid id columnId order
  | DeleteTask uid id => deleteTask st uid id
  end.

(** The store after a sequence of requests. *)
Definition run_tasks (st : Store) (qs : list TaskRequest) : Store :=
  foldl (λ st q, (handle_task st q).2) st qs.

(** The status codes answered along the sequence. *)
Fixpoint run_statuses (st : Store) (qs : list TaskRequest) : list nat :=
  match qs with
  | [] => []
  | q :: qs' =>
      status (handle_task st q).1 :: run_statuses (handle_task st q).2 qs'
  end.

(** ** Column order *)

(** [columnOrder] lists every column id once and nothing else. *)
Definition order_is_permutation (b : Board) : Prop :=
  columnOrder b ≡ₚ column_ids b ∧ NoDup (columnOrder b).

Definition columnOrder_ok (st : Store) : Prop :=
  ∀ bid b, boards st !! bid = Some b → order_is_permutation b.

(** Requests to the three column routes, with the requester and the
    board. *)
Inductive ColumnRequest :=
| CreateColumn (uid id : ObjectId) (title : string) (newId : ObjectId)
| DeleteColumn (uid id columnId : ObjectId)
| ReorderColumns (uid id : ObjectId) (newOrder : list ObjectId).

Definition handle_column (st : Store) (q : ColumnRequest) : Response * Store :=
  match q with
  | CreateColumn uid id title newId => createColumn st uid id title newId
  | DeleteColumn uid id columnId => deleteColumn st uid id columnId
  | ReorderColumns uid id newOrder => reorderColumns st uid id newOrder
  end.

Definition run_columns (st : Store) (qs : list ColumnRequest) : Store :=
  foldl (λ st q, (handle_column st q).2) st qs.

(** A request is regular when the id made for a new column is not yet a
    column id of the board. *)
Definition regular (st : Store) (q : ColumnRequest) : Prop :=
  match q with
  | CreateColumn _ id _ newId =>
      ∀ b, boards st !! id = Some b → newId ∉ column_ids b
  | DeleteColumn _ _ _ => True
  | ReorderColumns _ _ _ => True
  end.

Fixpoint regular_run (st : Store) (qs : list ColumnRequest) : Prop :=
  match qs with
  | [] => True
  | q :: qs' => regular st q ∧ regular_run (handle_column st q).2 qs'
  end.

(** ** Sample data *)

Module Sample.

Definition alice : ObjectId := 1%N.
Definition bob : ObjectId := 2%N.
Definition eng : ObjectId := 10%N.
Definition main : ObjectId := 20%N.
Definition todoId : ObjectId := 31%N.
Definition inProgressId : ObjectId := 32%N.
Definition doneId : ObjectId := 33%N.
Definition t1 : ObjectId := 41%N.
Definition t2 : ObjectId := 42%N.

Definition ids : NewIds := mkNewIds eng main todoId inProgressId doneId.

Definition empty_store : Store := mkStore ∅ ∅ ∅ [] [].

(** The store after alice has created the project "Eng". *)
Definition st0 : Store :=
  Eval vm_compute in (createProject empty_store alice "Eng" "Engineering" ids).2.

Definition fix_bug : NewTask := mkNewTask "Fix bug" "Crash on save" main todoId [].
Definition write_doc : NewTask := mkNewTask "Write doc" "User guide" main todoId [].

(** ... and two tasks in "To Do". *)
Definition st1 : Store :=
  Eval vm_compute in (createTask st0 alice fix_bug t1).2.
Definition st2 : Store :=
  Eval vm_compute in (createTask st1 alice write_doc t2).2.

(** ... and a third one in "Done". *)
Definition t3 : ObjectId := 43%N.
Definition ship_it : NewTask := mkNewTask "Ship it" "Release" main doneId [].
Definition st3 : Store :=
  Eval vm_compute in (createTask st2 alice ship_it t3).2.

(** The client mirror of [st2]: the board and its two tasks. *)
Definition mirror : BoardStore.State :=
  BoardStore.mkState
    (mkBoard "Main Board" "Default board for the project" eng
       [mkColumn todoId "To Do" 0 [t1; t2];
        mkColumn inProgressId "In Progress" 1 [];
        mkColumn doneId "Done" 2 []]
       [todoId; inProgressId; doneId])
    [(t1, mkTask "Fix bug" "Crash on save" main todoId 0 [] alice);
     (t2, mkTask "Write doc" "User guide" main todoId 1 [] alice)].


End Sample.

(** * The other routes

    The routes of the three routers that the sections above leave out,
    the remaining actions of the client store and the drag-and-drop
    handler of the board page (the [Board] component of
    [frontend/src/pages/boards] and its [Column] component).

    Further conventions.
    - The User collection is only read, by the route that adds a member:
      it is an argument ([users], the ids of the stored users).
    - A write through [findByIdAndUpdate] runs the [trim] setter of the
      path and no validator; a field left out of [$set] keeps its value.
    - The member routes save the project that the middleware has loaded:
      [save()] checks it as it checks every document.
    - What a route sends beyond the bodies above is an [Answer]. *)

(** ** Answers *)

(** What a route sends besides the bodies above: a project, or a board
    with the tasks of the board. *)
Inductive Payload :=
| Plain (b : Body)
| ProjectDoc (id : ObjectId) (p : Project)
| BoardWithTasks (id : ObjectId) (b : Board) (ts : gmap ObjectId Task).

Record Answer := mkAnswer { code : nat; payload : Payload }.

Definition fail (c : nat) (m : string) : Answer := mkAnswer c (Plain (Message m)).

Definition of_response (r : Response) : Answer :=
  mkAnswer (status r) (Plain (body r)).

(** ** Project routes: update and members *)

Definition set_members (ms : list Member) (p : Project) : Project :=
  mkProject (project_name p) (project_description p) (project_owner p) ms.

Definition set_role (r : Role) (m : Member) : Member := mkMember (m_user m) r.

(** A route [[authenticate, isAdminOrOwner, ...], handler]. *)
Definition withAdminOrOwner
    (handler : Project → Store → Answer * Store)
    (st : Store) (uid id : ObjectId) : Answer * Store :=
  match isAdminOrOwner st uid id with
  | Denied r => (of_response r, st)
  | Granted project => handler project st
  end.

(** [PUT /api/projects/:id] with body [{ name, description }]; a field
    that is not sent is [None]. *)
Definition updateProject_handler (id uid : ObjectId)
    (name description : option string) (project : Project) (st : Store)
    : Answer * Store :=
  if bool_decide (name = Some EmptyString)
  then (mkAnswer 400 (Plain ValidationErrors), st) else
  let name1 := default (project_name project) (JS.trim <$> name) in
  let description1 :=
    default (project_description project) (JS.trim <$> description) in
  let project1 :=
    mkProject name1 description1 (project_owner project) (members project) in
  let st1 := set_projects (<[id := project1]> (projects st)) st in
  let st2 := log_activity (mkActivity uid "updated" "project" id id None) st1 in
  (mkAnswer 200 (ProjectDoc id project1), st2).

Definition updateProject (st : Store) (uid id : ObjectId)
    (name description : option string) : Answer * Store :=
  withAdminOrOwner (updateProject_handler id uid name description) st uid id.

(** [POST /api/projects/:id/members] with body [{ userId, role }]; the
    validator admits the roles [admin] and [member]. *)
Definition addMember_handler (users : gset ObjectId) (id uid userId : ObjectId)
    (role : Role) (project : Project) (st : Store) : Answer * Store :=
  if bool_decide (role = owner)
  then (mkAnswer 400 (Plain ValidationErrors), st) else
  if negb (bool_decide (userId ∈ users))
  then (fail 404 "User not found", st) else
  if existsb (is_user userId) (members project)
  then (fail 400 "User is already a member of this project", st) else
  let project1 :=
    set_members (members project ++ [mkMember userId role]) project in
  (* project.save() *)
  if negb (valid_project project1)
  then (fail 500 "Server error", st) else
  let st1 := set_projects (<[id := project1]> (projects st)) st in
  let st2 := log_activity (mkActivity uid "joined" "project" id id None) st1 in
  let st3 := insert_notifications
    [mkNotification userId uid "project_invitation" "project" id (Some id)]
    st2 in
  (mkAnswer 200 (ProjectDoc id project1), st3).

Definition addMember (users : gset ObjectId) (st : Store)
    (uid id userId : ObjectId) (role : Role) : Answer * Store :=
  withAdminOrOwner (addMember_handler users id uid userId role) st uid id.

(** [PUT /api/projects/:id/members/:userId] with body [{ role }]. *)
Definition updateMemberRole_handler (id uid userId : ObjectId) (role : Role)
    (project : Project) (st : Store) : Answer * Store :=
  if bool_decide (role = owner)
  then (mkAnswer 400 (Plain ValidationErrors), st) else
  if bool_decide (project_owner project = userId)
  then (fail 400 "Cannot change the role of the project owner", st) else
  match JS.findIndex (is_user userId) (members project) with
  | None => (fail 404 "User is not a member of this project", st)
  | Some memberIndex =>
    let project1 :=
      set_members (alter (set_role role) memberIndex (members project))
                  project in
    (* project.save() *)
    if negb (valid_project project1)
    then (fail 500 "Server error", st) else
    let st1 := set_projects (<[id := project1]> (projects st)) st in
    let st2 := log_activity (mkActivity uid "updated" "project" id id None) st1 in
    (mkAnswer 200 (ProjectDoc id project1), st2)
  end.

Definition updateMemberRole (st : Store) (uid id userId : ObjectId)
    (role : Role) : Answer * Store :=
  withAdminOrOwner (updateMemberRole_handler id uid userId role) st uid id.

(** [DELETE /api/projects/:id/members/:userId] *)
Definition removeMember_handler (id uid userId : ObjectId)
    (project : Project) (st : Store) : Answer * Store :=
  if bool_decide (project_owner project = userId)
  then (fail 400 "Cannot remove the project owner", st) else
  match JS.findIndex (is_user userId) (members project) with
  | None => (fail 404 "User is not a member of this project", st)
  | Some memberIndex =>
    let project1 :=
      set_members (delete memberIndex (members project)) project in
    (* project.save() *)
    if negb (valid_project project1)
    then (fail 500 "Server error", st) else
    let st1 := set_projects (<[id := project1]> (projects st)) st in
    let st2 := log_activity (mkActivity uid "left" "project" id id None) st1 in
    (mkAnswer 200 (ProjectDoc id project1), st2)
  end.

Definition removeMember (st : Store) (uid id userId : ObjectId)
    : Answer * Store :=
  withAdminOrOwner (removeMember_handler id uid userId) st uid id.

(** ** Board routes: create, read, update *)

(** [POST /api/boards] with body [{ title, description, projectId }];
    [newId] is the [_id] of the new board, [c1], [c2], [c3] are the ids the
    [pre('save')] hook makes for the default columns. *)
Definition createBoard (st : Store) (uid : ObjectId)
    (title description : string) (projectId newId c1 c2 c3 : ObjectId)
    : Response * Store :=
  if bool_decide (title = EmptyString)
  then (json 400 ValidationErrors, st) else
  match projects st !! projectId with
  | None => (json 404 (Message "Project not found"), st)
  | Some project =>
    if negb (isMember uid project)
    then (json 403
            (Message "Not authorized to create a board in this project"), st)
    else
      let board :=
        board_pre_save true c1 c2 c3
          (mkBoard (JS.trim title) (JS.trim description) projectId [] []) in
      (* board.save(): the title is required after trim, the _id unique *)
      if JS.blank title || bool_decide (is_Some (boards st !! newId))
      then (json 500 (Message "Server error"), st)
      else
        let st1 := set_boards (<[newId := board]> (boards st)) st in
        let st2 := log_activity
          (mkActivity uid "created" "board" newId projectId (Some newId))
          st1 in
        (json 201 (BoardDoc newId board), st2)
  end.

(** [GET /api/boards/:id]: the board and the tasks whose [board] is
    [id]. *)
Definition getBoard_handler (id : ObjectId) (ctx : BoardCtx) (st : Store)
    : Answer * Store :=
  (mkAnswer 200
     (BoardWithTasks id (req_board ctx)
        (filter (λ kv, task_board kv.2 = id) (tasks st))),
   st).

Definition getBoard (st : Store) (uid id : ObjectId) : Answer * Store :=
  match canAccessBoard st uid id with
  | Denied r => (of_response r, st)
  | Granted ctx => getBoard_handler id ctx st
  end.

(** [PUT /api/boards/:id] with body [{ title, description }]. *)
Definition updateBoard_handler (id uid : ObjectId)
    (title description : option string) (ctx : BoardCtx) (st : Store)
    : Response * Store :=
  if bool_decide (title = Some EmptyString)
  then (json 400 ValidationErrors, st) else
  let old := req_board ctx in
  let board :=
    mkBoard (default (board_title old) (JS.trim <$> title))
            (default (board_description old) (JS.trim <$> description))
            (board_project old) (columns old) (columnOrder old) in
  let st1 := set_boards (<[id := board]> (boards st)) st in
  let st2 := log_activity
    (mkActivity uid "updated" "board" id (board_project board) (Some id))
    st1 in
  (json 200 (BoardDoc id board), st2).

Definition updateBoard (st : Store) (uid id : ObjectId)
    (title description : option string) : Response * Store :=
  withBoardAccess (updateBoard_handler id uid title description) st uid id.

(** ** Task routes: update *)

(** The fields of the body of [PUT /api/tasks/:id]; a field that is not
    sent is [None]. *)
Record TaskUpdate := mkTaskUpdate {
  tu_title : option string;
  tu_description : option string;
  tu_assignedTo : option (list ObjectId)
}.

(** [PUT /api/tasks/:id] *)
Definition updateTask_handler (id uid : ObjectId) (req : TaskUpdate)
    (ctx : TaskCtx) (st : Store) : Response * Store :=
  if bool_decide (tu_title req = Some EmptyString)
  then (json 400 ValidationErrors, st) else
  let task := req_task ctx in
  let updatedTask :=
    mkTask (default (task_title task) (JS.trim <$> tu_title req))
           (default (task_description task) (JS.trim <$> tu_description req))
           (task_board task) (task_column task) (task_order task)
           (default (assignedTo task) (tu_assignedTo req))
           (createdBy task) in
  let st1 := set_tasks (<[id := updatedTask]> (tasks st)) st in
  let st2 := log_activity
    (mkActivity uid "updated" "task" id (board_project (tc_board ctx))
                (Some (task_board task))) st1 in
  let st3 :=
    match tu_assignedTo req with
    | None => st2
    | Some new =>
      if negb (bool_decide (assignedTo task = new)) then
        let newAssignees :=
          filter (λ userId, userId ∉ assignedTo task) new in
        if bool_decide (0 < length newAssignees)
        then insert_notifications
               ((λ userId, mkNotification userId uid "task_assigned" "task"
                             id (Some (board_project (tc_board ctx))))
                  <$> newAssignees) st2
        else st2
      else st2
    end in
  (json 200 (TaskDoc id updatedTask), st3).

Definition updateTask (st : Store) (uid id : ObjectId) (req : TaskUpdate)
    : Response * Store :=
  withTaskAccess (updateTask_handler id uid req) st uid id.

(** ** All the writing routes *)

Inductive Request :=
| CreateProject (name description : string) (ids : NewIds)
| UpdateProject (id : ObjectId) (name description : option string)
| DeleteProject (id : ObjectId)
| AddMember (id userId : ObjectId) (role : Role)
| UpdateMemberRole (id userId : ObjectId) (role : Role)
| RemoveMember (id userId : ObjectId)
| CreateBoard (title description : string) (projectId newId c1 c2 c3 : ObjectId)
| UpdateBoard (id : ObjectId) (title description : option string)
| DeleteBoard (id : ObjectId)
| ColumnReq (q : ColumnRequest)
| UpdateColumn (id columnId : ObjectId) (title : option string)
| TaskReq (q : TaskRequest)
| UpdateTask (id : ObjectId) (req : TaskUpdate).

(** The status code and the store after a request of [uid]; the requests
    of [ColumnReq] and [TaskReq] carry their own requester. *)
Definition handle (users : gset ObjectId) (st : Store) (uid : ObjectId)
    (q : Request) : nat * Store :=
  match q with
  | CreateProject name description ids =>
      prod_map status (λ x, x) (createProject st uid name description ids)
  | UpdateProject id name description =>
      prod_map code (λ x, x) (updateProject st uid id name description)
  | DeleteProject id => prod_map status (λ x, x) (deleteProject st uid id)
  | AddMember id userId role =>
      prod_map code (λ x, x) (addMember users st uid id userId role)
  | UpdateMemberRole id userId role =>
      prod_map code (λ x, x) (updateMemberRole st uid id userId role)
  | RemoveMember id userId =>
      prod_map code (λ x, x) (removeMember st uid id userId)
  | CreateBoard title description projectId newId c1 c2 c3 =>
      prod_map status (λ x, x)
        (createBoard st uid title description projectId newId c1 c2 c3)
  | UpdateBoard id title description =>
      prod_map status (λ x, x) (updateBoard st uid id title description)
  | DeleteBoard id => prod_map status (λ x, x) (deleteBoard st uid id)
  | ColumnReq q => prod_map status (λ x, x) (handle_column st q)
  | UpdateColumn id columnId title =>
      prod_map status (λ x, x) (updateColumn st uid id columnId title)
  | TaskReq q => prod_map status (λ x, x) (handle_task st q)
  | UpdateTask id req => prod_map status (λ x, x) (updateTask st uid id req)
  end.

(** The store after a sequence of requests, each with its requester. *)
Definition run (users : gset ObjectId) (st : Store)
    (qs : list (ObjectId * Request)) : Store :=
  foldl (λ st q, (handle users st q.1 q.2).2) st qs.

(** ** What the routes keep *)

(** The members of a project: no user twice, the owner listed with the
    role [owner], and no one else with that role. *)
Record project_ok (p : Project) : Prop := mk_project_ok {
  ok_users : NoDup (m_user <$> members p);
  ok_owner : mkMember (project_owner p) owner ∈ members p;
  ok_single : ∀ m, m ∈ members p → m_role m = owner →
                   m_user m = project_owner p
}.

Definition projects_ok (st : Store) : Prop :=
  ∀ id p, projects st !! id = Some p → project_ok p.

(** The ids made for new columns are new: distinct from each other for
    the default columns, not yet in the board for an added column. *)
Definition fresh_ids (st : Store) (q : Request) : Prop :=
  match q with
  | CreateProject _ _ ids => NoDup [new_c1 ids; new_c2 ids; new_c3 ids]
  | CreateBoard _ _ _ _ c1 c2 c3 => NoDup [c1; c2; c3]
  | ColumnReq (CreateColumn _ id _ newId) =>
      ∀ b, boards st !! id = Some b → newId ∉ column_ids b
  | _ => True
  end.

(** ... for the requests to the column routes as well. *)
Definition regular_request (st : Store) (q : Request) : Prop :=
  fresh_ids st q
  ∧ match q with
    | ColumnReq q => regular st q
    | _ => True
    end.

(** [P] holds of every request of the sequence, in the store it meets. *)
Fixpoint along (P : Store → Request → Prop) (users : gset ObjectId)
    (st : Store) (qs : list (ObjectId * Request)) : Prop :=
  match qs with
  | [] => True
  | q :: qs' => P st q.2 ∧ along P users (handle users st q.1 q.2).2 qs'
  end.

(** All the task ids listed by the columns of a board. *)
Definition board_taskIds (b : Board) : list ObjectId :=
  concat (taskIds <$> columns b).

(** ** The client store: the other actions on the mirror *)

Module Mirror.

(** The update of the mirror in [createTask], once the server has
    answered with the new task. *)
Definition createTask_applied (columnId : ObjectId)
    (newTask : ObjectId * Task) (s : BoardStore.State) : BoardStore.State :=
  let board := BoardStore.currentBoard s in
  let cols :=
    match JS.findIndex (has_id columnId) (columns board) with
    | Some columnIndex =>
        alter (set_taskIds
                 (default [] (taskIds <$> columns board !! columnIndex)
                  ++ [newTask.1]))
              columnIndex (columns board)
    | None => columns board
    end in
  BoardStore.mkState (set_columns cols board)
                     (BoardStore.tasks s ++ [newTask]).

(** The update of the mirror in [deleteTask], once the server has
    answered.  When the task is not in the mirror the update throws and
    the mirror stays as it is. *)
Definition deleteTask_applied (taskId : ObjectId) (s : BoardStore.State)
    : BoardStore.State :=
  match JS.find (λ t, bool_decide (t.1 = taskId)) (BoardStore.tasks s) with
  | None => s
  | Some task =>
    let board := BoardStore.currentBoard s in
    let cols :=
      match JS.findIndex (has_id (task_column task.2)) (columns board) with
      | Some columnIndex =>
          alter (set_taskIds
                   (filter (λ id, id ≠ taskId)
                      (default [] (taskIds <$> columns board !! columnIndex))))
                columnIndex (columns board)
      | None => columns board
      end in
    BoardStore.mkState (set_columns cols board)
      (filter (λ t, t.1 ≠ taskId) (BoardStore.tasks s))
  end.

(** [handleTaskMove]: a move made by another client, received from the
    socket as [{ taskId, destinationColumnId, destinationIndex }]. *)
Definition handleTaskMove (taskId destinationColumnId : ObjectId)
    (destinationIndex : Z) (s : BoardStore.State) : BoardStore.State :=
  match JS.find (λ t, bool_decide (t.1 = taskId)) (BoardStore.tasks s) with
  | None => s
  | Some task =>
    let sourceColumnId := task_column task.2 in
    let board := BoardStore.currentBoard s in
    let cols :=
      match JS.findIndex (has_id sourceColumnId) (columns board),
            JS.findIndex (has_id destinationColumnId) (columns board) with
      | Some sourceColumnIndex, Some destinationColumnIndex =>
        let cols1 :=
          alter (set_taskIds
                   (filter (λ id, id ≠ taskId)
                      (default []
                         (taskIds <$> columns board !! sourceColumnIndex))))
                sourceColumnIndex (columns board) in
        let destTaskIds :=
          JS.splice_insert destinationIndex taskId
            (default [] (taskIds <$> cols1 !! destinationColumnIndex)) in
        alter (set_taskIds destTaskIds) destinationColumnIndex cols1
      | _, _ => columns board
      end in
    BoardStore.mkState (set_columns cols board)
      ((λ t, if bool_decide (t.1 = taskId)
             then (t.1, set_column_order destinationColumnId
                                         destinationIndex t.2)
             else t) <$> BoardStore.tasks s)
  end.

End Mirror.

(** ** The board page: [handleDragEnd] *)

Module BoardPage.

(** The result handed over by the drag-and-drop library.  A column is
    dragged inside the one droppable of type [column]; a task is dragged
    between the droppables of the columns, named by the column ids. *)
Inductive DropResult :=
| ColumnDrop (draggableId : ObjectId) (sourceIndex : Z)
             (destination : option Z)
| TaskDrop (draggableId : ObjectId) (source : ObjectId * Z)
           (destination : option (ObjectId * Z)).

(** What [handleDragEnd] asks the store to do. *)
Inductive Action :=
| Nothing
| Reorder (newColumnOrder : list ObjectId)
| Move (c : BoardStore.MoveCall).

Definition handleDragEnd (currentBoard : Board) (result : DropResult)
    : Action :=
  match result with
  | ColumnDrop draggableId sourceIndex destination =>
    match destination with
    | None => Nothing
    | Some destinationIndex =>
      if bool_decide (destinationIndex = sourceIndex) then Nothing else
      Reorder
        (JS.splice_insert destinationIndex draggableId
           (JS.splice_remove sourceIndex (columnOrder currentBoard)))
    end
  | TaskDrop draggableId source destination =>
    match destination with
    | None => Nothing
    | Some dest =>
      if bool_decide (dest.1 = source.1) && bool_decide (dest.2 = source.2)
      then Nothing
      else Move (BoardStore.mkMoveCall draggableId source.1 dest.1
                                       source.2 dest.2)
    end
  end.

(** The column rendered for an entry of [columnOrder]:
    [currentBoard.columns.find(col => col._id === columnId)]. *)
Definition column_of (currentBoard : Board) (columnId : ObjectId)
    : option Column :=
  JS.find (has_id columnId) (columns currentBoard).

(** The columns on the page, in the order of [columnOrder]; nothing is
    rendered for an id without a column. *)
Definition shown_columns (currentBoard : Board) : list Column :=
  omap (column_of currentBoard) (columnOrder currentBoard).

(** The cards of a column:
    [column.taskIds.map(taskId => tasks.find(...)).filter(Boolean)]. *)
Definition columnTasks (tasks : list (ObjectId * Task)) (column : Column)
    : list (ObjectId * Task) :=
  omap (λ taskId, JS.find (λ task, bool_decide (task.1 = taskId)) tasks)
       (taskIds column).

End BoardPage.

(** ** Required strings *)

(** The strings that the schemas require are stored non-empty: the name
    of a project, the title of a board, of a column and of a task.  A
    document for which this fails is rejected by [save()]. *)
Record titled (st : Store) : Prop := mk_titled {
  titled_projects : ∀ id p,
    projects st !! id = Some p → project_name p ≠ EmptyString;
  titled_boards : ∀ id b,
    boards st !! id = Some b → board_title b ≠ EmptyString;
  titled_columns : ∀ id b,
    boards st !! id = Some b → EmptyString ∉ col_title <$> columns b;
  titled_tasks : ∀ id t,
    tasks st !! id = Some t → task_title t ≠ EmptyString
}.

(** A title or name sent with an update is not made of white space only. *)
Definition said (title : option string) : Prop :=
  ∀ t, title = Some t → JS.blank t = false.

(** The three routes that write through [findByIdAndUpdate], which runs
    the [trim] setter and no validator. *)
Definition plain_titles (st : Store) (q : Request) : Prop :=
  match q with
  | UpdateProject _ name _ => said name
  | UpdateBoard _ title _ => said title
  | UpdateTask _ req => said (tu_title req)
  | _ => True
  end.

(** Every request but the deletion of a project. *)
Definition keeps_boards (st : Store) (q : Request) : Prop :=
  match q with
  | DeleteProject _ => False
  | _ => True
  end.

(** ** A longer scenario *)

Module Scenario.

Definition carol : ObjectId := 3%N.
Definition users : gset ObjectId := {[Sample.alice; Sample.bob; carol]}.
Definition sprint : ObjectId := 21%N.
Definition reviewId : ObjectId := 37%N.

(** bob joins the project and is made an admin. *)
Definition joining : list (ObjectId * Request) :=
  [(Sample.alice, AddMember Sample.eng Sample.bob member);
   (Sample.alice, UpdateMemberRole Sample.eng Sample.bob admin)].

(** A second board, a fourth column on the first one, some work on the
    tasks, and a request to reorder the columns. *)
Definition working : list (ObjectId * Request) :=
  [(Sample.bob,
    CreateBoard "Sprint" "Second board" Sample.eng sprint 34%N 35%N 36%N);
   (Sample.bob, ColumnReq (CreateColumn Sample.bob Sample.main "Review" reviewId));
   (Sample.bob, UpdateColumn Sample.main reviewId (Some "In review"));
   (Sample.alice, TaskReq (MoveTask Sample.alice Sample.t1 reviewId 0));
   (Sample.alice,
    UpdateTask Sample.t2 (mkTaskUpdate (Some "Write the doc") None
                                       (Some [Sample.bob])));
   (Sample.bob,
    ColumnReq (ReorderColumns Sample.bob Sample.main
                 [Sample.inProgressId; Sample.doneId; reviewId; Sample.todoId]))].

Definition requests : list (ObjectId * Request) := joining ++ working.

(** The store once bob has joined, and at the end. *)
Definition team : Store := Eval vm_compute in run users Sample.st2 joining.
Definition final : Store := Eval vm_compute in run users team working.

End Scenario.

Example sample_board :
  boards Sample.st2 !! Sample.main =
  Some (mkBoard "Main Board" "Default board for the project" Sample.eng
          [mkColumn Sample.todoId "To Do" 0 [Sample.t1; Sample.t2];
           mkColumn Sample.inProgressId "In Progress" 1 [];
           mkColumn Sample.doneId "Done" 2 []]
          [Sample.todoId; Sample.inProgressId; Sample.doneId]).
Proof. vm_compute. reflexivity. Qed.

Example sample_mirror :
  boards Sample.st2 !! Sample.main
    = Some (BoardStore.currentBoard Sample.mirror)
  ∧ map_to_list (tasks Sample.st2) ≡ₚ BoardStore.tasks Sample.mirror.
Proof. split; [reflexivity|]. vm_compute. apply Permutation_swap. Qed.

(** [splice] with a start inside, beyond and before the array. *)
Example splice_insert_samples :
  JS.splice_insert 1 9%N [1; 2; 3]%N = [1; 9; 2; 3]%N
  ∧ JS.splice_insert 7 9%N [1; 2; 3]%N = [1; 2; 3; 9]%N
  ∧ JS.splice_insert (-1) 9%N [1; 2; 3]%N = [1; 2; 9; 3]%N
  ∧ JS.splice_insert (-7) 9%N [1; 2; 3]%N = [9; 1; 2; 3]%N.
Proof. by split_and!. Qed.

Example splice_remove_samples :
  JS.splice_remove 1 [1; 2; 3]%N = [1; 3]%N
  ∧ JS.splice_remove 3 [1; 2; 3]%N = [1; 2; 3]%N
  ∧ JS.splice_remove (-1) [1; 2; 3]%N = [1; 2]%N.
Proof. by split_and!. Qed.

Example trim_samples :
  JS.trim "  To Do " = "To Do" ∧ JS.trim "   " = EmptyString
  ∧ JS.blank "   " = true ∧ JS.blank " x " = false.
Proof. by split_and!. Qed.

(** U+00A0 alone is blank; U+FEFF, U+3000 and a line feed around ["A B"]
    are trimmed; U+200B is no white space. *)
Example trim_unicode_samples :
  JS.blank (JS.of_bytes [194; 160]%N) = true
  ∧ JS.trim (JS.of_bytes [239; 187; 191; 65; 32; 66; 227; 128; 128; 10]%N)
    = "A B"
  ∧ JS.trim (JS.of_bytes [226; 128; 139; 65]%N)
    = JS.of_bytes [226; 128; 139; 65]%N.
Proof. by split_and!. Qed.

(** Integers as the server reads them: exactly up to 2^53, then to the
    nearest double; [isNumeric] stops at 10^21. *)
Example to_double_samples :
  JS.to_double 7 = 7%Z ∧ JS.to_double (-3) = (-3)%Z
  ∧ JS.to_double (2 ^ 53 + 1) = (2 ^ 53)%Z
  ∧ JS.to_double (2 ^ 53 + 3) = (2 ^ 53 + 4)%Z
  ∧ JS.to_double (10 ^ 21 - 1) = (10 ^ 21)%Z
  ∧ JS.isNumeric (JS.to_double (10 ^ 21 - 1)) = false
  ∧ JS.isNumeric (JS.to_double (2 ^ 53 + 1)) = true.
Proof. by split_and!. Qed.

(** The scenario of the specification: "Fix bug" is created in "To Do",
    then moved to "Done" at index 0. *)
Example scenario_create_then_move :
  let '(r, st') :=
    moveTask Sample.st1 Sample.alice Sample.t1 Sample.doneId 0 in
  (task_order <$> tasks Sample.st1 !! Sample.t1) = Some 0%Z
  ∧ (column_taskIds Sample.todoId <$> boards Sample.st1 !! Sample.main)
    = Some [Sample.t1]
  ∧ status r = 200
  ∧ (column_taskIds Sample.todoId <$> boards st' !! Sample.main) = Some []
  ∧ (column_taskIds Sample.doneId <$> boards st' !! Sample.main)
    = Some [Sample.t1]
  ∧ (task_column <$> tasks st' !! Sample.t1) = Some Sample.doneId
  ∧ (task_order <$> tasks st' !! Sample.t1) = Some 0%Z.
Proof. by split_and!. Qed.

(** * Properties *)

(** ** Array helpers *)

Section find_index.
Context {A : Type}.
Implicit Types (p : A → bool) (l : list A).

Lemma findIndex_Some p l i :
  JS.findIndex p l = Some i →
  ∃ x, l !! i = Some x ∧ p x = true
       ∧ ∀ j y, j < i → l !! j = Some y → p y = false.
Proof.
  revert i. induction l as [|a l IH]; intros i; simpl; [done|].
  destruct (p a) eqn:Hp.
  - intros [= <-]. exists a. split_and!; [done..|]. intros; lia.
  - destruct (JS.findIndex p l) as [k|] eqn:Hk; simpl; [|done].
    intros [= <-]. destruct (IH k eq_refl) as (x & Hx & Hpx & Hlt).
    exists x. split_and!; [done..|].
    intros [|j] y Hj; simpl; [by intros [= <-]|].
    apply Hlt. lia.
Qed.

Lemma findIndex_None p l :
  JS.findIndex p l = None ↔ ∀ x, x ∈ l → p x = false.
Proof.
  induction l as [|a l IH]; simpl.
  - split; [intros _ x Hx; by apply elem_of_nil in Hx|done].
  - destruct (p a) eqn:Hp.
    + split; [done|]. intros H. specialize (H a (list_elem_of_here _ _)).
      congruence.
    + destruct (JS.findIndex p l) eqn:Hk; simpl.
      * split; [done|]. intros H.
        assert (Some n = None) as Hbad; [|done].
        apply IH. intros x Hx. apply H. by right.
      * split; [|done]. intros _ x [->|Hx]%elem_of_cons; [done|].
        by apply IH.
Qed.

Lemma findIndex_first p l i x :
  l !! i = Some x → p x = true →
  (∀ j y, j < i → l !! j = Some y → p y = false) →
  JS.findIndex p l = Some i.
Proof.
  intros Hx Hp Hlt.
  destruct (JS.findIndex p l) as [k|] eqn:Hk.
  - destruct (findIndex_Some _ _ _ Hk) as (y & Hy & Hpy & Hk').
    destruct (lt_eq_lt_dec i k) as [[Hik| ->]|Hki]; [|done|].
    + rewrite (Hk' i x Hik Hx) in Hp. done.
    + rewrite (Hlt k y Hki Hy) in Hpy. done.
  - rewrite findIndex_None in Hk.
    rewrite Hk in Hp; [done|]. by eapply list_elem_of_lookup_2.
Qed.

Lemma findIndex_fmap {B} (f : B → A) p (l : list B) :
  JS.findIndex p (f <$> l) = JS.findIndex (p ∘ f) l.
Proof.
  induction l as [|b l IH]; csimpl; [done|].
  destruct (p (f b)); [done|]. by rewrite IH.
Qed.

Lemma find_findIndex p l :
  JS.find p l = JS.findIndex p l ≫= (l !!.).
Proof.
  induction l as [|a l IH]; simpl; [done|].
  destruct (p a); [done|]. rewrite IH.
  by destruct (JS.findIndex p l).
Qed.
End find_index.

Section id_lists.
Implicit Types (id x : ObjectId) (l : list ObjectId).

Lemma findIndex_eq_Some id l i :
  JS.findIndex (λ x, bool_decide (x = id)) l = Some i →
  l !! i = Some id ∧ id ∉ take i l.
Proof.
  intros (x & Hx & Hp & Hlt)%findIndex_Some.
  apply bool_decide_eq_true in Hp as ->. split; [done|].
  intros (j & Hj)%list_elem_of_lookup_1.
  apply lookup_take_Some in Hj as [Hj Hji].
  specialize (Hlt j id Hji Hj). by apply bool_decide_eq_false in Hlt.
Qed.

Lemma findIndex_eq_None id l :
  JS.findIndex (λ x, bool_decide (x = id)) l = None ↔ id ∉ l.
Proof.
  rewrite findIndex_None. split.
  - intros H Hin. specialize (H id Hin). by apply bool_decide_eq_false in H.
  - intros H x Hx. apply bool_decide_eq_false. by intros ->.
Qed.

Lemma findIndex_eq_elem id l :
  id ∈ l → ∃ i, JS.findIndex (λ x, bool_decide (x = id)) l = Some i.
Proof.
  intros Hin. destruct (JS.findIndex _ l) as [i|] eqn:E; [by exists i|].
  by apply findIndex_eq_None in E.
Qed.

Lemma remove_first_notin id l : id ∉ l → remove_first id l = l.
Proof.
  intros H%findIndex_eq_None. unfold remove_first. by rewrite H.
Qed.

Lemma remove_first_Permutation id l :
  id ∈ l → l ≡ₚ id :: remove_first id l.
Proof.
  intros [i Hi]%findIndex_eq_elem. unfold remove_first. rewrite Hi.
  apply delete_Permutation. by apply findIndex_eq_Some in Hi as [? _].
Qed.

Lemma remove_first_sublist id l : remove_first id l `sublist_of` l.
Proof.
  unfold remove_first. destruct (JS.findIndex _ l); [|done].
  apply sublist_delete.
Qed.

Lemma elem_of_remove_first x id l : x ∈ remove_first id l → x ∈ l.
Proof. intros H. eapply elem_of_sublist; [done|apply remove_first_sublist]. Qed.

Lemma elem_of_remove_first_ne x id l :
  x ≠ id → x ∈ l → x ∈ remove_first id l.
Proof.
  intros Hne Hx. destruct (decide (id ∈ l)) as [Hin|Hin].
  - apply remove_first_Permutation in Hin. rewrite Hin in Hx.
    by apply elem_of_cons in Hx as [?|?].
  - by rewrite remove_first_notin.
Qed.

Lemma NoDup_remove_first id l :
  NoDup l → NoDup (remove_first id l) ∧ id ∉ remove_first id l.
Proof.
  intros Hl. destruct (decide (id ∈ l)) as [Hin|Hin].
  - apply remove_first_Permutation in Hin. rewrite Hin in Hl.
    by apply NoDup_cons in Hl as [? ?].
  - by rewrite remove_first_notin.
Qed.

Lemma splice_start_le start len : JS.splice_start start len ≤ len.
Proof. unfold JS.splice_start. case_match; lia. Qed.

Lemma splice_insert_Permutation start id l :
  JS.splice_insert start id l ≡ₚ id :: l.
Proof.
  unfold JS.splice_insert. rewrite <- Permutation_middle.
  by rewrite take_drop.
Qed.

Lemma remove_first_splice_insert start id l :
  id ∉ l → remove_first id (JS.splice_insert start id l) = l.
Proof.
  intros Hid. unfold remove_first, JS.splice_insert.
  pose proof (splice_start_le start (length l)) as Hk.
  set (k := JS.splice_start start (length l)) in *.
  rewrite (findIndex_first _ _ k id).
  - rewrite delete_take_drop.
    rewrite take_app_length' by (rewrite length_take; lia).
    rewrite (cons_middle id), app_assoc.
    rewrite drop_app_length'
      by (rewrite length_app, length_take; simpl; lia).
    apply take_drop.
  - rewrite lookup_app_r by (rewrite length_take; lia).
    rewrite length_take. by replace (k - k `min` length l) with 0 by lia.
  - by apply bool_decide_eq_true.
  - intros j y Hj Hy. apply bool_decide_eq_false. intros ->.
    rewrite lookup_app_l in Hy by (rewrite length_take; lia).
    apply lookup_take_Some in Hy as [Hy _].
    apply Hid. by eapply list_elem_of_lookup_2.
Qed.
End id_lists.

Section columns.
Implicit Types (cols : list Column) (c : Column).

Lemma fmap_alter_same {B} (g : Column → B) (f : Column → Column) i cols :
  (∀ c, g (f c) = g c) → g <$> alter f i cols = g <$> cols.
Proof.
  intros H. rewrite (list_fmap_alter g f id); [by apply list_alter_id|].
  apply Forall_forall. intros; apply H.
Qed.

Lemma findIndex_has_id columnId cols :
  JS.findIndex (has_id columnId) cols =
  JS.findIndex (λ x, bool_decide (x = columnId)) (col_id <$> cols).
Proof. by rewrite findIndex_fmap. Qed.

Lemma findIndex_has_id_Some columnId cols i :
  JS.findIndex (has_id columnId) cols = Some i →
  ∃ c, cols !! i = Some c ∧ col_id c = columnId.
Proof.
  intros (c & Hc & Hp & _)%findIndex_Some. exists c. split; [done|].
  by apply bool_decide_eq_true in Hp.
Qed.

Lemma findIndex_has_id_None columnId cols :
  JS.findIndex (has_id columnId) cols = None ↔ columnId ∉ col_id <$> cols.
Proof. rewrite findIndex_has_id. apply findIndex_eq_None. Qed.

End columns.

(** ** Project creation *)

Lemma blank_nonempty name : JS.blank name = false → name ≠ EmptyString.
Proof. by intros H ->. Qed.

(** C8: creating a project (the name is not blank, the ids handed out are
    unused) answers 201 and stores a default board with exactly the three
    columns "To Do", "In Progress", "Done", in that order, each with no
    task, and a [columnOrder] listing their ids in the same order.
    Whatever the request and its outcome, a board that this path adds to
    the store has three columns. *)
Theorem C8_createProject_default_board st uid name description ids :
  let '(r, st') := createProject st uid name description ids in
  (JS.blank name = false →
   projects st !! new_project ids = None →
   boards st !! new_board ids = None →
   ∃ p b,
     r = json 201 (ProjectAndBoard (new_project ids) p (new_board ids) b)
     ∧ boards st' !! new_board ids = Some b
     ∧ board_project b = new_project ids
     ∧ col_title <$> columns b = ["To Do"; "In Progress"; "Done"]
     ∧ taskIds <$> columns b = [[]; []; []]
     ∧ columnOrder b = col_id <$> columns b
     ∧ columnOrder b = [new_c1 ids; new_c2 ids; new_c3 ids])
  ∧ (∀ bid b', boards st' !! bid = Some b' →
       boards st !! bid = Some b' ∨ length (columns b') = 3).
Proof.
  unfold createProject.
  case_bool_decide as Hempty.
  { split; [|by left]. intros Hname. by apply blank_nonempty in Hname. }
  destruct (JS.blank name) eqn:Hname; simpl.
  { split; [done|by left]. }
  case_bool_decide as Hp; simpl.
  { split; [|by left]. intros _ Hp'. rewrite Hp' in Hp. by destruct Hp. }
  case_bool_decide as Hb; simpl.
  { split; [|by left]. intros _ _ Hb'. rewrite Hb' in Hb. by destruct Hb. }
  split.
  - intros _ _ _. eexists _, _. split_and!; try reflexivity.
    by rewrite lookup_insert_eq.
  - intros bid b'. destruct (decide (bid = new_board ids)) as [->|Hne].
    + rewrite lookup_insert_eq. intros [= <-]. by right.
    + rewrite lookup_insert_ne by done. by left.
Qed.

Lemma C8_createProject_default_board_witness :
  ∃ p b,
    (createProject Sample.empty_store Sample.alice "Eng" "Engineering"
       Sample.ids).1
    = json 201 (ProjectAndBoard Sample.eng p Sample.main b)
    ∧ boards Sample.st0 !! Sample.main = Some b
    ∧ col_title <$> columns b = ["To Do"; "In Progress"; "Done"]
    ∧ taskIds <$> columns b = [[]; []; []]
    ∧ columnOrder b = [Sample.todoId; Sample.inProgressId; Sample.doneId].
Proof.
  pose proof (C8_createProject_default_board Sample.empty_store Sample.alice
                "Eng" "Engineering" Sample.ids) as H.
  destruct (createProject Sample.empty_store Sample.alice "Eng" "Engineering"
              Sample.ids) as [r st'] eqn:E.
  assert (st' = Sample.st0) as Hst.
  { change st' with (r, st').2. rewrite <- E. reflexivity. }
  destruct H as [H _].
  destruct H as (p & b & Hr & Hb & _ & Ht & Hi & _ & Ho); [reflexivity..|].
  exists p, b. rewrite <- Hst. by split_and!.
Defined.

(** ** Access control *)

Lemma canAccessTask_chain st uid id :
  canAccessTask st uid id =
  match task_chain st id with
  | None =>
      Denied (json 404 (Message
        match tasks st !! id with
        | None => "Task not found"
        | Some task =>
          match boards st !! task_board task with
          | None => "Board not found"
          | Some _ => "Project not found"
          end
        end))
  | Some (task, board, project) =>
      if isMember uid project
      then Granted (mkTaskCtx task board project)
      else Denied (json 403 (Message "Not authorized to access this task"))
  end.
Proof.
  unfold canAccessTask, task_chain.
  destruct (tasks st !! id) as [task|]; simpl; [|done].
  destruct (boards st !! task_board task) as [board|]; simpl; [|done].
  by destruct (projects st !! board_project board).
Qed.

Lemma canAccessBoard_chain st uid id :
  canAccessBoard st uid id =
  match board_chain st id with
  | None =>
      Denied (json 404 (Message
        match boards st !! id with
        | None => "Board not found"
        | Some _ => "Project not found"
        end))
  | Some (board, project) =>
      if isMember uid project
      then Granted (mkBoardCtx board project)
      else Denied (json 403 (Message "Not authorized to access this board"))
  end.
Proof.
  unfold canAccessBoard, board_chain.
  destruct (boards st !! id) as [board|]; simpl; [|done].
  by destruct (projects st !! board_project board).
Qed.

(** C9: behind [canAccessTask] or [canAccessBoard], whatever the handler,
    the route answers NotFound when a link of the chain (task → board →
    project, or board → project) is missing and Forbidden when the chain
    resolves but the requester is not among the project's members; in both
    cases the store is left as it was. *)
Theorem C9_access_check_failures
    (ht : TaskCtx → Store → Response * Store)
    (hb : BoardCtx → Store → Response * Store) st uid id :
  (task_chain st id = None →
     NotFound (withTaskAccess ht st uid id).1
     ∧ (withTaskAccess ht st uid id).2 = st)
  ∧ (∀ t b p, task_chain st id = Some (t, b, p) → isMember uid p = false →
     Forbidden (withTaskAccess ht st uid id).1
     ∧ (withTaskAccess ht st uid id).2 = st)
  ∧ (board_chain st id = None →
     NotFound (withBoardAccess hb st uid id).1
     ∧ (withBoardAccess hb st uid id).2 = st)
  ∧ (∀ b p, board_chain st id = Some (b, p) → isMember uid p = false →
     Forbidden (withBoardAccess hb st uid id).1
     ∧ (withBoardAccess hb st uid id).2 = st).
Proof.
  unfold withTaskAccess, withBoardAccess.
  rewrite canAccessTask_chain, canAccessBoard_chain.
  split_and!.
  - by intros ->.
  - by intros t b p -> ->.
  - by intros ->.
  - by intros b p -> ->.
Qed.

Lemma C9_access_check_failures_witness :
  (NotFound (moveTask Sample.st2 Sample.alice 99 Sample.doneId 0).1
   ∧ (moveTask Sample.st2 Sample.alice 99 Sample.doneId 0).2 = Sample.st2)
  ∧ (Forbidden (deleteTask Sample.st2 Sample.bob Sample.t1).1
     ∧ (deleteTask Sample.st2 Sample.bob Sample.t1).2 = Sample.st2)
  ∧ (NotFound (deleteColumn Sample.st2 Sample.alice 98 Sample.todoId).1
     ∧ (deleteColumn Sample.st2 Sample.alice 98 Sample.todoId).2 = Sample.st2)
  ∧ (Forbidden (reorderColumns Sample.st2 Sample.bob Sample.main []).1
     ∧ (reorderColumns Sample.st2 Sample.bob Sample.main []).2 = Sample.st2).
Proof.
  split; [|split; [|split]].
  - apply (proj1 (C9_access_check_failures
             (moveTask_handler 99 Sample.alice Sample.doneId 0)
             (deleteBoard_handler 99 Sample.alice)
             Sample.st2 Sample.alice 99)).
    reflexivity.
  - pose proof (proj1 (proj2 (C9_access_check_failures
             (deleteTask_handler Sample.t1 Sample.bob)
             (deleteBoard_handler Sample.t1 Sample.bob)
             Sample.st2 Sample.bob Sample.t1))) as H.
    eapply H; reflexivity.
  - apply (proj1 (proj2 (proj2 (C9_access_check_failures
             (getTask_handler 98)
             (deleteColumn_handler 98 Sample.alice Sample.todoId)
             Sample.st2 Sample.alice 98)))).
    reflexivity.
  - pose proof (proj2 (proj2 (proj2 (C9_access_check_failures
             (getTask_handler Sample.main)
             (updateColumn_handler Sample.main Sample.bob (Word "reorder") None)
             Sample.st2 Sample.bob Sample.main)))) as H.
    eapply H; reflexivity.
Defined.

(** ** Project deletion *)

Lemma deleteProject_ok st uid id p m :
  projects st !! id = Some p →
  JS.find (is_user uid) (members p) = Some m →
  m_role m = admin ∨ m_role m = owner →
  project_owner p = uid →
  status (deleteProject st uid id).1 = 200.
Proof.
  intros Hp Hm Hrole Hown. unfold deleteProject, isAdminOrOwner.
  rewrite Hp, Hm. rewrite bool_decide_eq_true_2 by done.
  by rewrite bool_decide_eq_true_2 by done.
Qed.

Lemma deleteBoard_cascade st uid id tid t :
  status (deleteBoard st uid id).1 = 200 →
  tasks st !! tid = Some t → task_board t = id →
  tasks (deleteBoard st uid id).2 !! tid = None.
Proof.
  unfold deleteBoard, withBoardAccess.
  destruct (canAccessBoard st uid id) as [ctx|r] eqn:Hacc.
  - unfold deleteBoard_handler.
    destruct (negb _); simpl; [done|]. intros _ Ht Hb.
    apply map_lookup_filter_None. right. intros t' Ht'. simpl.
    rewrite Ht in Ht'. injection Ht' as <-. by intros [].
  - unfold canAccessBoard in Hacc.
    repeat case_match; simplify_eq; done.
Qed.

(** C10: deleting a project never touches the task collection; when it
    succeeds, the project, the boards whose [project] is the deleted id,
    and the activities and notifications whose [projectId] is that id are
    gone and every other document stays, so a task of a deleted board is
    still stored although its board is not.  The cascade from a board to
    its tasks is in [deleteBoard] only: when that route succeeds, the tasks
    of the board are gone. *)
Theorem C10_deleteProject_keeps_tasks st uid id :
  (let '(r, st') := deleteProject st uid id in
   tasks st' = tasks st
   ∧ (status r = 200 →
      projects st' = delete id (projects st)
      ∧ (∀ bid b, boards st' !! bid = Some b ↔
                  boards st !! bid = Some b ∧ board_project b ≠ id)
      ∧ (∀ a, a ∈ activities st' ↔
              a ∈ activities st ∧ act_projectId a ≠ id)
      ∧ (∀ n, n ∈ notifications st' ↔
              n ∈ notifications st ∧ n_projectId n ≠ Some id)
      ∧ (∀ tid t b, tasks st !! tid = Some t →
           boards st !! task_board t = Some b → board_project b = id →
           tasks st' !! tid = Some t ∧ boards st' !! task_board t = None)))
  ∧ (let '(r, st') := deleteBoard st uid id in
     status r = 200 →
     boards st' !! id = None
     ∧ ∀ tid t, tasks st !! tid = Some t → task_board t = id →
                tasks st' !! tid = None).
Proof.
  split.
  - unfold deleteProject.
    destruct (isAdminOrOwner st uid id) as [p|r] eqn:Hacc.
    + destruct (negb _); simpl; [by split|].
      split; [done|]. intros _. split_and!; [done|..].
      * intros bid b. by rewrite map_lookup_filter_Some.
      * intros a. by rewrite list_elem_of_filter, (comm and).
      * intros n. by rewrite list_elem_of_filter, (comm and).
      * intros tid t b Ht Hb Hid. split; [done|].
        apply map_lookup_filter_None. right. intros b' Hb'. simpl.
        rewrite Hb in Hb'. injection Hb' as <-. by intros [].
    + split; [done|]. unfold isAdminOrOwner in Hacc.
      repeat case_match; simplify_eq; done.
  - pose proof (deleteBoard_cascade st uid id) as Hcascade.
    unfold deleteBoard, withBoardAccess in *.
    destruct (canAccessBoard st uid id) as [ctx|r] eqn:Hacc.
    + unfold deleteBoard_handler in *.
      destruct (negb _); simpl in *; [done|].
      intros Hr. split; [apply lookup_delete_eq|].
      intros tid t. by apply Hcascade.
    + unfold canAccessBoard in Hacc.
      repeat case_match; simplify_eq; done.
Qed.

Lemma C10_deleteProject_keeps_tasks_witness :
  (status (deleteProject Sample.st2 Sample.alice Sample.eng).1 = 200
   ∧ boards (deleteProject Sample.st2 Sample.alice Sample.eng).2 !! Sample.main
     = None
   ∧ ∃ t, tasks (deleteProject Sample.st2 Sample.alice Sample.eng).2
            !! Sample.t1 = Some t
          ∧ task_board t = Sample.main)
  ∧ (status (deleteBoard Sample.st2 Sample.alice Sample.main).1 = 200
     ∧ tasks (deleteBoard Sample.st2 Sample.alice Sample.main).2 !! Sample.t1
       = None).
Proof.
  pose proof (C10_deleteProject_keeps_tasks Sample.st2 Sample.alice Sample.eng)
    as [H _].
  pose proof (C10_deleteProject_keeps_tasks Sample.st2 Sample.alice Sample.main)
    as [_ H'].
  assert (∃ t b, tasks Sample.st2 !! Sample.t1 = Some t
                 ∧ task_board t = Sample.main
                 ∧ boards Sample.st2 !! task_board t = Some b
                 ∧ board_project b = Sample.eng) as (t & b & H1 & H2 & H3 & H4).
  { eexists _, _. split_and!; reflexivity. }
  split.
  - destruct (deleteProject Sample.st2 Sample.alice Sample.eng)
      as [r st'] eqn:E.
    assert (status r = 200) as Hr.
    { change r with (r, st').1. rewrite <- E. reflexivity. }
    destruct H as [Ht H]. destruct (H Hr) as (_ & _ & _ & _ & Hkeep).
    split; [exact Hr|].
    destruct (Hkeep _ _ _ H1 H3 H4) as [Hk1 Hk2]. simpl.
    split; [by rewrite <- H2|]. by exists t.
  - destruct (deleteBoard Sample.st2 Sample.alice Sample.main)
      as [r st'] eqn:E.
    assert (status r = 200) as Hr.
    { change r with (r, st').1. rewrite <- E. reflexivity. }
    split; [exact Hr|]. simpl.
    destruct (H' Hr) as [_ Hgone]. by apply (Hgone _ t).
Defined.

(** ** Column reordering *)

Lemma withBoardAccess_granted h st uid id b p :
  board_chain st id = Some (b, p) → isMember uid p = true →
  withBoardAccess h st uid id = h (mkBoardCtx b p) st.
Proof.
  intros Hc Hm. unfold withBoardAccess.
  by rewrite canAccessBoard_chain, Hc, Hm.
Qed.

Lemma withTaskAccess_granted h st uid id t b p :
  task_chain st id = Some (t, b, p) → isMember uid p = true →
  withTaskAccess h st uid id = h (mkTaskCtx t b p) st.
Proof.
  intros Hc Hm. unfold withTaskAccess.
  by rewrite canAccessTask_chain, Hc, Hm.
Qed.

Lemma all_ids_valid (valid newOrder : list ObjectId) :
  forallb (λ i, bool_decide (i ∈ valid)) newOrder = true
  ↔ ∀ x, x ∈ newOrder → x ∈ valid.
Proof.
  induction newOrder as [|a l IH]; simpl.
  - split; [intros _ x Hx; by apply elem_of_nil in Hx|done].
  - rewrite andb_true_iff, IH, bool_decide_eq_true. split.
    + intros [Ha Hl] x [->|Hx]%elem_of_cons; auto.
    + intros H. split; [apply H; left|intros x Hx; apply H; by right].
Qed.

(** C2: the request to reorder the columns of a board is served by the
    route that updates one column, registered before the reorder route,
    with the word [reorder] as the column id.  Whatever order is sent, a
    permutation of the column ids or not, the answer is no
    ValidationError and no success and the store stays as it is; for a
    member of the board's project the answer is 404, "Column not found".
    So it is for an order that leaves a column out and for one with an
    unknown id, on the default board of the sample.  The handler
    registered for the reorder route, which no request reaches, answers
    ValidationError to an order with an id that is no column of the board
    and to no other: an order made of column ids, a strict subset
    included, passes its check. *)
Theorem C2_reorderColumns_request_not_validated :
  (∀ st uid id newOrder,
     let '(r, st') := reorderColumns st uid id newOrder in
     ¬ ValidationError r ∧ status r ≠ 200 ∧ st' = st
     ∧ (∀ b p, board_chain st id = Some (b, p) → isMember uid p = true →
               r = json 404 (Message "Column not found")))
  ∧ (let '(r, st') :=
       reorderColumns Sample.st0 Sample.alice Sample.main
         [Sample.doneId; Sample.todoId] in
     r = json 404 (Message "Column not found") ∧ st' = Sample.st0)
  ∧ (let '(r, st') :=
       reorderColumns Sample.st0 Sample.alice Sample.main [Sample.t1] in
     r = json 404 (Message "Column not found") ∧ st' = Sample.st0)
  ∧ (∀ callable id uid newOrder ctx st,
       let '(r, st') :=
         reorderColumns_handler callable id uid newOrder ctx st in
       (ValidationError r ↔
        ∃ x, x ∈ newOrder ∧ x ∉ column_ids (req_board ctx))
       ∧ (ValidationError r → st' = st)).
Proof.
  split_and!; [| done | done |].
  - intros st uid id newOrder. unfold reorderColumns, putColumn.
    unfold withBoardAccess. rewrite canAccessBoard_chain.
    destruct (board_chain st id) as [[b p]|] eqn:Hc.
    + destruct (isMember uid p) eqn:Hm; simpl.
      * split_and!; [by unfold ValidationError|done|done|done].
      * split_and!; [by unfold ValidationError|done|done|].
        intros b0 p0 [= <- <-]. congruence.
    + split_and!; [by unfold ValidationError|done|done|done].
  - intros callable id uid newOrder ctx st.
    unfold reorderColumns_handler, ValidationError.
    destruct (forallb _ newOrder) eqn:Hall; simpl.
    + pose proof (proj1 (all_ids_valid _ _) Hall) as Hall'.
      assert (¬ ∃ x, x ∈ newOrder ∧ x ∉ column_ids (req_board ctx)) as Hno.
      { intros (x & Hx & Hnot). destruct Hnot. by apply Hall'. }
      repeat case_match; simplify_eq/=;
        (split; [split; [done|by intros ?]|done]).
    + split; [|done]. split; [|done]. intros _.
      apply not_true_iff_false in Hall.
      destruct (decide (Forall (λ x, x ∈ column_ids (req_board ctx)) newOrder))
        as [Hf|Hf].
      * destruct Hall. apply all_ids_valid. by apply Forall_forall.
      * apply not_Forall_Exists in Hf; [|apply _].
        apply Exists_exists in Hf as (x & Hx & Hnot). by exists x.
Qed.

(** ** Column deletion *)

Lemma getTask_missing st uid id :
  tasks st !! id = None → NotFound (getTask st uid id).1.
Proof.
  intros H. unfold getTask, withTaskAccess, canAccessTask. by rewrite H.
Qed.

Lemma lookup_deleteMany_ids ids (ts : gmap ObjectId Task) id :
  deleteMany_ids ids ts !! id = if decide (id ∈ ids) then None else ts !! id.
Proof.
  unfold deleteMany_ids. case_decide as Hin.
  - apply map_lookup_filter_None. right. intros t _. simpl. by intros [].
  - destruct (ts !! id) as [t|] eqn:Ht.
    + by apply map_lookup_filter_Some.
    + apply map_lookup_filter_None. by left.
Qed.

Lemma column_taskIds_findIndex columnId b i c :
  JS.findIndex (has_id columnId) (columns b) = Some i →
  columns b !! i = Some c →
  column_taskIds columnId b = taskIds c.
Proof.
  intros Hi Hc. unfold column_taskIds.
  by rewrite find_findIndex, Hi; simpl; rewrite Hc.
Qed.

Lemma splice_columnOrder columnId (b : Board) :
  match JS.findIndex (λ i, bool_decide (i = columnId)) (columnOrder b) with
  | Some orderIndex => set_columnOrder (delete orderIndex (columnOrder b)) b
  | None => b
  end = set_columnOrder (remove_first columnId (columnOrder b)) b.
Proof. unfold remove_first. case_match; [done|]. by destruct b. Qed.

(** What [save()] checks of a board, as a proposition. *)
Lemma valid_board_spec (b : Board) :
  valid_board b = true
  ↔ board_title b ≠ EmptyString
    ∧ Forall (λ c, col_title c ≠ EmptyString) (columns b).
Proof.
  unfold valid_board.
  rewrite andb_true_iff, negb_true_iff, bool_decide_eq_false.
  apply and_iff_compat_l.
  induction (columns b) as [|c cols IH]; simpl; [by split|].
  rewrite andb_true_iff, negb_true_iff, bool_decide_eq_false, IH.
  by rewrite Forall_cons.
Qed.

Lemma valid_board_columns (b b' : Board) :
  valid_board b = true → board_title b' = board_title b →
  (Forall (λ c, col_title c ≠ EmptyString) (columns b) →
   Forall (λ c, col_title c ≠ EmptyString) (columns b')) →
  valid_board b' = true.
Proof.
  rewrite !valid_board_spec. intros [Ht Hcols] -> H. auto.
Qed.

Lemma valid_board_titles (b b' : Board) :
  valid_board b = true → board_title b' = board_title b →
  col_title <$> columns b' = col_title <$> columns b →
  valid_board b' = true.
Proof.
  intros Hv Ht Hcols. apply (valid_board_columns b b' Hv Ht).
  rewrite <- !(Forall_fmap col_title (λ t, t ≠ EmptyString)).
  by rewrite Hcols.
Qed.

(** Against C7 as stated: a board whose stored title is empty (the update
    route stores the title [" "] so) is not saved again.  [deleteColumn]
    answers 500; the tasks of the column are gone, the column is still a
    column of the board and still in [columnOrder]. *)
Lemma deleteColumn_untitled_board_keeps_column :
  let st :=
    (updateBoard Sample.st2 Sample.alice Sample.main (Some " ") None).2 in
  let '(r, st') := deleteColumn st Sample.alice Sample.main Sample.todoId in
  status (updateBoard Sample.st2 Sample.alice Sample.main (Some " ") None).1
    = 200
  ∧ (column_taskIds Sample.todoId <$> boards st !! Sample.main)
    = Some [Sample.t1; Sample.t2]
  ∧ is_Some (tasks st !! Sample.t1)
  ∧ status r = 500
  ∧ (column_ids <$> boards st' !! Sample.main)
    = Some [Sample.todoId; Sample.inProgressId; Sample.doneId]
  ∧ (columnOrder <$> boards st' !! Sample.main)
    = Some [Sample.todoId; Sample.inProgressId; Sample.doneId]
  ∧ tasks st' !! Sample.t1 = None.
Proof. vm_compute. split_and!; try reflexivity. by eexists. Qed.

(** C7 (amended): on a board the requester may access and whose title and
    column titles are stored non-empty, [deleteColumn] answers NotFound
    and leaves the store unchanged when [columnId] is not a column of the
    board.  Otherwise it answers 200; the column is taken out of [columns]
    and its id out of [columnOrder] (no column of that id and no such
    entry is left when ids are not repeated); every task listed in the
    column's [taskIds] is deleted, so that reading it answers NotFound;
    the other tasks are kept. *)
Theorem C7_deleteColumn_cascade st uid id columnId b p :
  board_chain st id = Some (b, p) → isMember uid p = true →
  valid_board b = true →
  let '(r, st') := deleteColumn st uid id columnId in
  (columnId ∉ column_ids b → NotFound r ∧ st' = st)
  ∧ (columnId ∈ column_ids b →
     status r = 200
     ∧ ∃ b' i,
         JS.findIndex (has_id columnId) (columns b) = Some i
         ∧ boards st' !! id = Some b'
         ∧ columns b' = delete i (columns b)
         ∧ columnOrder b' = remove_first columnId (columnOrder b)
         ∧ (NoDup (column_ids b) → columnId ∉ column_ids b')
         ∧ (NoDup (columnOrder b) → columnId ∉ columnOrder b')
         ∧ (∀ tid, tid ∈ column_taskIds columnId b →
              tasks st' !! tid = None
              ∧ ∀ u, NotFound (getTask st' u tid).1)
         ∧ (∀ tid, tid ∉ column_taskIds columnId b →
              tasks st' !! tid = tasks st !! tid)).
Proof.
  intros Hc Hm Hv. unfold deleteColumn.
  rewrite (withBoardAccess_granted _ _ _ _ _ _ Hc Hm).
  unfold deleteColumn_handler. simpl.
  destruct (JS.findIndex (has_id columnId) (columns b)) as [i|] eqn:Hi.
  - destruct (findIndex_has_id_Some _ _ _ Hi) as (c & Hci & Hcid).
    rewrite Hci. simpl.
    rewrite (splice_columnOrder columnId (set_columns _ b)).
    rewrite (valid_board_columns b) by (try done; apply Forall_delete).
    simpl. split.
    { intros Hnot. apply findIndex_has_id_None in Hnot. congruence. }
    intros _. split; [done|].
    set (st1 := if bool_decide (0 < length (taskIds c))
                then set_tasks (deleteMany_ids (taskIds c) (tasks st)) st
                else st).
    assert (boards st1 = boards st) as Hb1.
    { unfold st1. by case_bool_decide. }
    assert (tasks st1 = deleteMany_ids (taskIds c) (tasks st)) as Ht1.
    { unfold st1. case_bool_decide as Hlen; [done|].
      destruct (taskIds c); [|simpl in Hlen; lia].
      apply map_eq. intros k. rewrite lookup_deleteMany_ids.
      case_decide as Hk; [by apply elem_of_nil in Hk|done]. }
    eexists _, i. split; [done|].
    split; [simpl; by rewrite lookup_insert_eq|].
    rewrite (column_taskIds_findIndex _ _ _ _ Hi Hci). simpl.
    split_and!.
    + done.
    + done.
    + intros Hnd. unfold column_ids in *. simpl. rewrite list_fmap_delete.
      rewrite findIndex_has_id in Hi.
      pose proof (NoDup_remove_first columnId _ Hnd) as [_ Hnot].
      unfold remove_first in Hnot. by rewrite Hi in Hnot.
    + intros Hnd. apply (NoDup_remove_first columnId _ Hnd).
    + intros tid Htid.
      assert (tasks st1 !! tid = None) as Hnone.
      { rewrite Ht1, lookup_deleteMany_ids. by rewrite decide_True. }
      split; [done|]. intros u. by apply getTask_missing.
    + intros tid Htid. change (tasks st1 !! tid = tasks st !! tid).
      rewrite Ht1, lookup_deleteMany_ids. by rewrite decide_False.
  - split; [done|]. intros Hin. apply findIndex_has_id_None in Hi. done.
Qed.

Lemma C7_deleteColumn_cascade_witness :
  (NotFound (deleteColumn Sample.st2 Sample.alice Sample.main 99).1
   ∧ (deleteColumn Sample.st2 Sample.alice Sample.main 99).2 = Sample.st2)
  ∧ status (deleteColumn Sample.st2 Sample.alice Sample.main Sample.todoId).1
    = 200
  ∧ tasks (deleteColumn Sample.st2 Sample.alice Sample.main Sample.todoId).2
      !! Sample.t1 = None
  ∧ NotFound
      (getTask
         (deleteColumn Sample.st2 Sample.alice Sample.main Sample.todoId).2
         Sample.alice Sample.t1).1.
Proof.
  assert (∃ b p, board_chain Sample.st2 Sample.main = Some (b, p)
                 ∧ isMember Sample.alice p = true
                 ∧ valid_board b = true
                 ∧ column_ids b
                   = [Sample.todoId; Sample.inProgressId; Sample.doneId]
                 ∧ column_taskIds Sample.todoId b = [Sample.t1; Sample.t2])
    as (b & p & Hc & Hm & Hv & Hids & Htasks).
  { eexists _, _. split_and!; reflexivity. }
  split.
  - pose proof (C7_deleteColumn_cascade Sample.st2 Sample.alice Sample.main
                  99 b p Hc Hm Hv) as H.
    destruct (deleteColumn Sample.st2 Sample.alice Sample.main 99) as [r st'].
    apply H. rewrite Hids. compute_done.
  - pose proof (C7_deleteColumn_cascade Sample.st2 Sample.alice Sample.main
                  Sample.todoId b p Hc Hm Hv) as H.
    destruct (deleteColumn Sample.st2 Sample.alice Sample.main Sample.todoId)
      as [r st'].
    destruct H as [_ H]. destruct H as (Hr & b' & i & _ & _ & _ & _ & _ & _ & Hdel & _).
    { rewrite Hids. by left. }
    split; [exact Hr|]. simpl.
    destruct (Hdel Sample.t1) as [Hgone Hget].
    { rewrite Htasks. by left. }
    split; [exact Hgone|apply Hget].
Defined.

(** ** Moving a task *)

Section map_taskIds.
Implicit Types (f g : list ObjectId → list ObjectId) (cols : list Column).

Lemma map_taskIds_lookup f i cols j :
  map_taskIds f i cols !! j =
  (λ c, if decide (i = j) then set_taskIds (f (taskIds c)) c else c)
    <$> cols !! j.
Proof.
  unfold map_taskIds. rewrite list_lookup_alter.
  destruct (decide (i = j)) as [->|Hne]; by destruct (cols !! j).
Qed.

Lemma map_taskIds_ids f i cols :
  col_id <$> map_taskIds f i cols = col_id <$> cols.
Proof. by apply fmap_alter_same. Qed.

Lemma map_taskIds_ext f g i cols :
  (∀ c, cols !! i = Some c → f (taskIds c) = g (taskIds c)) →
  map_taskIds f i cols = map_taskIds g i cols.
Proof.
  intros H. apply list_alter_ext; [|done].
  intros c Hc. by rewrite (H c Hc).
Qed.

Lemma map_taskIds_id i cols : map_taskIds (λ l, l) i cols = cols.
Proof. apply list_alter_id. by intros []. Qed.


Lemma alter_set_taskIds f i cols :
  alter (set_taskIds (f (default [] (taskIds <$> cols !! i)))) i cols
  = map_taskIds f i cols.
Proof.
  apply list_alter_ext; [|done]. intros c Hc. by rewrite Hc.
Qed.

Lemma remove_from_column_map i id cols :
  remove_from_column i id cols = map_taskIds (remove_first id) i cols.
Proof.
  unfold remove_from_column.
  destruct (JS.findIndex _ _) as [k|] eqn:Hk.
  - apply list_alter_ext; [|done]. intros c Hc.
    rewrite Hc in Hk |- *. simpl in *.
    unfold remove_first. by rewrite Hk.
  - rewrite <- (map_taskIds_id i cols) at 1.
    apply map_taskIds_ext. intros c Hc. rewrite Hc in Hk. simpl in Hk.
    unfold remove_first. by rewrite Hk.
Qed.

Lemma detach_ids id task cols :
  col_id <$> detach id task cols = col_id <$> cols.
Proof.
  unfold detach. case_match; [|done].
  by rewrite remove_from_column_map, map_taskIds_ids.
Qed.

Lemma move_in_board_columns id columnId order task ti board :
  columns (move_in_board id columnId order task ti board) =
  map_taskIds (JS.splice_insert order id) ti
    (detach id task (columns board)).
Proof. unfold move_in_board. simpl. apply alter_set_taskIds. Qed.

Lemma column_taskIds_lookup columnId (b : Board) i :
  JS.findIndex (has_id columnId) (columns b) = Some i →
  column_taskIds columnId b = default [] (taskIds <$> columns b !! i).
Proof.
  intros Hi. unfold column_taskIds. by rewrite find_findIndex, Hi.
Qed.
End map_taskIds.

Lemma findIndex_same_ids columnId (cols cols' : list Column) :
  col_id <$> cols' = col_id <$> cols →
  JS.findIndex (has_id columnId) cols' = JS.findIndex (has_id columnId) cols.
Proof. intros H. by rewrite !findIndex_has_id, H. Qed.

Lemma findIndex_has_id_elem columnId (cols : list Column) :
  columnId ∈ col_id <$> cols →
  ∃ i c, JS.findIndex (has_id columnId) cols = Some i
         ∧ cols !! i = Some c ∧ col_id c = columnId.
Proof.
  intros Hin. destruct (JS.findIndex (has_id columnId) cols) as [i|] eqn:Hi.
  - destruct (findIndex_has_id_Some _ _ _ Hi) as (c & ? & ?). by exists i, c.
  - by apply findIndex_has_id_None in Hi.
Qed.

(** The destination column right after the removal step. *)
Lemma detach_column_taskIds id task columnId (b : Board) :
  column_taskIds columnId (set_columns (detach id task (columns b)) b) =
  if decide (task_column task = columnId)
  then remove_first id (column_taskIds columnId b)
  else column_taskIds columnId b.
Proof.
  destruct (JS.findIndex (has_id columnId) (columns b)) as [ti|] eqn:Hti.
  - rewrite (column_taskIds_lookup columnId b ti Hti).
    rewrite (column_taskIds_lookup columnId _ ti)
      by (simpl; by rewrite (findIndex_same_ids _ _ _ (detach_ids _ _ _))).
    simpl. unfold detach.
    destruct (findIndex_has_id_Some _ _ _ Hti) as (c & Hc & Hcid).
    case_decide as Hcol.
    + rewrite Hcol, Hti, remove_from_column_map, map_taskIds_lookup, Hc.
      simpl. by rewrite decide_True.
    + destruct (JS.findIndex (has_id (task_column task)) (columns b))
        as [si|] eqn:Hsi; [|done].
      rewrite remove_from_column_map, map_taskIds_lookup, Hc. simpl.
      rewrite decide_False; [done|]. intros ->.
      destruct (findIndex_has_id_Some _ _ _ Hsi) as (c' & Hc' & Hcid').
      congruence.
  - unfold column_taskIds at 2 3. rewrite find_findIndex, Hti. simpl.
    unfold column_taskIds. rewrite find_findIndex. simpl.
    rewrite (findIndex_same_ids _ _ _ (detach_ids _ _ _)), Hti.
    by case_decide.
Qed.

Lemma splice_start_nonneg order len :
  (0 ≤ order)%Z →
  JS.splice_start order len = Z.to_nat (clamp 0 (Z.of_nat len) order).
Proof.
  intros H. unfold JS.splice_start, clamp.
  destruct (Z.ltb_spec order 0); [lia|]. f_equal. lia.
Qed.

(** An integer that a double holds exactly is read as it is, and passes
    the [isNumeric] validator. *)
Lemma to_double_safe z : (Z.abs z < 2 ^ 53)%Z → JS.to_double z = z.
Proof.
  intros H. unfold JS.to_double.
  destruct (Z.ltb_spec (Z.abs z) (2 ^ 53)); [done|lia].
Qed.

Lemma isNumeric_safe z :
  (Z.abs z < 2 ^ 53)%Z → JS.isNumeric (JS.to_double z) = true.
Proof.
  intros H. rewrite to_double_safe by done. unfold JS.isNumeric.
  apply Z.ltb_lt. lia.
Qed.

Lemma detach_titles id task cols :
  col_title <$> detach id task cols = col_title <$> cols.
Proof.
  unfold detach. case_match; [|done].
  rewrite remove_from_column_map. by apply fmap_alter_same.
Qed.

Lemma valid_board_same_titles (b b' : Board) :
  board_title b' = board_title b →
  col_title <$> columns b' = col_title <$> columns b →
  valid_board b' = valid_board b.
Proof.
  intros Ht Hcols. destruct (valid_board b) eqn:Hv.
  - by apply (valid_board_titles b).
  - apply not_true_iff_false. intros Hv'.
    apply not_true_iff_false in Hv. apply Hv.
    by apply (valid_board_titles b').
Qed.

(** The two splices of the move route leave the titles as they are. *)
Lemma valid_move_in_board id columnId order task ti board :
  valid_board (move_in_board id columnId order task ti board)
  = valid_board board.
Proof.
  apply valid_board_same_titles; [done|].
  rewrite move_in_board_columns.
  unfold map_taskIds. rewrite fmap_alter_same by done.
  apply detach_titles.
Qed.

(** What the move route does to the store when the requester has access,
    the target column is found at index [ti], the number sent passes the
    validator and the board and the task pass the checks of [save()]. *)
Lemma moveTask_granted st uid id columnId order t b p ti :
  task_chain st id = Some (t, b, p) → isMember uid p = true →
  JS.findIndex (has_id columnId) (columns b) = Some ti →
  JS.isNumeric (JS.to_double order) = true →
  valid_board b = true → valid_task t = true →
  moveTask st uid id columnId order =
  let n := JS.to_double order in
  (json 200 (TaskAndBoard id (set_column_order columnId n t) (task_board t)
               (move_in_board id columnId n t ti b)),
   log_activity
     (mkActivity uid "moved" "task" id (board_project b) (Some (task_board t)))
     (set_tasks (<[id := set_column_order columnId n t]> (tasks st))
        (set_boards
           (<[task_board t := move_in_board id columnId n t ti b]>
              (boards st)) st))).
Proof.
  intros Hc Hm Hti Hnum Hvb Hvt. unfold moveTask.
  rewrite (withTaskAccess_granted _ _ _ _ _ _ _ Hc Hm).
  unfold moveTask_handler. simpl. rewrite Hnum, Hti. simpl.
  rewrite valid_move_in_board, Hvb. simpl.
  unfold valid_task in *. simpl. by rewrite Hvt.
Qed.

(** A move is answered 200 only in that case. *)
Lemma moveTask_200_inv st uid id columnId order :
  status (moveTask st uid id columnId order).1 = 200 →
  ∃ t b p ti,
    task_chain st id = Some (t, b, p) ∧ isMember uid p = true
    ∧ JS.findIndex (has_id columnId) (columns b) = Some ti
    ∧ JS.isNumeric (JS.to_double order) = true
    ∧ valid_board b = true ∧ valid_task t = true.
Proof.
  unfold moveTask, withTaskAccess. rewrite canAccessTask_chain.
  destruct (task_chain st id) as [[[t b] p]|]; [|done].
  destruct (isMember uid p) eqn:Hm; [|done].
  unfold moveTask_handler. simpl.
  destruct (JS.isNumeric _) eqn:Hnum; [|done]. simpl.
  destruct (JS.findIndex _ _) as [ti|] eqn:Hti; [|done].
  rewrite valid_move_in_board.
  destruct (valid_board b) eqn:Hvb; [|done]. simpl.
  destruct (valid_task (set_column_order _ _ t)) eqn:Hvt; [|done].
  intros _. by exists t, b, p, ti.
Qed.





(** ** Removal by position (client) and by id (server) *)

Lemma column_taskIds_map X Y f i (b : Board) cols :
  JS.findIndex (has_id Y) cols = Some i →
  column_taskIds X (set_columns (map_taskIds f i cols) b) =
  if decide (X = Y)
  then f (column_taskIds X (set_columns cols b))
  else column_taskIds X (set_columns cols b).
Proof.
  intros Hi. unfold column_taskIds. simpl. rewrite !find_findIndex.
  rewrite (findIndex_same_ids _ _ _ (map_taskIds_ids _ _ _)).
  destruct (findIndex_has_id_Some _ _ _ Hi) as (cy & Hcy & Hy).
  destruct (JS.findIndex (has_id X) cols) as [xi|] eqn:Hxi; simpl.
  - destruct (findIndex_has_id_Some _ _ _ Hxi) as (cx & Hcx & Hx).
    rewrite map_taskIds_lookup, Hcx. simpl.
    destruct (decide (i = xi)) as [->|Hne].
    + rewrite decide_True by congruence. done.
    + rewrite decide_False; [done|]. intros ->. congruence.
  - case_decide as HXY; [|done]. subst. congruence.
Qed.

Lemma optimistic_move_columns c (board : Board) si di :
  JS.findIndex (has_id (BoardStore.sourceColumnId c)) (columns board) = Some si →
  JS.findIndex (has_id (BoardStore.destinationColumnId c)) (columns board)
    = Some di →
  BoardStore.optimistic_move c board =
  set_columns
    (map_taskIds
       (JS.splice_insert (BoardStore.destinationIndex c) (BoardStore.taskId c))
       di
       (map_taskIds (JS.splice_remove (BoardStore.sourceIndex c)) si
          (columns board)))
    board.
Proof.
  intros Hsi Hdi. unfold BoardStore.optimistic_move. rewrite Hsi, Hdi.
  by rewrite !alter_set_taskIds.
Qed.

Lemma set_columns_columns (b : Board) : set_columns (columns b) b = b.
Proof. by destruct b. Qed.

Lemma splice_remove_in_range {A} start (l : list A) :
  (0 ≤ start < Z.of_nat (length l))%Z →
  JS.splice_remove start l = delete (Z.to_nat start) l.
Proof.
  intros H. unfold JS.splice_remove, JS.splice_start.
  destruct (Z.ltb_spec start 0); [lia|]. f_equal. lia.
Qed.


Lemma move_in_board_taskIds X id columnId order t ti (b : Board) :
  JS.findIndex (has_id columnId) (columns b) = Some ti →
  column_taskIds X (move_in_board id columnId order t ti b) =
  let l := column_taskIds X b in
  let l1 := if decide (task_column t = X) then remove_first id l else l in
  if decide (X = columnId) then JS.splice_insert order id l1 else l1.
Proof.
  intros Hti. unfold move_in_board. rewrite alter_set_taskIds.
  rewrite (column_taskIds_map X columnId)
    by by rewrite (findIndex_same_ids _ _ _ (detach_ids _ _ _)).
  by rewrite detach_column_taskIds.
Qed.



(** ** Moving twice *)

Lemma NoDup_lookup_col_id (cols : list Column) i j ci cj :
  NoDup (col_id <$> cols) → cols !! i = Some ci → cols !! j = Some cj →
  col_id ci = col_id cj → i = j.
Proof.
  intros Hnd Hi Hj Heq.
  apply (NoDup_lookup _ i j (col_id ci) Hnd).
  - by rewrite list_lookup_fmap, Hi.
  - by rewrite list_lookup_fmap, Hj, Heq.
Qed.

(** Once detached, the task's id is listed by no column of its board. *)
Lemma detach_not_listed st id t b j c :
  store_wf st → tasks st !! id = Some t →
  boards st !! task_board t = Some b →
  detach id t (columns b) !! j = Some c → id ∉ taskIds c.
Proof.
  intros Hwf Ht Hb Hj Hin.
  pose proof (wf_column_ids _ Hwf _ _ Hb) as Hnd. unfold column_ids in Hnd.
  assert (∀ c0, c0 ∈ columns b → id ∈ taskIds c0 → col_id c0 = task_column t)
    as Hown.
  { intros c0 Hc0 Hid.
    destruct (wf_listed _ Hwf _ _ _ _ Hb Hc0 Hid) as (t' & Ht' & _ & Hcol).
    congruence. }
  unfold detach in Hj.
  destruct (JS.findIndex (has_id (task_column t)) (columns b)) as [si|] eqn:Hsi.
  - rewrite remove_from_column_map, map_taskIds_lookup in Hj.
    destruct (columns b !! j) as [c0|] eqn:Hc0; [|done].
    simpl in Hj. injection Hj as <-.
    destruct (findIndex_has_id_Some _ _ _ Hsi) as (cs & Hcs & Hcsid).
    assert (c0 ∈ columns b) as Hc0in by by eapply list_elem_of_lookup_2.
    case_decide as Hsj; simpl in Hin.
    + apply (NoDup_remove_first id (taskIds c0)); [|done].
      eapply wf_taskIds; eauto.
    + apply Hsj. eapply NoDup_lookup_col_id; eauto.
      rewrite Hcsid. symmetry. by apply Hown.
  - apply findIndex_has_id_None in Hsi. apply Hsi.
    assert (c ∈ columns b) as Hcin by by eapply list_elem_of_lookup_2.
    rewrite <- (Hown c Hcin Hin). by apply list_elem_of_fmap_2.
Qed.


Lemma task_chain_Some st id t b p :
  task_chain st id = Some (t, b, p) ↔
  tasks st !! id = Some t ∧ boards st !! task_board t = Some b
  ∧ projects st !! board_project b = Some p.
Proof.
  unfold task_chain. split.
  - destruct (tasks st !! id) as [t'|]; simpl; [|done].
    destruct (boards st !! task_board t') as [b'|] eqn:Hb; simpl; [|done].
    destruct (projects st !! board_project b') as [p'|] eqn:Hp; simpl;
      [|done].
    by intros [= <- <- <-].
  - intros (-> & Hb & Hp). simpl. rewrite Hb. simpl. by rewrite Hp.
Qed.

(** The outcomes of a move: all the checks pass, or the store is left as
    it was, or the board is written and the task, whose stored title is
    empty, is not. *)
Lemma moveTask_cases st uid id columnId order :
  (∃ t b p ti,
     task_chain st id = Some (t, b, p) ∧ isMember uid p = true
     ∧ JS.findIndex (has_id columnId) (columns b) = Some ti
     ∧ JS.isNumeric (JS.to_double order) = true
     ∧ valid_board b = true ∧ valid_task t = true)
  ∨ (moveTask st uid id columnId order).2 = st
  ∨ (∃ t, tasks st !! id = Some t ∧ valid_task t = false
          ∧ status (moveTask st uid id columnId order).1 = 500).
Proof.
  unfold moveTask, withTaskAccess. rewrite canAccessTask_chain.
  destruct (task_chain st id) as [[[t b] p]|] eqn:Hc; [|by right; left].
  destruct (isMember uid p) eqn:Hm; [|by right; left].
  unfold moveTask_handler. simpl.
  destruct (JS.isNumeric _) eqn:Hnum; [|by right; left]. simpl.
  destruct (JS.findIndex _ _) as [ti|] eqn:Hti; [|by right; left].
  rewrite valid_move_in_board.
  destruct (valid_board b) eqn:Hvb; [|by right; left]. simpl.
  destruct (valid_task t) eqn:Hvt.
  - left. by exists t, b, p, ti.
  - right. right. exists t. apply task_chain_Some in Hc as (Ht & _).
    split_and!; [done..|].
    unfold valid_task in *. simpl. by rewrite Hvt.
Qed.


(** ** The column order under column requests *)

Lemma canAccessBoard_Granted st uid id ctx :
  canAccessBoard st uid id = Granted ctx →
  boards st !! id = Some (req_board ctx).
Proof.
  unfold canAccessBoard. intros H.
  repeat case_match; simplify_eq; done.
Qed.

Lemma columnOrder_ok_insert st st' id b' :
  columnOrder_ok st → order_is_permutation b' →
  boards st' = <[id := b']> (boards st) → columnOrder_ok st'.
Proof.
  intros Hok Hb' Hst' bid b. rewrite Hst'.
  destruct (decide (id = bid)) as [->|Hne].
  - rewrite lookup_insert_eq. by intros [= <-].
  - rewrite lookup_insert_ne by done. apply Hok.
Qed.

Lemma createColumn_preserves st uid id title newId :
  columnOrder_ok st → regular st (CreateColumn uid id title newId) →
  columnOrder_ok (createColumn st uid id title newId).2.
Proof.
  intros Hok Hreg. unfold createColumn, withBoardAccess.
  destruct (canAccessBoard st uid id) as [ctx|r] eqn:Hacc; [|done].
  apply canAccessBoard_Granted in Hacc.
  unfold createColumn_handler.
  case_bool_decide; [done|]. destruct (negb (valid_board _)); [done|].
  simpl. eapply columnOrder_ok_insert; [done| |reflexivity].
  destruct (Hok _ _ Hacc) as [Hp Hnd].
  specialize (Hreg _ Hacc).
  unfold order_is_permutation, column_ids in *. simpl.
  rewrite fmap_app. simpl. split.
  - by rewrite Hp.
  - apply NoDup_app. split_and!; [done| |apply NoDup_singleton].
    intros x Hx ->%list_elem_of_singleton. apply Hreg. by rewrite <- Hp.
Qed.

Lemma deleteColumn_preserves st uid id columnId :
  columnOrder_ok st → columnOrder_ok (deleteColumn st uid id columnId).2.
Proof.
  intros Hok. unfold deleteColumn, withBoardAccess.
  destruct (canAccessBoard st uid id) as [ctx|r] eqn:Hacc; [|done].
  apply canAccessBoard_Granted in Hacc.
  unfold deleteColumn_handler.
  destruct (JS.findIndex (has_id columnId) (columns (req_board ctx)))
    as [i|] eqn:Hi; [|done].
  rewrite (splice_columnOrder columnId (set_columns _ _)).
  destruct (negb (valid_board _)).
  { simpl. intros bid b Hb. apply (Hok bid). by case_bool_decide. }
  simpl. eapply columnOrder_ok_insert; [done| |].
  2:{ simpl. case_bool_decide; reflexivity. }
  destruct (Hok _ _ Hacc) as [Hp Hnd].
  unfold order_is_permutation, column_ids in *. simpl.
  rewrite list_fmap_delete.
  pose proof Hi as Hi'. rewrite findIndex_has_id in Hi'.
  assert (delete i (col_id <$> columns (req_board ctx))
          = remove_first columnId (col_id <$> columns (req_board ctx))) as ->.
  { unfold remove_first. by rewrite Hi'. }
  assert (columnId ∈ col_id <$> columns (req_board ctx)) as Hin.
  { apply findIndex_eq_Some in Hi' as [Hl _].
    by eapply list_elem_of_lookup_2. }
  split; [|by apply NoDup_remove_first].
  apply (inj (columnId ::.)).
  rewrite <- !remove_first_Permutation; [done|done|by rewrite Hp].
Qed.

(** The request to reorder is answered by the route of one column, which
    finds no column: nothing is written. *)
Lemma reorderColumns_unchanged st uid id newOrder :
  (reorderColumns st uid id newOrder).2 = st.
Proof.
  unfold reorderColumns, putColumn, withBoardAccess.
  by destruct (canAccessBoard st uid id).
Qed.

Lemma handle_column_preserves st q :
  columnOrder_ok st → regular st q → columnOrder_ok (handle_column st q).2.
Proof.
  destruct q; simpl; intros Hok Hreg.
  - by apply createColumn_preserves.
  - by apply deleteColumn_preserves.
  - by rewrite reorderColumns_unchanged.
Qed.

(** C4: starting from a store in which every board's [columnOrder] is a
    permutation of its column ids (each id once, no other id), as it is
    on the boards that the routes create, this still holds after any
    sequence of createColumn, deleteColumn and reorderColumns requests,
    the id made for a new column being new to its board.  A request to
    reorder is not served by the reorder handler and changes nothing. *)
Theorem C4_columnOrder_stays_permutation st qs :
  columnOrder_ok st → regular_run st qs →
  columnOrder_ok (run_columns st qs).
Proof.
  revert st. induction qs as [|q qs IH]; intros st Hok Hreg; [done|].
  destruct Hreg as [Hq Hqs]. simpl. apply IH; [|done].
  by apply handle_column_preserves.
Qed.

Lemma sample_st0_columnOrder_ok : columnOrder_ok Sample.st0.
Proof.
  intros bid b Hb.
  assert (bid = Sample.main) as ->.
  { apply elem_of_dom_2 in Hb.
    assert (dom (boards Sample.st0) = {[Sample.main]}) as Hdom
      by (vm_compute; reflexivity).
    rewrite Hdom in Hb. by apply elem_of_singleton in Hb. }
  vm_compute in Hb. injection Hb as <-.
  split; [reflexivity|]. compute_done.
Qed.

Lemma C4_columnOrder_stays_permutation_witness :
  columnOrder_ok
    (run_columns Sample.st0
       [CreateColumn Sample.alice Sample.main "Review" 34;
        ReorderColumns Sample.alice Sample.main
          [34%N; Sample.todoId; Sample.inProgressId; Sample.doneId];
        DeleteColumn Sample.alice Sample.main Sample.inProgressId]).
Proof.
  apply C4_columnOrder_stays_permutation.
  - apply sample_st0_columnOrder_ok.
  - simpl. split_and!; [|done..].
    intros b Hb. vm_compute in Hb. injection Hb as <-. compute_done.
Defined.

(** ** Well-formedness under task requests *)

Lemma canAccessTask_Granted st uid id ctx :
  canAccessTask st uid id = Granted ctx →
  tasks st !! id = Some (req_task ctx)
  ∧ boards st !! task_board (req_task ctx) = Some (tc_board ctx).
Proof.
  unfold canAccessTask. intros H.
  repeat case_match; simplify_eq; done.
Qed.

(** A step that rewrites the columns of one board [B], keeps their ids,
    and keeps the tasks of the other boards, keeps the store well
    formed as soon as the new columns of [B] are. *)
Lemma store_wf_step st st' B b cols' :
  store_wf st → boards st !! B = Some b →
  boards st' = <[B := set_columns cols' b]> (boards st) →
  col_id <$> cols' = col_id <$> columns b →
  (∀ c x, c ∈ cols' → x ∈ taskIds c →
     ∃ task, tasks st' !! x = Some task
             ∧ task_board task = B ∧ task_column task = col_id c) →
  (∀ c, c ∈ cols' → NoDup (taskIds c)) →
  (∀ x task, tasks st !! x = Some task → task_board task ≠ B →
     tasks st' !! x = Some task) →
  store_wf st'.
Proof.
  intros Hwf Hb Hboards Hids Hlisted Hnd Hother. split.
  - intros bid board c x. rewrite Hboards.
    destruct (decide (B = bid)) as [->|Hne].
    + rewrite lookup_insert_eq. intros [= <-]. simpl. apply Hlisted.
    + rewrite lookup_insert_ne by done. intros Hbid Hc Hx.
      destruct (wf_listed _ Hwf _ _ _ _ Hbid Hc Hx) as (task & Ht & Htb & Htc).
      exists task. split_and!; [|done..].
      apply Hother; [done|]. congruence.
  - intros bid board. rewrite Hboards.
    destruct (decide (B = bid)) as [->|Hne].
    + rewrite lookup_insert_eq. intros [= <-]. unfold column_ids. simpl.
      rewrite Hids. by eapply (wf_column_ids _ Hwf).
    + rewrite lookup_insert_ne by done. apply (wf_column_ids _ Hwf).
  - intros bid board c. rewrite Hboards.
    destruct (decide (B = bid)) as [->|Hne].
    + rewrite lookup_insert_eq. intros [= <-]. simpl. apply Hnd.
    + rewrite lookup_insert_ne by done. apply (wf_taskIds _ Hwf).
Qed.

Lemma elem_of_map_taskIds f i (cols : list Column) c :
  c ∈ map_taskIds f i cols →
  ∃ j c0, cols !! j = Some c0
          ∧ c = if decide (i = j) then set_taskIds (f (taskIds c0)) c0 else c0.
Proof.
  intros [j Hj]%list_elem_of_lookup_1. rewrite map_taskIds_lookup in Hj.
  destruct (cols !! j) as [c0|] eqn:Hc0; [|done].
  injection Hj as <-. by exists j, c0.
Qed.

Lemma detach_lookup id t (cols : list Column) j d :
  detach id t cols !! j = Some d →
  ∃ c0, cols !! j = Some c0 ∧ col_id d = col_id c0
        ∧ taskIds d `sublist_of` taskIds c0.
Proof.
  unfold detach. destruct (JS.findIndex _ cols) as [si|].
  - rewrite remove_from_column_map, map_taskIds_lookup.
    destruct (cols !! j) as [c0|]; [|done]. intros [= <-].
    exists c0. split; [done|]. case_decide; simpl; [|done].
    split; [done|apply remove_first_sublist].
  - intros Hd. by exists d.
Qed.

(** A store with the same boards and more tasks. *)
Lemma store_wf_more_tasks st st' :
  store_wf st → boards st' = boards st → tasks st ⊆ tasks st' →
  store_wf st'.
Proof.
  intros Hwf Hb Ht. split; rewrite Hb.
  - intros bid board c x Hbid Hc Hx.
    destruct (wf_listed _ Hwf _ _ _ _ Hbid Hc Hx) as (task & Htask & ?).
    exists task. split; [|done]. by eapply lookup_weaken.
  - apply (wf_column_ids _ Hwf).
  - apply (wf_taskIds _ Hwf).
Qed.

(** A move keeps the store well formed, unless it stops between the two
    writes: the board is written and the task, whose stored title is
    empty, is not. *)
Lemma moveTask_wf_cases st uid id columnId order :
  store_wf st →
  store_wf (moveTask st uid id columnId order).2
  ∨ (status (moveTask st uid id columnId order).1 = 500
     ∧ ∃ t, tasks st !! id = Some t ∧ valid_task t = false).
Proof.
  intros Hwf.
  destruct (moveTask_cases st uid id columnId order)
    as [(t & b & p & ti & Hc & Hm & Hti & Hnum & Hvb & Hvt)|[Hsame|Hbad]].
  2: { left. by rewrite Hsame. }
  2: { right. destruct Hbad as (t & Ht & Hbad & Hs). split; [done|].
       by exists t. }
  left. rewrite (moveTask_granted _ _ _ _ _ _ _ _ _ Hc Hm Hti Hnum Hvb Hvt).
  apply task_chain_Some in Hc as (Ht & Hb & Hp).
  simpl. set (n := JS.to_double order).
  set (D := detach id t (columns b)).
  assert (JS.findIndex (has_id columnId) D = Some ti) as HtiD
    by (unfold D; by rewrite (findIndex_same_ids _ _ _ (detach_ids _ _ _))).
  destruct (findIndex_has_id_Some _ _ _ HtiD) as (dt & Hdt & Hdtid).
  eapply (store_wf_step st _ (task_board t) b
            (map_taskIds (JS.splice_insert n id) ti D)); [done|done|..].
  - simpl. unfold move_in_board. by rewrite alter_set_taskIds.
  - unfold D. by rewrite map_taskIds_ids, detach_ids.
  - intros c x (j & d & Hd & ->)%elem_of_map_taskIds Hx. simpl.
    destruct (detach_lookup _ _ _ _ _ Hd) as (c0 & Hc0 & Hid0 & Hsub).
    assert (c0 ∈ columns b) as Hc0in by by eapply list_elem_of_lookup_2.
    destruct (decide (x = id)) as [->|Hne].
    + rewrite lookup_insert_eq. eexists. split; [done|]. split; [done|].
      case_decide as Htj; simpl in *.
      * subst j. congruence.
      * by eapply detach_not_listed in Hx.
    + rewrite lookup_insert_ne by done.
      assert (x ∈ taskIds d) as Hxd.
      { case_decide; simpl in Hx; [|done].
        rewrite splice_insert_Permutation in Hx.
        by apply elem_of_cons in Hx as [?|?]. }
      destruct (wf_listed _ Hwf _ _ _ x Hb Hc0in) as (t' & ? & ? & ?).
      { by eapply elem_of_sublist. }
      exists t'. split_and!; [done..|]. by case_decide; simpl; congruence.
  - intros c (j & d & Hd & ->)%elem_of_map_taskIds.
    destruct (detach_lookup _ _ _ _ _ Hd) as (c0 & Hc0 & Hid0 & Hsub).
    assert (NoDup (taskIds d)) as Hndd.
    { eapply sublist_NoDup; [|done]. eapply (wf_taskIds _ Hwf); [done|].
      by eapply list_elem_of_lookup_2. }
    case_decide; simpl; [|done].
    rewrite splice_insert_Permutation. apply NoDup_cons. split; [|done].
    by eapply detach_not_listed.
  - intros x task Hx Hbx. simpl. rewrite lookup_insert_ne; [done|].
    intros <-. congruence.
Qed.

(** The delete route either stops at the board, which is not saved, or
    does all its writes; the board written, if any, is the board with the
    task's id detached. *)
Lemma deleteTask_store st uid id t b p :
  boards st !! task_board t = Some b →
  let r := deleteTask_handler id uid (mkTaskCtx t b p) st in
  (status r.1 = 200
   ∧ boards r.2 = <[task_board t := set_columns (detach id t (columns b)) b]>
                    (boards st)
   ∧ tasks r.2 = delete id (tasks st))
  ∨ (status r.1 = 500 ∧ r.2 = st ∧ valid_board b = false).
Proof.
  intros Hb. unfold deleteTask_handler, detach. simpl.
  destruct (JS.findIndex (has_id (task_column t)) (columns b)) as [ci|];
    simpl.
  - destruct (JS.findIndex _ (default [] _)) as [k|] eqn:Hk; simpl.
    + rewrite (valid_board_same_titles b).
      * destruct (valid_board b); simpl; [by left|by right].
      * done.
      * simpl. rewrite remove_from_column_map. by apply fmap_alter_same.
    + left. split_and!; [done| |done]. unfold remove_from_column.
      rewrite Hk. by rewrite set_columns_columns, insert_id.
  - left. split_and!; [done| |done].
    by rewrite set_columns_columns, insert_id.
Qed.

Lemma deleteTask_preserves_wf st uid id :
  store_wf st → store_wf (deleteTask st uid id).2.
Proof.
  intros Hwf. unfold deleteTask, withTaskAccess.
  destruct (canAccessTask st uid id) as [[t b p]|r] eqn:Hacc; [|done].
  apply canAccessTask_Granted in Hacc as [Ht Hb]. simpl in Ht, Hb.
  destruct (deleteTask_store st uid id t b p Hb)
    as [(_ & Hboards & Htasks)|(_ & -> & _)]; [|done].
  eapply (store_wf_step st _ (task_board t) b (detach id t (columns b)));
    [done|done|exact Hboards|apply detach_ids|..].
  - intros c x [j Hj]%list_elem_of_lookup_1 Hx.
    destruct (detach_lookup _ _ _ _ _ Hj) as (c0 & Hc0 & Hid0 & Hsub).
    destruct (wf_listed _ Hwf _ _ c0 x Hb) as (t' & ? & ? & ?).
    { by eapply list_elem_of_lookup_2. }
    { by eapply elem_of_sublist. }
    exists t'. split_and!; [|done|congruence].
    rewrite Htasks, lookup_delete_ne; [done|].
    intros <-. exact (detach_not_listed _ _ _ _ _ _ Hwf Ht Hb Hj Hx).
  - intros c [j Hj]%list_elem_of_lookup_1.
    destruct (detach_lookup _ _ _ _ _ Hj) as (c0 & Hc0 & Hid0 & Hsub).
    eapply sublist_NoDup; [|done]. eapply (wf_taskIds _ Hwf); [done|].
    by eapply list_elem_of_lookup_2.
  - intros x task Hx Hbx. rewrite Htasks, lookup_delete_ne; [done|].
    intros <-. congruence.
Qed.

Lemma createTask_preserves_wf st uid req newId :
  store_wf st → store_wf (createTask st uid req newId).2.
Proof.
  intros Hwf. unfold createTask.
  case_bool_decide; [done|].
  destruct (boards st !! nt_boardId req) as [b|] eqn:Hb; [|done].
  destruct (JS.findIndex (has_id (nt_columnId req)) (columns b))
    as [ci|] eqn:Hci; [|done].
  destruct (projects st !! board_project b) as [p|]; [|done].
  destruct (negb (isMember uid p)); [done|].
  destruct (JS.blank (nt_title req)); [done|]. simpl.
  case_bool_decide as Hnew; [done|].
  assert (tasks st !! newId = None) as Hfresh.
  { destruct (tasks st !! newId) eqn:E; [|done]. destruct Hnew. by eexists. }
  destruct (negb (valid_board _)); simpl.
  { eapply store_wf_more_tasks; [done|done|]. simpl.
    by apply insert_subseteq. }
  destruct (findIndex_has_id_Some _ _ _ Hci) as (cc & Hcc & Hccid).
  set (task := mkTask _ _ _ _ _ _ _).
  set (st4 := if bool_decide _ then _ else _).
  assert (boards st4
          = <[nt_boardId req :=
                set_columns (map_taskIds (λ l, l ++ [newId]) ci (columns b)) b]>
              (boards st)
          ∧ tasks st4 = <[newId := task]> (tasks st)) as [Hboards Htasks].
  { unfold st4. rewrite (alter_set_taskIds (λ l, l ++ [newId])).
    by case_bool_decide. }
  simpl.
  eapply (store_wf_step st _ (nt_boardId req) b);
    [done|done|exact Hboards|apply map_taskIds_ids|..].
  - intros c x (j & c0 & Hc0 & ->)%elem_of_map_taskIds Hx.
    assert (c0 ∈ columns b) as Hc0in by by eapply list_elem_of_lookup_2.
    assert (x ∈ taskIds c0 ∨ (x = newId ∧ ci = j)) as [Hx0|[-> <-]].
    { case_decide; simpl in Hx; [|by left].
      apply elem_of_app in Hx as [?|?%list_elem_of_singleton]; auto. }
    + destruct (wf_listed _ Hwf _ _ _ _ Hb Hc0in Hx0) as (t' & ? & ? & ?).
      exists t'. split_and!; [|done|by case_decide].
      rewrite Htasks, lookup_insert_ne; [done|]. intros <-. congruence.
    + exists task. rewrite Htasks, lookup_insert_eq.
      split_and!; [done..|]. rewrite decide_True by done. simpl. congruence.
  - intros c (j & c0 & Hc0 & ->)%elem_of_map_taskIds.
    assert (c0 ∈ columns b) as Hc0in by by eapply list_elem_of_lookup_2.
    pose proof (wf_taskIds _ Hwf _ _ _ Hb Hc0in) as Hnd.
    case_decide; simpl; [|done].
    apply NoDup_app. split_and!; [done| |apply NoDup_singleton].
    intros x Hx ->%list_elem_of_singleton.
    destruct (wf_listed _ Hwf _ _ _ _ Hb Hc0in Hx) as (t' & ? & _).
    congruence.
  - intros x t' Hx _. rewrite Htasks, lookup_insert_ne; [done|].
    intros <-. congruence.
Qed.

Lemma all_listed_step st st' B b cols' :
  all_listed st → boards st !! B = Some b →
  boards st' = <[B := set_columns cols' b]> (boards st) →
  (∀ x task, tasks st' !! x = Some task → task_board task = B →
     ∃ c, c ∈ cols' ∧ x ∈ taskIds c) →
  (∀ x task, tasks st' !! x = Some task → task_board task ≠ B →
     tasks st !! x = Some task) →
  all_listed st'.
Proof.
  intros Hall Hb Hboards Hin Hout x task Hx. rewrite Hboards.
  destruct (decide (task_board task = B)) as [HB|HB].
  - destruct (Hin _ _ Hx HB) as (c & Hc & Hxc).
    exists (set_columns cols' b), c. by rewrite HB, lookup_insert_eq.
  - destruct (Hall _ _ (Hout _ _ Hx HB)) as (board & c & ? & ? & ?).
    exists board, c. by rewrite lookup_insert_ne.
Qed.

Lemma map_taskIds_keeps f i (cols : list Column) c0 x :
  c0 ∈ cols → x ∈ taskIds c0 → (∀ l, x ∈ l → x ∈ f l) →
  ∃ c, c ∈ map_taskIds f i cols ∧ x ∈ taskIds c.
Proof.
  intros [j Hj]%list_elem_of_lookup_1 Hx Hf.
  pose proof (map_taskIds_lookup f i cols j) as Hl. rewrite Hj in Hl.
  eexists. split; [by eapply list_elem_of_lookup_2|].
  case_decide; simpl; auto.
Qed.

Lemma detach_keeps id t (cols : list Column) c0 x :
  c0 ∈ cols → x ∈ taskIds c0 → x ≠ id →
  ∃ d, d ∈ detach id t cols ∧ x ∈ taskIds d.
Proof.
  intros Hc0 Hx Hne. unfold detach. case_match; [|by exists c0].
  rewrite remove_from_column_map. apply (map_taskIds_keeps _ _ _ c0); [done..|].
  intros l Hl. by apply elem_of_remove_first_ne.
Qed.

Lemma elem_of_splice_insert x start id (l : list ObjectId) :
  x ∈ JS.splice_insert start id l ↔ x = id ∨ x ∈ l.
Proof. by rewrite splice_insert_Permutation, elem_of_cons. Qed.

Lemma moveTask_preserves_listed st uid id columnId order :
  all_listed st → all_listed (moveTask st uid id columnId order).2.
Proof.
  intros Hall. unfold moveTask, withTaskAccess.
  destruct (canAccessTask st uid id) as [[t b p]|r] eqn:Hacc; [|done].
  apply canAccessTask_Granted in Hacc as [Ht Hb]. simpl in Ht, Hb.
  unfold moveTask_handler. simpl.
  destruct (JS.isNumeric _); [|done]. simpl.
  set (n := JS.to_double order).
  destruct (JS.findIndex (has_id columnId) (columns b)) as [ti|] eqn:Hti;
    [|done].
  destruct (negb (valid_board _)); [done|].
  assert (JS.findIndex (has_id columnId) (detach id t (columns b)) = Some ti)
    as HtiD by by rewrite (findIndex_same_ids _ _ _ (detach_ids _ _ _)).
  destruct (findIndex_has_id_Some _ _ _ HtiD) as (dt & Hdt & _).
  set (cols' := map_taskIds (JS.splice_insert n id) ti
                  (detach id t (columns b))).
  assert (∀ x task,
            x = id ∨ (tasks st !! x = Some task
                      ∧ task_board task = task_board t) →
            ∃ c, c ∈ cols' ∧ x ∈ taskIds c) as Hin.
  { intros x task. destruct (decide (x = id)) as [->|Hne].
    - intros _.
      pose proof (map_taskIds_lookup (JS.splice_insert n id) ti
                    (detach id t (columns b)) ti) as Hl.
      rewrite Hdt in Hl. simpl in Hl. rewrite decide_True in Hl by done.
      eexists. split; [by eapply list_elem_of_lookup_2|]. simpl.
      apply elem_of_splice_insert. by left.
    - intros [?|[Hx HB]]; [done|].
      destruct (Hall _ _ Hx) as (b' & c0 & Hb' & Hc0 & Hxc0).
      rewrite HB, Hb in Hb'. injection Hb' as <-.
      destruct (detach_keeps id t _ _ _ Hc0 Hxc0 Hne) as (d & Hd & Hxd).
      apply (map_taskIds_keeps _ _ _ d); [done..|].
      intros l Hl. apply elem_of_splice_insert. by right. }
  destruct (negb (valid_task _)); simpl.
  - eapply (all_listed_step st _ (task_board t) b cols'); [done|done|..].
    + simpl. unfold move_in_board. by rewrite alter_set_taskIds.
    + intros x task Hx HB. apply (Hin x task). by right.
    + done.
  - eapply (all_listed_step st _ (task_board t) b cols'); [done|done|..].
    + simpl. unfold move_in_board. by rewrite alter_set_taskIds.
    + intros x task. simpl. destruct (decide (x = id)) as [->|Hne].
      * intros _ _. apply (Hin id t). by left.
      * rewrite lookup_insert_ne by done. intros Hx HB.
        apply (Hin x task). by right.
    + intros x task. simpl. destruct (decide (x = id)) as [->|Hne].
      * rewrite lookup_insert_eq. by intros [= <-] [].
      * by rewrite lookup_insert_ne.
Qed.

Lemma deleteTask_preserves_listed st uid id :
  all_listed st → all_listed (deleteTask st uid id).2.
Proof.
  intros Hall. unfold deleteTask, withTaskAccess.
  destruct (canAccessTask st uid id) as [[t b p]|r] eqn:Hacc; [|done].
  apply canAccessTask_Granted in Hacc as [Ht Hb]. simpl in Ht, Hb.
  destruct (deleteTask_store st uid id t b p Hb)
    as [(_ & Hboards & Htasks)|(_ & -> & _)]; [|done].
  eapply (all_listed_step st _ (task_board t) b (detach id t (columns b)));
    [done|done|exact Hboards|..].
  - intros x task. rewrite Htasks. intros [Hne Hx]%lookup_delete_Some HB.
    destruct (Hall _ _ Hx) as (b' & c0 & Hb' & Hc0 & Hxc0).
    rewrite HB, Hb in Hb'. injection Hb' as <-.
    by apply (detach_keeps id t _ c0).
  - intros x task. rewrite Htasks. by intros [_ Hx]%lookup_delete_Some.
Qed.

(** A created task is listed by its column, unless the route stops
    between the two writes: the task is stored and the board, whose
    stored titles do not pass, is not saved. *)
Lemma createTask_listed_cases st uid req newId :
  all_listed st →
  all_listed (createTask st uid req newId).2
  ∨ (status (createTask st uid req newId).1 = 500
     ∧ ∃ b, boards st !! nt_boardId req = Some b ∧ valid_board b = false).
Proof.
  intros Hall. unfold createTask.
  case_bool_decide; [by left|].
  destruct (boards st !! nt_boardId req) as [b|] eqn:Hb; [|by left].
  destruct (JS.findIndex (has_id (nt_columnId req)) (columns b))
    as [ci|] eqn:Hci; [|by left].
  destruct (projects st !! board_project b) as [p|]; [|by left].
  destruct (negb (isMember uid p)); [by left|].
  destruct (JS.blank (nt_title req)); [by left|]. simpl.
  case_bool_decide as Hnew; [by left|].
  rewrite (valid_board_same_titles b) by (try done; by apply fmap_alter_same).
  destruct (valid_board b) eqn:Hvb; simpl.
  2: { right. split; [done|]. by exists b. }
  left.
  destruct (findIndex_has_id_Some _ _ _ Hci) as (cc & Hcc & _).
  set (task := mkTask _ _ _ _ _ _ _).
  set (st4 := if bool_decide _ then _ else _).
  assert (boards st4
          = <[nt_boardId req :=
                set_columns (map_taskIds (λ l, l ++ [newId]) ci (columns b)) b]>
              (boards st)
          ∧ tasks st4 = <[newId := task]> (tasks st)) as [Hboards Htasks].
  { unfold st4. rewrite (alter_set_taskIds (λ l, l ++ [newId])).
    by case_bool_decide. }
  simpl.
  eapply (all_listed_step st _ (nt_boardId req) b);
    [done|done|exact Hboards|..].
  - intros x t. rewrite Htasks. destruct (decide (x = newId)) as [->|Hne].
    + intros _ _.
      pose proof (map_taskIds_lookup (λ l, l ++ [newId]) ci (columns b) ci)
        as Hl.
      rewrite Hcc in Hl. simpl in Hl. rewrite decide_True in Hl by done.
      eexists. split; [by eapply list_elem_of_lookup_2|]. simpl.
      apply elem_of_app. right. by apply list_elem_of_singleton.
    + rewrite lookup_insert_ne by done. intros Hx HB.
      destruct (Hall _ _ Hx) as (b' & c0 & Hb' & Hc0 & Hxc0).
      rewrite HB, Hb in Hb'. injection Hb' as <-.
      apply (map_taskIds_keeps _ _ _ c0); [done..|].
      intros l Hl. apply elem_of_app. by left.
  - intros x t. rewrite Htasks. destruct (decide (x = newId)) as [->|Hne].
    + rewrite lookup_insert_eq. by intros [= <-] [].
    + by rewrite lookup_insert_ne.
Qed.

(** A request to a task route that succeeds keeps the store well formed
    and every task listed. *)
Lemma handle_task_succeeds st q :
  status (handle_task st q).1 = 200 ∨ status (handle_task st q).1 = 201 →
  (store_wf st → store_wf (handle_task st q).2)
  ∧ (all_listed st → all_listed (handle_task st q).2).
Proof.
  intros Hok. destruct q; simpl in *.
  - split; [apply createTask_preserves_wf|].
    intros Hall.
    destruct (createTask_listed_cases st uid req newId Hall)
      as [?|[Hs _]]; [done|].
    rewrite Hs in Hok. by destruct Hok.
  - split; [|apply moveTask_preserves_listed].
    intros Hwf.
    destruct (moveTask_wf_cases st uid id columnId order Hwf)
      as [?|[Hs _]]; [done|].
    rewrite Hs in Hok. by destruct Hok.
  - split; [apply deleteTask_preserves_wf|apply deleteTask_preserves_listed].
Qed.

Lemma run_tasks_succeeds st qs :
  Forall (λ s, s = 200 ∨ s = 201) (run_statuses st qs) →
  (store_wf st → store_wf (run_tasks st qs))
  ∧ (all_listed st → all_listed (run_tasks st qs)).
Proof.
  revert st. induction qs as [|q qs IH]; intros st Hok; [done|].
  simpl in *. apply Forall_cons in Hok as [Hq Hqs].
  destruct (handle_task_succeeds st q Hq) as [Hwf Hall].
  destruct (IH _ Hqs) as [Hwf' Hall']. split; auto.
Qed.

Lemma store_wf_column_consistent st : store_wf st → column_consistent st.
Proof.
  intros Hwf id task bid board c Ht Hb Hc Hid.
  destruct (wf_listed _ Hwf _ _ _ _ Hb Hc Hid) as (t' & ? & _ & ?).
  congruence.
Qed.

(** C3 (amended): from a well-formed store, after any sequence of
    createTask, moveTask and deleteTask requests that all succeed (each
    is answered 200 or 201), every task's [column] is the id of the
    column whose [taskIds] lists it.  The store is still well formed (a
    listed id is a stored task of that board, listed once), and if every
    task was listed by a column of its board, this still holds. *)
Theorem C3_column_field_consistent st qs :
  store_wf st →
  Forall (λ s, s = 200 ∨ s = 201) (run_statuses st qs) →
  column_consistent (run_tasks st qs)
  ∧ store_wf (run_tasks st qs)
  ∧ (all_listed st → all_listed (run_tasks st qs)).
Proof.
  intros Hwf Hok. destruct (run_tasks_succeeds st qs Hok) as [Hwf' Hall'].
  split_and!; [by apply store_wf_column_consistent; auto|auto|done].
Qed.

Lemma sample_st0_wf : store_wf Sample.st0.
Proof.
  assert (∀ bid b, boards Sample.st0 !! bid = Some b →
            boards Sample.st0 !! Sample.main = Some b) as Hmain.
  { intros bid b Hb. assert (bid = Sample.main) as ->; [|done].
    apply elem_of_dom_2 in Hb.
    assert (dom (boards Sample.st0) = {[Sample.main]}) as Hdom
      by (vm_compute; reflexivity).
    rewrite Hdom in Hb. by apply elem_of_singleton in Hb. }
  split.
  - intros bid b c x Hb%Hmain Hc Hx. vm_compute in Hb. injection Hb as <-.
    simpl in Hc.
    repeat (apply elem_of_cons in Hc as [->|Hc]);
      try (by apply elem_of_nil in Hx). by apply elem_of_nil in Hc.
  - intros bid b Hb%Hmain. vm_compute in Hb. injection Hb as <-.
    compute_done.
  - intros bid b c Hb%Hmain Hc. vm_compute in Hb. injection Hb as <-.
    simpl in Hc.
    repeat (apply elem_of_cons in Hc as [->|Hc]); try apply NoDup_nil_2.
    by apply elem_of_nil in Hc.
Qed.


(** Against C3 as stated: two tasks are created in "To Do" and the first one
    is deleted: every request succeeds, the remaining task is at index 0 of
    the column and still has [order] 1. *)
Lemma order_field_drifts_after_delete :
  let qs := [CreateTask Sample.alice Sample.fix_bug Sample.t1;
             CreateTask Sample.alice Sample.write_doc Sample.t2;
             DeleteTask Sample.alice Sample.t1] in
  let st' := run_tasks Sample.st0 qs in
  store_wf Sample.st0
  ∧ order_consistent Sample.st0
  ∧ run_statuses Sample.st0 qs = [201; 201; 200]
  ∧ (∃ t b,
       tasks st' !! Sample.t2 = Some t
       ∧ boards st' !! Sample.main = Some b
       ∧ column_taskIds Sample.todoId b = [Sample.t2]
       ∧ task_column t = Sample.todoId
       ∧ task_order t = 1%Z)
  ∧ ¬ order_consistent st'.
Proof.
  split; [apply sample_st0_wf|]. split.
  { intros id task bid board c i Ht. vm_compute in Ht. done. }
  split; [reflexivity|]. split.
  { eexists _, _. split_and!; reflexivity. }
  intros Hok.
  specialize (Hok Sample.t2 _ Sample.main _
                (mkColumn Sample.todoId "To Do" 0 [Sample.t2]) 0
                eq_refl eq_refl).
  simpl in Hok. discriminate Hok; [by left|done].
Qed.

Lemma C3_column_field_consistent_witness :
  let st' :=
    run_tasks Sample.st0
      [CreateTask Sample.alice Sample.fix_bug Sample.t1;
       CreateTask Sample.alice Sample.write_doc Sample.t2;
       MoveTask Sample.alice Sample.t1 Sample.doneId 0;
       DeleteTask Sample.alice Sample.t2] in
  column_consistent st' ∧ store_wf st' ∧ all_listed st'.
Proof.
  destruct (C3_column_field_consistent Sample.st0
              [CreateTask Sample.alice Sample.fix_bug Sample.t1;
               CreateTask Sample.alice Sample.write_doc Sample.t2;
               MoveTask Sample.alice Sample.t1 Sample.doneId 0;
               DeleteTask Sample.alice Sample.t2] sample_st0_wf)
    as (Hcol & Hwf & Hlisted).
  { compute_done. }
  split_and!; [exact Hcol|exact Hwf|].
  apply Hlisted. intros id task Ht. vm_compute in Ht. done.
Defined.


Example move_once_sample :
  let once := moveTask Sample.st3 Sample.alice Sample.t3 Sample.todoId 1 in
  status once.1 = 200
  ∧ (column_taskIds Sample.todoId <$> boards once.2 !! Sample.main)
    = Some [Sample.t1; Sample.t3; Sample.t2].
Proof. split; reflexivity. Qed.

(** * Properties of the other routes *)

(** ** Frames: what a route leaves alone *)

(** Unfolds a route down to its branches. *)
Ltac route_cases :=
  unfold createColumn, deleteColumn, reorderColumns, deleteBoard, updateBoard,
    updateColumn, putColumn, getTask, deleteTask, moveTask, updateTask,
    withBoardAccess, withTaskAccess, createColumn_handler,
    deleteColumn_handler, reorderColumns_handler, deleteBoard_handler,
    updateBoard_handler, updateColumn_handler, deleteTask_handler,
    moveTask_handler, updateTask_handler, createTask, createBoard;
  repeat (case_match; simpl in *; simplify_eq; try done).

Lemma handle_column_projects st q :
  projects (handle_column st q).2 = projects st.
Proof. destruct q; simpl; route_cases. Qed.

Lemma handle_task_projects st q :
  projects (handle_task st q).2 = projects st.
Proof. destruct q; simpl; route_cases. Qed.

Lemma board_routes_projects st uid :
  (∀ id, projects (deleteBoard st uid id).2 = projects st)
  ∧ (∀ id t d, projects (updateBoard st uid id t d).2 = projects st)
  ∧ (∀ id c t, projects (updateColumn st uid id c t).2 = projects st)
  ∧ (∀ t d p n c1 c2 c3,
       projects (createBoard st uid t d p n c1 c2 c3).2 = projects st)
  ∧ (∀ id req, projects (updateTask st uid id req).2 = projects st).
Proof. split_and!; intros; route_cases. Qed.

(** ** Members *)

Lemma existsb_is_user uid (ms : list Member) :
  existsb (is_user uid) ms = true ↔ uid ∈ m_user <$> ms.
Proof.
  induction ms as [|m ms IH]; simpl.
  - split; [done|]. by intros ?%elem_of_nil.
  - rewrite orb_true_iff, IH, elem_of_cons. unfold is_user.
    rewrite bool_decide_eq_true. split; (intros [?|?]; [by left|by right]).
Qed.

Lemma findIndex_is_user uid (ms : list Member) i :
  JS.findIndex (is_user uid) ms = Some i →
  ∃ m, ms !! i = Some m ∧ m_user m = uid.
Proof.
  intros (m & Hm & Hp & _)%findIndex_Some. exists m. split; [done|].
  by apply bool_decide_eq_true in Hp.
Qed.

(** With no user listed twice, [find] returns the entry of the user. *)
Lemma find_is_user (ms : list Member) m :
  NoDup (m_user <$> ms) → m ∈ ms →
  JS.find (is_user (m_user m)) ms = Some m.
Proof.
  intros Hnd [i Hi]%list_elem_of_lookup_1.
  rewrite find_findIndex.
  rewrite (findIndex_first _ _ i m); [done|done|by apply bool_decide_eq_true|].
  intros j y Hj Hy. apply bool_decide_eq_false. intros Heq.
  assert (j = i); [|lia].
  apply (NoDup_lookup _ j i (m_user m) Hnd).
  - by rewrite list_lookup_fmap, Hy, <- Heq.
  - by rewrite list_lookup_fmap, Hi.
Qed.

Lemma isAdminOrOwner_Granted st uid id p :
  isAdminOrOwner st uid id = Granted p →
  projects st !! id = Some p
  ∧ ∃ m, JS.find (is_user uid) (members p) = Some m
         ∧ (m_role m = admin ∨ m_role m = owner).
Proof.
  unfold isAdminOrOwner. intros H.
  destruct (projects st !! id) as [p'|]; [|done].
  destruct (JS.find (is_user uid) (members p')) as [m|] eqn:Hm; [|done].
  case_bool_decide; [|done]. injection H as <-. eauto.
Qed.

Lemma project_ok_add p userId role :
  project_ok p → role ≠ owner →
  existsb (is_user userId) (members p) = false →
  project_ok (set_members (members p ++ [mkMember userId role]) p).
Proof.
  intros [Hnd Hown Hsingle] Hrole Hnew. split; simpl.
  - rewrite fmap_app. apply NoDup_app. split_and!; [done| |apply NoDup_singleton].
    intros x Hx ->%list_elem_of_singleton.
    simpl in Hx. pose proof (proj2 (existsb_is_user _ _) Hx). congruence.
  - apply elem_of_app. by left.
  - intros m [Hm|Hm%list_elem_of_singleton]%elem_of_app;
      [by apply Hsingle|].
    by subst m.
Qed.

Lemma project_ok_set_role p userId role i :
  project_ok p → role ≠ owner → project_owner p ≠ userId →
  JS.findIndex (is_user userId) (members p) = Some i →
  project_ok (set_members (alter (set_role role) i (members p)) p).
Proof.
  intros [Hnd Hown Hsingle] Hrole Hne Hi.
  destruct (findIndex_is_user _ _ _ Hi) as (mi & Hmi & Hu).
  split; simpl.
  - by rewrite (list_fmap_alter m_user (set_role role) id),
               list_alter_id by (by apply Forall_true || done).
  - apply list_elem_of_lookup_1 in Hown as [j Hj].
    apply (list_elem_of_lookup_2 _ j).
    rewrite list_lookup_alter_ne; [done|]. intros <-.
    rewrite Hmi in Hj. injection Hj as ->. by simpl in Hu.
  - intros m [j Hj]%list_elem_of_lookup_1 Hr.
    destruct (decide (i = j)) as [<-|Hij].
    + rewrite list_lookup_alter_eq, Hmi in Hj. injection Hj as <-.
      by simpl in Hr.
    + rewrite list_lookup_alter_ne in Hj by done.
      apply Hsingle; [|done]. by eapply list_elem_of_lookup_2.
Qed.

Lemma project_ok_remove p userId i :
  project_ok p → project_owner p ≠ userId →
  JS.findIndex (is_user userId) (members p) = Some i →
  project_ok (set_members (delete i (members p)) p)
  ∧ userId ∉ m_user <$> delete i (members p).
Proof.
  intros [Hnd Hown Hsingle] Hne Hi.
  destruct (findIndex_is_user _ _ _ Hi) as (mi & Hmi & Hu).
  pose proof (delete_Permutation _ _ _ Hmi) as Hperm.
  assert (NoDup (m_user mi :: (m_user <$> delete i (members p)))) as Hnd'.
  { by rewrite <- fmap_cons, <- Hperm. }
  apply NoDup_cons in Hnd' as [Hnot Hnd']. rewrite Hu in Hnot.
  split; [|done]. split; simpl.
  - done.
  - rewrite Hperm in Hown. apply elem_of_cons in Hown as [Heq|?]; [|done].
    subst mi. by simpl in Hu.
  - intros m Hm. apply Hsingle. rewrite Hperm. by right.
Qed.

Lemma projects_ok_insert st st' id p' :
  projects_ok st → project_ok p' →
  projects st' = <[id := p']> (projects st) → projects_ok st'.
Proof.
  intros Hok Hp' Hst' i p. rewrite Hst'.
  destruct (decide (id = i)) as [->|Hne].
  - rewrite lookup_insert_eq. by intros [= <-].
  - rewrite lookup_insert_ne by done. apply Hok.
Qed.

Lemma projects_ok_same st st' :
  projects_ok st → projects st' = projects st → projects_ok st'.
Proof. intros Hok Heq i p. rewrite Heq. apply Hok. Qed.

Lemma createProject_projects_ok st uid name description ids :
  projects_ok st → projects_ok (createProject st uid name description ids).2.
Proof.
  intros Hok. unfold createProject.
  case_bool_decide; [done|].
  destruct (JS.blank name || _); [done|].
  assert (project_ok
            (project_pre_save true
               (mkProject (JS.trim name) (JS.trim description) uid []))).
  { split; simpl.
    - apply NoDup_singleton.
    - by left.
    - by intros m ->%list_elem_of_singleton. }
  case_bool_decide; simpl; by eapply projects_ok_insert.
Qed.

Lemma member_routes_projects_ok users st uid id :
  projects_ok st →
  (∀ userId role, projects_ok (addMember users st uid id userId role).2)
  ∧ (∀ userId role, projects_ok (updateMemberRole st uid id userId role).2)
  ∧ (∀ userId, projects_ok (removeMember st uid id userId).2)
  ∧ (∀ n d, projects_ok (updateProject st uid id n d).2)
  ∧ projects_ok (deleteProject st uid id).2.
Proof.
  intros Hok.
  unfold addMember, updateMemberRole, removeMember, updateProject,
    deleteProject, withAdminOrOwner.
  destruct (isAdminOrOwner st uid id) as [p|r] eqn:Hacc; [|done].
  apply isAdminOrOwner_Granted in Hacc as [Hp _].
  pose proof (Hok _ _ Hp) as Hpok.
  split_and!.
  - intros userId role. unfold addMember_handler.
    case_bool_decide as Hrole; [done|].
    destruct (negb _); [done|].
    destruct (existsb _ _) eqn:Hmem; [done|].
    destruct (negb (valid_project _)); [done|].
    simpl. eapply projects_ok_insert; [done| |done].
    by apply project_ok_add.
  - intros userId role. unfold updateMemberRole_handler.
    case_bool_decide as Hrole; [done|].
    case_bool_decide as Hown; [done|].
    destruct (JS.findIndex _ _) as [i|] eqn:Hi; [|done].
    destruct (negb (valid_project _)); [done|].
    simpl. eapply projects_ok_insert; [done| |done].
    by apply (project_ok_set_role _ userId).
  - intros userId. unfold removeMember_handler.
    case_bool_decide as Hown; [done|].
    destruct (JS.findIndex _ _) as [i|] eqn:Hi; [|done].
    destruct (negb (valid_project _)); [done|].
    simpl. eapply projects_ok_insert; [done| |done].
    by apply (project_ok_remove _ userId).
  - intros n d. unfold updateProject_handler.
    case_bool_decide; [done|]. simpl.
    eapply projects_ok_insert; [done| |done].
    destruct Hpok. by split.
  - destruct (negb _); [done|]. simpl.
    intros i p' Hi. simpl in Hi.
    apply lookup_delete_Some in Hi as [_ Hi]. by eapply Hok.
Qed.

Lemma handle_projects_ok users st uid q :
  projects_ok st → projects_ok (handle users st uid q).2.
Proof.
  intros Hok.
  destruct q; simpl.
  - by apply createProject_projects_ok.
  - by apply (member_routes_projects_ok users st uid id Hok).
  - by apply (member_routes_projects_ok users st uid id Hok).
  - by apply (member_routes_projects_ok users st uid id Hok).
  - by apply (member_routes_projects_ok users st uid id Hok).
  - by apply (member_routes_projects_ok users st uid id Hok).
  - eapply projects_ok_same; [done|]. apply board_routes_projects.
  - eapply projects_ok_same; [done|]. apply board_routes_projects.
  - eapply projects_ok_same; [done|]. apply board_routes_projects.
  - eapply projects_ok_same; [done|]. apply handle_column_projects.
  - eapply projects_ok_same; [done|]. apply board_routes_projects.
  - eapply projects_ok_same; [done|]. apply handle_task_projects.
  - eapply projects_ok_same; [done|]. apply board_routes_projects.
Qed.

(** ** Well-formedness under every route *)



Lemma same_columns_elem (cols cols' : list Column) c :
  col_id <$> cols' = col_id <$> cols →
  taskIds <$> cols' = taskIds <$> cols →
  c ∈ cols' →
  ∃ c0, c0 ∈ cols ∧ col_id c = col_id c0 ∧ taskIds c = taskIds c0.
Proof.
  intros Hids Htasks [j Hj]%list_elem_of_lookup_1.
  assert ((col_id <$> cols) !! j = Some (col_id c)) as H1
    by by rewrite <- Hids, list_lookup_fmap, Hj.
  assert ((taskIds <$> cols) !! j = Some (taskIds c)) as H2
    by by rewrite <- Htasks, list_lookup_fmap, Hj.
  rewrite list_lookup_fmap in H1. rewrite list_lookup_fmap in H2.
  destruct (cols !! j) as [c0|] eqn:Hc0; [|done].
  simpl in H1, H2. injection H1 as H1. injection H2 as H2.
  exists c0. split; [by eapply list_elem_of_lookup_2|done].
Qed.



(** In a store whose required strings are not empty, every document
    passes the checks of [save()]. *)
Lemma titled_valid st :
  titled st →
  (∀ id p, projects st !! id = Some p → valid_project p = true)
  ∧ (∀ id b, boards st !! id = Some b → valid_board b = true)
  ∧ (∀ id t, tasks st !! id = Some t → valid_task t = true).
Proof.
  intros [Hp Hb Hc Ht]. split_and!.
  - intros id p Hid. apply negb_true_iff, bool_decide_eq_false. eauto.
  - intros id b Hid. apply valid_board_spec. split; [eauto|].
    apply Forall_forall. intros c Hin Hempty.
    apply (Hc _ _ Hid). rewrite <- Hempty. by apply list_elem_of_fmap_2.
  - intros id t Hid. apply negb_true_iff, bool_decide_eq_false. eauto.
Qed.




(** The tasks of the column are deleted in any case. *)
Lemma deleteColumn_tasks st uid id columnId ctx i c :
  JS.findIndex (has_id columnId) (columns (req_board ctx)) = Some i →
  columns (req_board ctx) !! i = Some c →
  tasks (deleteColumn_handler id uid columnId ctx st).2
  = deleteMany_ids (taskIds c) (tasks st).
Proof.
  intros Hi Hc. unfold deleteColumn_handler. cbv zeta. rewrite Hi, Hc.
  simpl.
  assert (tasks (if bool_decide (0 < length (taskIds c))
                 then set_tasks (deleteMany_ids (taskIds c) (tasks st)) st
                 else st)
          = deleteMany_ids (taskIds c) (tasks st)) as Htasks.
  { case_bool_decide as Hlen; simpl; [done|].
    destruct (taskIds c); [|simpl in Hlen; lia].
    apply map_eq. intros k. rewrite lookup_deleteMany_ids.
    case_decide as Hk; [by apply elem_of_nil in Hk|done]. }
  by destruct (negb (valid_board _)).
Qed.

(** The board is written when it passes the checks of [save()]. *)
Lemma deleteColumn_store st uid id columnId ctx i c :
  JS.findIndex (has_id columnId) (columns (req_board ctx)) = Some i →
  columns (req_board ctx) !! i = Some c →
  valid_board (req_board ctx) = true →
  let st' := (deleteColumn_handler id uid columnId ctx st).2 in
  boards st'
  = <[id := set_columnOrder
              (remove_first columnId (columnOrder (req_board ctx)))
              (set_columns (delete i (columns (req_board ctx)))
                           (req_board ctx))]> (boards st)
  ∧ tasks st' = deleteMany_ids (taskIds c) (tasks st).
Proof.
  intros Hi Hc Hv.
  split; [|by apply (deleteColumn_tasks st uid id columnId ctx i c)].
  unfold deleteColumn_handler. cbv zeta. rewrite Hi.
  rewrite (splice_columnOrder columnId (set_columns _ _)). rewrite Hc.
  simpl.
  rewrite (valid_board_columns (req_board ctx))
    by (try done; apply Forall_delete).
  simpl. by case_bool_decide.
Qed.








Lemma member_routes_frame users st uid id :
  (∀ userId role,
     boards (addMember users st uid id userId role).2 = boards st
     ∧ tasks (addMember users st uid id userId role).2 = tasks st)
  ∧ (∀ userId role,
     boards (updateMemberRole st uid id userId role).2 = boards st
     ∧ tasks (updateMemberRole st uid id userId role).2 = tasks st)
  ∧ (∀ userId,
     boards (removeMember st uid id userId).2 = boards st
     ∧ tasks (removeMember st uid id userId).2 = tasks st)
  ∧ (∀ n d,
     boards (updateProject st uid id n d).2 = boards st
     ∧ tasks (updateProject st uid id n d).2 = tasks st).
Proof.
  unfold addMember, updateMemberRole, removeMember, updateProject,
    withAdminOrOwner, addMember_handler, updateMemberRole_handler,
    removeMember_handler, updateProject_handler.
  split_and!; intros; repeat (case_match; simpl; try done).
Qed.



(** ** Moving twice: where it is not the same as moving once *)


(** * Properties of sequences of requests, of members and of roles *)

(** ** The scenario *)

Lemma sample_projects_ok : projects_ok Sample.st2.
Proof.
  apply (projects_ok_same Sample.st0); [|done].
  change Sample.st0 with
    (createProject Sample.empty_store Sample.alice "Eng" "Engineering"
                   Sample.ids).2.
  apply createProject_projects_ok. by intros id p Hp.
Qed.

Lemma sample_st2_wf : store_wf Sample.st2.
Proof.
  change Sample.st2 with
    (run_tasks Sample.st0
       [CreateTask Sample.alice Sample.fix_bug Sample.t1;
        CreateTask Sample.alice Sample.write_doc Sample.t2]).
  refine (proj1 (run_tasks_succeeds Sample.st0 _ _) sample_st0_wf).
  compute_done.
Qed.

Lemma scenario_final :
  run Scenario.users Sample.st2 Scenario.requests = Scenario.final.
Proof. vm_compute. reflexivity. Qed.

Lemma scenario_team :
  run Scenario.users Sample.st2 Scenario.joining = Scenario.team.
Proof. vm_compute. reflexivity. Qed.

(** ** The members of a project *)

Lemma projects_ok_run users st qs :
  projects_ok st → projects_ok (run users st qs).
Proof.
  revert st. induction qs as [|q qs IH]; intros st Hok; [done|].
  apply IH, handle_projects_ok, Hok.
Qed.

(** X1: whatever the requests and whoever sends them, the member list of
    every project keeps its shape: no user is listed twice, the owner is
    listed with the role [owner], and nobody else has that role. *)
Theorem run_projects_ok users st qs :
  projects_ok st → projects_ok (run users st qs).
Proof.
  revert st. induction qs as [|[uid q] qs IH]; intros st Hok; [done|].
  simpl. apply IH. by apply handle_projects_ok.
Qed.

Lemma run_projects_ok_witness :
  projects_ok Sample.st2
  ∧ projects_ok (run Scenario.users Sample.st2 Scenario.requests).
Proof.
  split; [apply sample_projects_ok|].
  apply (run_projects_ok Scenario.users Sample.st2 Scenario.requests).
  apply sample_projects_ok.
Defined.

Lemma owner_is_granted st id p :
  projects_ok st → projects st !! id = Some p →
  isAdminOrOwner st (project_owner p) id = Granted p
  ∧ isMember (project_owner p) p = true.
Proof.
  intros Hok Hp. destruct (Hok _ _ Hp) as [Hnd Hown Hsingle].
  pose proof (find_is_user _ _ Hnd Hown) as Hfind. simpl in Hfind.
  split.
  - unfold isAdminOrOwner. rewrite Hp, Hfind.
    case_bool_decide as Hrole; [done|]. destruct Hrole. by right.
  - apply existsb_is_user.
    by apply (list_elem_of_fmap_2 m_user) in Hown.
Qed.

(** X2: the owner of a project is never locked out.  After any sequence
    of requests, the owner of a project that is still stored passes
    [isAdminOrOwner] and the member check of the board and task routes,
    and may delete the project; and no request of any user removes the
    owner from the members or changes the owner's role. *)
Theorem owner_keeps_control users st qs id p :
  projects_ok st →
  projects (run users st qs) !! id = Some p →
  let st' := run users st qs in
  isAdminOrOwner st' (project_owner p) id = Granted p
  ∧ isMember (project_owner p) p = true
  ∧ status (deleteProject st' (project_owner p) id).1 = 200
  ∧ (∀ uid, code (removeMember st' uid id (project_owner p)).1 ≠ 200)
  ∧ (∀ uid role,
       code (updateMemberRole st' uid id (project_owner p) role).1 ≠ 200).
Proof.
  intros Hok Hp st'.
  pose proof (projects_ok_run users st qs Hok) as Hok'. fold st' in Hok', Hp.
  destruct (owner_is_granted _ _ _ Hok' Hp) as [Hacc Hmem].
  split_and!; [done|done|..].
  - unfold deleteProject. rewrite Hacc.
    by rewrite bool_decide_eq_true_2.
  - intros uid. unfold removeMember, withAdminOrOwner.
    destruct (isAdminOrOwner st' uid id) as [p'|r] eqn:Hu.
    + apply isAdminOrOwner_Granted in Hu as [Hp' _].
      assert (p' = p) as -> by congruence.
      unfold removeMember_handler. by rewrite bool_decide_eq_true_2.
    + unfold isAdminOrOwner in Hu. rewrite Hp in Hu.
      repeat case_match; by simplify_eq.
  - intros uid role. unfold updateMemberRole, withAdminOrOwner.
    destruct (isAdminOrOwner st' uid id) as [p'|r] eqn:Hu.
    + apply isAdminOrOwner_Granted in Hu as [Hp' _].
      assert (p' = p) as -> by congruence.
      unfold updateMemberRole_handler.
      case_bool_decide; [done|]. by rewrite bool_decide_eq_true_2.
    + unfold isAdminOrOwner in Hu. rewrite Hp in Hu.
      repeat case_match; by simplify_eq.
Qed.

Lemma owner_keeps_control_witness :
  let st' := run Scenario.users Sample.st2 Scenario.requests in
  ∃ p, projects st' !! Sample.eng = Some p
       ∧ project_owner p = Sample.alice
       ∧ status (deleteProject st' (project_owner p) Sample.eng).1 = 200.
Proof.
  eexists. split; [vm_compute; reflexivity|]. split; [reflexivity|].
  eapply (owner_keeps_control Scenario.users Sample.st2 Scenario.requests
            Sample.eng).
  - apply sample_projects_ok.
  - vm_compute. reflexivity.
Defined.

(** X3: among the members of a well-shaped project, exactly the owner
    can delete it: the route answers 200 to the owner, and 403 or 404
    to everybody else, admins included, leaving the store as it is. *)
Theorem deleteProject_only_owner st uid id p :
  projects_ok st → projects st !! id = Some p →
  (status (deleteProject st uid id).1 = 200 ↔ uid = project_owner p)
  ∧ (uid ≠ project_owner p →
       status (deleteProject st uid id).1 = 403
       ∧ (deleteProject st uid id).2 = st).
Proof.
  intros Hok Hp.
  assert (uid ≠ project_owner p →
          status (deleteProject st uid id).1 = 403
          ∧ (deleteProject st uid id).2 = st) as Hother.
  { intros Hne. unfold deleteProject, isAdminOrOwner. rewrite Hp.
    destruct (JS.find _ _); [|done].
    case_bool_decide; [|done].
    by rewrite bool_decide_eq_false_2. }
  split; [|done]. split.
  - intros H200. destruct (decide (uid = project_owner p)) as [|Hne]; [done|].
    destruct (Hother Hne) as [H403 _]. congruence.
  - intros ->. destruct (owner_is_granted _ _ _ Hok Hp) as [Hacc _].
    unfold deleteProject. rewrite Hacc. by rewrite bool_decide_eq_true_2.
Qed.

Lemma deleteProject_only_owner_witness :
  status (deleteProject Scenario.team Sample.alice Sample.eng).1 = 200
  ∧ status (deleteProject Scenario.team Sample.bob Sample.eng).1 = 403.
Proof.
  assert (projects_ok Scenario.team) as Hok.
  { rewrite <- scenario_team. apply projects_ok_run, sample_projects_ok. }
  assert (∃ p, projects Scenario.team !! Sample.eng = Some p
               ∧ project_owner p = Sample.alice) as (p & Hp & Hown)
    by (eexists; split; [vm_compute; reflexivity|reflexivity]).
  split.
  - apply (deleteProject_only_owner Scenario.team Sample.alice Sample.eng p
             Hok Hp). by rewrite Hown.
  - apply (deleteProject_only_owner Scenario.team Sample.bob Sample.eng p
             Hok Hp). by rewrite Hown.
Defined.

Lemma addMember_ok users st uid id userId role :
  code (addMember users st uid id userId role).1 = 200 →
  ∃ p, isAdminOrOwner st uid id = Granted p
       ∧ role ≠ owner ∧ userId ∈ users
       ∧ existsb (is_user userId) (members p) = false
       ∧ (addMember users st uid id userId role).2
         = insert_notifications
             [mkNotification userId uid "project_invitation" "project" id
                             (Some id)]
             (log_activity (mkActivity uid "joined" "project" id id None)
                (set_projects
                   (<[id := set_members
                              (members p ++ [mkMember userId role]) p]>
                      (projects st)) st)).
Proof.
  unfold addMember, withAdminOrOwner.
  destruct (isAdminOrOwner st uid id) as [p|r] eqn:Hacc.
  - unfold addMember_handler.
    case_bool_decide as Hrole; [done|].
    case_bool_decide as Huser; simpl; [|done].
    destruct (existsb _ _) eqn:Hmem; [done|].
    destruct (negb (valid_project _)); [done|]. intros _. by exists p.
  - unfold isAdminOrOwner in Hacc. repeat case_match; by simplify_eq.
Qed.

(** X4: a member is added only by an admin or the owner, only with the
    role [admin] or [member], only when the user exists and is not yet a
    member; the new member then passes the access check of every board of
    the project, and boards and tasks are as before. *)
Theorem addMember_grants_access users st uid id userId role :
  code (addMember users st uid id userId role).1 = 200 →
  let st' := (addMember users st uid id userId role).2 in
  (∃ p m, projects st !! id = Some p
          ∧ JS.find (is_user uid) (members p) = Some m
          ∧ (m_role m = admin ∨ m_role m = owner)
          ∧ userId ∉ m_user <$> members p)
  ∧ role ≠ owner ∧ userId ∈ users
  ∧ boards st' = boards st ∧ tasks st' = tasks st
  ∧ (∃ p', projects st' !! id = Some p' ∧ mkMember userId role ∈ members p')
  ∧ (∀ bid b, boards st' !! bid = Some b → board_project b = id →
       ∃ p', canAccessBoard st' userId bid = Granted (mkBoardCtx b p')).
Proof.
  intros H200 st'.
  destruct (addMember_ok _ _ _ _ _ _ H200)
    as (p & Hacc & Hrole & Huser & Hnew & Hst).
  apply isAdminOrOwner_Granted in Hacc as (Hp & m & Hm & Hadmin).
  unfold st'. rewrite Hst. simpl.
  split_and!; try done.
  - exists p, m. split_and!; try done.
    intros Hin%existsb_is_user. congruence.
  - eexists. rewrite lookup_insert_eq. split; [done|]. simpl.
    apply elem_of_app. right. by apply list_elem_of_singleton.
  - intros bid b Hb Hproj. eexists.
    unfold canAccessBoard. simpl. rewrite Hb, Hproj, lookup_insert_eq.
    unfold isMember. simpl. rewrite existsb_app. simpl.
    unfold is_user at 2. simpl. rewrite bool_decide_eq_true_2 by done.
    by rewrite orb_true_r.
Qed.

Lemma addMember_grants_access_witness :
  ∃ p', canAccessBoard
          (addMember Scenario.users Sample.st2 Sample.alice Sample.eng
                     Sample.bob member).2
          Sample.bob Sample.main
        = Granted (mkBoardCtx
                     (mkBoard "Main Board" "Default board for the project"
                        Sample.eng
                        [mkColumn Sample.todoId "To Do" 0 [Sample.t1; Sample.t2];
                         mkColumn Sample.inProgressId "In Progress" 1 [];
                         mkColumn Sample.doneId "Done" 2 []]
                        [Sample.todoId; Sample.inProgressId; Sample.doneId])
                     p').
Proof.
  apply (addMember_grants_access Scenario.users Sample.st2 Sample.alice
           Sample.eng Sample.bob member).
  - vm_compute. reflexivity.
  - vm_compute. reflexivity.
  - reflexivity.
Defined.

Lemma removeMember_ok st uid id userId :
  code (removeMember st uid id userId).1 = 200 →
  ∃ p i, projects st !! id = Some p
         ∧ project_owner p ≠ userId
         ∧ JS.findIndex (is_user userId) (members p) = Some i
         ∧ (removeMember st uid id userId).2
           = log_activity (mkActivity uid "left" "project" id id None)
               (set_projects
                  (<[id := set_members (delete i (members p)) p]>
                     (projects st)) st).
Proof.
  unfold removeMember, withAdminOrOwner.
  destruct (isAdminOrOwner st uid id) as [p|r] eqn:Hacc.
  - apply isAdminOrOwner_Granted in Hacc as [Hp _].
    unfold removeMember_handler.
    case_bool_decide as Hown; [done|].
    destruct (JS.findIndex _ _) as [i|] eqn:Hi; [|done].
    destruct (negb (valid_project _)); [done|].
    intros _. by exists p, i.
  - unfold isAdminOrOwner in Hacc. repeat case_match; by simplify_eq.
Qed.

(** X5: removing a member revokes the access.  When no user is listed
    twice in a project, a user removed from it is afterwards refused (403,
    store unchanged) by every route behind [canAccessBoard] for every
    board of the project, and by every route behind [canAccessTask] for
    every task of such a board. *)
Theorem removeMember_revokes_access st uid id userId :
  projects_ok st →
  code (removeMember st uid id userId).1 = 200 →
  let st' := (removeMember st uid id userId).2 in
  (∀ hb bid b, boards st' !! bid = Some b → board_project b = id →
     Forbidden (withBoardAccess hb st' userId bid).1
     ∧ (withBoardAccess hb st' userId bid).2 = st')
  ∧ (∀ ht tid t b, tasks st' !! tid = Some t →
       boards st' !! task_board t = Some b → board_project b = id →
       Forbidden (withTaskAccess ht st' userId tid).1
       ∧ (withTaskAccess ht st' userId tid).2 = st').
Proof.
  intros Hok H200 st'.
  destruct (removeMember_ok _ _ _ _ H200) as (p & i & Hp & Hown & Hi & Hst).
  destruct (project_ok_remove p userId i (Hok _ _ Hp) Hown Hi) as [_ Hgone].
  assert (isMember userId (set_members (delete i (members p)) p) = false)
    as Hmem.
  { apply not_true_is_false. by intros Hin%existsb_is_user. }
  unfold st'. rewrite Hst. split.
  - intros hb bid b Hb Hproj. simpl in Hb.
    unfold withBoardAccess, canAccessBoard. simpl.
    by rewrite Hb, Hproj, lookup_insert_eq, Hmem.
  - intros ht tid t b Ht Hb Hproj. simpl in Ht, Hb.
    unfold withTaskAccess, canAccessTask. simpl.
    by rewrite Ht, Hb, Hproj, lookup_insert_eq, Hmem.
Qed.

Lemma removeMember_revokes_access_witness :
  let st' := (removeMember Scenario.team Sample.alice Sample.eng
                           Sample.bob).2 in
  Forbidden (moveTask st' Sample.bob Sample.t1 Sample.doneId 0).1
  ∧ (moveTask st' Sample.bob Sample.t1 Sample.doneId 0).2 = st'.
Proof.
  assert (projects_ok Scenario.team) as Hok.
  { rewrite <- scenario_team. apply projects_ok_run, sample_projects_ok. }
  eapply (removeMember_revokes_access Scenario.team Sample.alice Sample.eng
            Sample.bob Hok).
  - vm_compute. reflexivity.
  - vm_compute. reflexivity.
  - vm_compute. reflexivity.
  - reflexivity.
Defined.

(** X6: the role decides who deletes a board.  For a member of the
    board's project (no user being listed twice), the route answers 403
    and changes nothing when the role is [member], and 200 when it is
    [admin] or [owner]. *)
Theorem deleteBoard_needs_admin st uid id b p m :
  board_chain st id = Some (b, p) →
  NoDup (m_user <$> members p) → m ∈ members p → m_user m = uid →
  (m_role m = member →
     Forbidden (deleteBoard st uid id).1 ∧ (deleteBoard st uid id).2 = st)
  ∧ (m_role m ≠ member →
     status (deleteBoard st uid id).1 = 200
     ∧ boards (deleteBoard st uid id).2 = delete id (boards st)).
Proof.
  intros Hc Hnd Hm <-.
  assert (isMember (m_user m) p = true) as Hmem.
  { apply existsb_is_user. by apply list_elem_of_fmap_2. }
  unfold deleteBoard. rewrite (withBoardAccess_granted _ _ _ _ _ _ Hc Hmem).
  unfold deleteBoard_handler. simpl. rewrite (find_is_user _ _ Hnd Hm).
  split.
  - intros Hrole. rewrite bool_decide_eq_false_2; [done|].
    rewrite Hrole. by intros [?|?].
  - intros Hrole. rewrite bool_decide_eq_true_2; [done|].
    destruct (m_role m); [by right|by left|done].
Qed.

Lemma deleteBoard_needs_admin_witness :
  Forbidden
    (deleteBoard
       (addMember Scenario.users Sample.st2 Sample.alice Sample.eng
                  Sample.bob member).2 Sample.bob Sample.main).1
  ∧ status (deleteBoard Scenario.team Sample.bob Sample.main).1 = 200.
Proof.
  split.
  - eapply (deleteBoard_needs_admin _ Sample.bob Sample.main _ _
              (mkMember Sample.bob member)).
    + vm_compute. reflexivity.
    + simpl. compute_done.
    + simpl. repeat constructor.
    + reflexivity.
    + reflexivity.
  - eapply (deleteBoard_needs_admin _ Sample.bob Sample.main _ _
              (mkMember Sample.bob admin)).
    + vm_compute. reflexivity.
    + simpl. compute_done.
    + simpl. repeat constructor.
    + reflexivity.
    + done.
Defined.

(** * Invariants of the store under every route *)

(** ** What becomes of a document *)

Lemma kept_same {A} (m : gmap ObjectId A) (P : A → Prop) :
  ∀ id x, m !! id = Some x → m !! id = Some x ∨ P x.
Proof. by left. Qed.

Lemma kept_insert {A} (m : gmap ObjectId A) k v (P : A → Prop) :
  P v → ∀ id x, <[k := v]> m !! id = Some x → m !! id = Some x ∨ P x.
Proof.
  intros Hv id x [[<- <-]|[_ Hx]]%lookup_insert_Some; [by right|by left].
Qed.

Lemma kept_subseteq {A} (m m' : gmap ObjectId A) (P : A → Prop) :
  m' ⊆ m → ∀ id x, m' !! id = Some x → m !! id = Some x ∨ P x.
Proof. intros Hsub id x Hx. left. by eapply lookup_weaken. Qed.

Lemma detach_fmap {B} (g : Column → B) id t cols :
  (∀ l c, g (set_taskIds l c) = g c) → g <$> detach id t cols = g <$> cols.
Proof.
  intros Hg. unfold detach, remove_from_column.
  repeat case_match; try done. by apply fmap_alter_same.
Qed.

(** The three task routes write at most one board, and change nothing of
    it but the [taskIds] of its columns. *)
Lemma handle_task_shape st q :
  boards (handle_task st q).2 = boards st
  ∨ ∃ B b cols',
      boards st !! B = Some b
      ∧ boards (handle_task st q).2 = <[B := set_columns cols' b]> (boards st)
      ∧ col_id <$> cols' = col_id <$> columns b
      ∧ col_title <$> cols' = col_title <$> columns b
      ∧ col_order <$> cols' = col_order <$> columns b.
Proof.
  destruct q as [uid req newId|uid id columnId order|uid id]; simpl.
  - unfold createTask.
    case_bool_decide; [by left|].
    destruct (boards st !! nt_boardId req) as [b|] eqn:Hb; [|by left].
    destruct (JS.findIndex (has_id (nt_columnId req)) (columns b))
      as [ci|] eqn:Hci; [|by left].
    destruct (projects st !! board_project b) as [p|]; [|by left].
    destruct (negb (isMember uid p)); [by left|].
    destruct (JS.blank (nt_title req)); [by left|]. simpl.
    case_bool_decide as Hnew; [by left|].
    destruct (negb (valid_board _)); [by left|].
    right. eexists (nt_boardId req), b, _. split; [done|].
    split; [by case_bool_decide|].
    split_and!; by apply fmap_alter_same.
  - unfold moveTask, withTaskAccess.
    destruct (canAccessTask st uid id) as [[t b p]|r] eqn:Hacc; [|by left].
    apply canAccessTask_Granted in Hacc as [Ht Hb]. simpl in Ht, Hb.
    unfold moveTask_handler. simpl.
    destruct (JS.isNumeric _); [|by left]. simpl.
    destruct (JS.findIndex (has_id columnId) (columns b)) as [ti|]; [|by left].
    destruct (negb (valid_board _)); [by left|].
    right. eexists (task_board t), b, _. split; [done|].
    split; [by destruct (negb (valid_task _))|].
    split_and!; (rewrite fmap_alter_same by done; by apply detach_fmap).
  - unfold deleteTask, withTaskAccess.
    destruct (canAccessTask st uid id) as [[t b p]|r] eqn:Hacc; [|by left].
    apply canAccessTask_Granted in Hacc as [Ht Hb]. simpl in Ht, Hb.
    destruct (deleteTask_store st uid id t b p Hb)
      as [(_ & Hboards & _)|(_ & Hsame & _)]; [|left; by rewrite Hsame].
    right. eexists (task_board t), b, _. split; [done|].
    split; [exact Hboards|].
    split_and!; by apply detach_fmap.
Qed.

Lemma updateTask_frame st uid id req :
  boards (updateTask st uid id req).2 = boards st.
Proof. route_cases. Qed.

(** ** The column order *)

Lemma columnOrder_ok_step st st' :
  columnOrder_ok st →
  (∀ id b', boards st' !! id = Some b' →
     boards st !! id = Some b' ∨ order_is_permutation b') →
  columnOrder_ok st'.
Proof.
  intros Hok Hstep id b' Hb. destruct (Hstep _ _ Hb) as [?|?]; [|done].
  by eapply Hok.
Qed.

Lemma order_is_permutation_default c1 c2 c3 (b0 : Board) :
  NoDup [c1; c2; c3] → columns b0 = [] →
  order_is_permutation (board_pre_save true c1 c2 c3 b0).
Proof.
  intros Hnd Hempty. unfold board_pre_save. rewrite Hempty. by split.
Qed.

Lemma handle_columnOrder_ok users st uid q :
  columnOrder_ok st → regular_request st q →
  columnOrder_ok (handle users st uid q).2.
Proof.
  intros Hok [Hfresh Hreg].
  destruct q as [n d ids|pid n d|pid|pid u r|pid u r|pid u
                 |t d p newId c1 c2 c3|id t d|id|q|id c t|q|id req]; simpl;
    try (destruct (member_routes_frame users st uid pid)
           as (Hadd & Hrole & Hremove & Hupdate)).
  - unfold createProject.
    case_bool_decide; [done|]. destruct (JS.blank n || _); [done|].
    case_bool_decide; [done|].
    eapply columnOrder_ok_step; [done|]. simpl.
    apply kept_insert. by apply order_is_permutation_default.
  - eapply columnOrder_ok_step; [done|]. rewrite (proj1 (Hupdate _ _)).
    apply kept_same.
  - unfold deleteProject.
    destruct (isAdminOrOwner st uid pid); [|done].
    destruct (negb _); [done|].
    eapply columnOrder_ok_step; [done|]. simpl.
    apply kept_subseteq, map_filter_subseteq.
  - eapply columnOrder_ok_step; [done|]. rewrite (proj1 (Hadd _ _)).
    apply kept_same.
  - eapply columnOrder_ok_step; [done|]. rewrite (proj1 (Hrole _ _)).
    apply kept_same.
  - eapply columnOrder_ok_step; [done|]. rewrite (proj1 (Hremove _)).
    apply kept_same.
  - unfold createBoard.
    case_bool_decide; [done|].
    destruct (projects st !! p); [|done].
    destruct (negb _); [done|]. destruct (JS.blank t || _); [done|].
    eapply columnOrder_ok_step; [done|]. simpl.
    apply kept_insert. by apply order_is_permutation_default.
  - unfold updateBoard, withBoardAccess.
    destruct (canAccessBoard st uid id) as [ctx|r] eqn:Hacc; [|done].
    apply canAccessBoard_Granted in Hacc.
    unfold updateBoard_handler. case_bool_decide; [done|].
    eapply columnOrder_ok_step; [done|]. simpl.
    apply kept_insert. exact (Hok _ _ Hacc).
  - unfold deleteBoard, withBoardAccess.
    destruct (canAccessBoard st uid id) as [ctx|r] eqn:Hacc; [|done].
    unfold deleteBoard_handler. destruct (negb _); [done|].
    eapply columnOrder_ok_step; [done|]. simpl.
    apply kept_subseteq, delete_subseteq.
  - by apply handle_column_preserves.
  - unfold updateColumn, putColumn, withBoardAccess.
    destruct (canAccessBoard st uid id) as [ctx|r] eqn:Hacc; [|done].
    apply canAccessBoard_Granted in Hacc.
    unfold updateColumn_handler. case_bool_decide; [done|].
    destruct (JS.findIndex _ _) as [i|]; [|done].
    destruct t as [t|]; [|done]. destruct (negb (valid_board _)); [done|].
    eapply columnOrder_ok_step; [done|]. simpl.
    apply kept_insert. destruct (Hok _ _ Hacc) as [Hperm Hnd].
    split; [|done]. unfold column_ids. simpl.
    by rewrite fmap_alter_same.
  - destruct (handle_task_shape st q)
      as [Hsame|(B & b & cols' & Hb & Hboards & Hids & _)].
    + eapply columnOrder_ok_step; [done|]. rewrite Hsame. apply kept_same.
    + eapply columnOrder_ok_step; [done|]. rewrite Hboards.
      apply kept_insert. destruct (Hok _ _ Hb) as [Hperm Hnd].
      split; [|done]. unfold column_ids. simpl. by rewrite Hids.
  - eapply columnOrder_ok_step; [done|]. rewrite updateTask_frame.
    apply kept_same.
Qed.

(** X8: [columnOrder] stays a list of the column ids of its board, each
    once, under every sequence of requests to the writing routes in which
    new column ids are new. *)
Theorem run_columnOrder_ok users st qs :
  columnOrder_ok st → along regular_request users st qs →
  columnOrder_ok (run users st qs).
Proof.
  revert st. induction qs as [|q qs IH]; intros st Hok Hqs; [done|].
  destruct Hqs as [Hq Hqs]. apply IH; [|done].
  by apply handle_columnOrder_ok.
Qed.

Lemma sample_st2_columnOrder_ok : columnOrder_ok Sample.st2.
Proof.
  change Sample.st2 with
    (handle ∅
       (handle ∅ Sample.st0 Sample.alice
          (TaskReq (CreateTask Sample.alice Sample.fix_bug Sample.t1))).2
       Sample.alice
       (TaskReq (CreateTask Sample.alice Sample.write_doc Sample.t2))).2.
  apply handle_columnOrder_ok; [|done].
  apply handle_columnOrder_ok; [|done].
  apply sample_st0_columnOrder_ok.
Qed.

Lemma scenario_regular :
  along regular_request Scenario.users Sample.st2 Scenario.requests.
Proof.
  vm_compute. split_and!; try exact I.
  - apply (bool_decide_unpack _). vm_compute. exact I.
  - intros b [= <-].
    apply (bool_decide_unpack
             (Scenario.reviewId
              ∉ [Sample.todoId; Sample.inProgressId; Sample.doneId])).
    vm_compute. exact I.
  - intros b [= <-].
    apply (bool_decide_unpack
             (Scenario.reviewId
              ∉ [Sample.todoId; Sample.inProgressId; Sample.doneId])).
    vm_compute. exact I.
Qed.

Lemma run_columnOrder_ok_witness :
  columnOrder_ok Sample.st2
  ∧ columnOrder_ok (run Scenario.users Sample.st2 Scenario.requests).
Proof.
  split; [apply sample_st2_columnOrder_ok|].
  apply (run_columnOrder_ok Scenario.users Sample.st2 Scenario.requests).
  - apply sample_st2_columnOrder_ok.
  - apply scenario_regular.
Defined.

(** ** Required strings *)

Lemma blank_trim t : JS.blank t = false → JS.trim t ≠ EmptyString.
Proof. unfold JS.blank. by intros ?%bool_decide_eq_false. Qed.

Lemma titled_step st st' :
  titled st →
  (∀ id p', projects st' !! id = Some p' →
     projects st !! id = Some p' ∨ project_name p' ≠ EmptyString) →
  (∀ id b', boards st' !! id = Some b' →
     boards st !! id = Some b'
     ∨ (board_title b' ≠ EmptyString
        ∧ EmptyString ∉ col_title <$> columns b')) →
  (∀ id t', tasks st' !! id = Some t' →
     tasks st !! id = Some t' ∨ task_title t' ≠ EmptyString) →
  titled st'.
Proof.
  intros [Hp Hb Hc Ht] Hps Hbs Hts. split.
  - intros id p H. destruct (Hps _ _ H) as [?|?]; [by eapply Hp|done].
  - intros id b H. destruct (Hbs _ _ H) as [?|[? _]]; [by eapply Hb|done].
  - intros id b H. destruct (Hbs _ _ H) as [?|[_ ?]]; [by eapply Hc|done].
  - intros id t H. destruct (Hts _ _ H) as [?|?]; [by eapply Ht|done].
Qed.

Lemma default_board_titled c1 c2 c3 (b0 : Board) :
  board_title b0 ≠ EmptyString → columns b0 = [] →
  board_title (board_pre_save true c1 c2 c3 b0) ≠ EmptyString
  ∧ EmptyString ∉ col_title <$> columns (board_pre_save true c1 c2 c3 b0).
Proof.
  intros Ht Hempty. unfold board_pre_save. rewrite Hempty. simpl.
  split; [done|]. apply (bool_decide_unpack _). vm_compute. exact I.
Qed.

Lemma handle_task_tasks st q :
  titled st →
  ∀ id t', tasks (handle_task st q).2 !! id = Some t' →
    tasks st !! id = Some t' ∨ task_title t' ≠ EmptyString.
Proof.
  intros Htitled.
  destruct q as [uid req newId|uid id columnId order|uid id]; simpl.
  - unfold createTask.
    case_bool_decide; [apply kept_same|].
    destruct (boards st !! nt_boardId req) as [b|] eqn:Hb; [|apply kept_same].
    destruct (JS.findIndex (has_id (nt_columnId req)) (columns b))
      as [ci|] eqn:Hci; [|apply kept_same].
    destruct (projects st !! board_project b) as [p|]; [|apply kept_same].
    destruct (negb (isMember uid p)); [apply kept_same|].
    destruct (JS.blank (nt_title req)) eqn:Hblank; [apply kept_same|]. simpl.
    case_bool_decide as Hnew; [apply kept_same|].
    destruct (negb (valid_board _)).
    { simpl. apply kept_insert. by apply blank_trim. }
    set (st4 := if bool_decide _ then _ else _). simpl.
    assert (tasks st4 = <[newId := mkTask (JS.trim (nt_title req))
                             (JS.trim (nt_description req)) (nt_boardId req)
                             (nt_columnId req)
                             (Z.of_nat (length (default []
                                (taskIds <$> columns b !! ci))))
                             (nt_assignedTo req) uid]> (tasks st)) as ->
      by (unfold st4; by case_bool_decide).
    apply kept_insert. by apply blank_trim.
  - unfold moveTask, withTaskAccess.
    destruct (canAccessTask st uid id) as [[t b p]|r] eqn:Hacc;
      [|apply kept_same].
    apply canAccessTask_Granted in Hacc as [Ht Hb]. simpl in Ht, Hb.
    unfold moveTask_handler. simpl.
    destruct (JS.isNumeric _); [|apply kept_same]. simpl.
    destruct (JS.findIndex (has_id columnId) (columns b)) as [ti|];
      [|apply kept_same].
    destruct (negb (valid_board _)); [apply kept_same|].
    destruct (negb (valid_task _)); [apply kept_same|].
    simpl. apply kept_insert. exact (titled_tasks _ Htitled _ _ Ht).
  - unfold deleteTask, withTaskAccess.
    destruct (canAccessTask st uid id) as [[t b p]|r] eqn:Hacc;
      [|apply kept_same].
    apply canAccessTask_Granted in Hacc as [Ht Hb]. simpl in Ht, Hb.
    destruct (deleteTask_store st uid id t b p Hb)
      as [(_ & _ & Htasks)|(_ & -> & _)]; [|apply kept_same].
    rewrite Htasks. apply kept_subseteq, delete_subseteq.
Qed.

Lemma valid_board_titled (b : Board) :
  valid_board b = true →
  board_title b ≠ EmptyString ∧ EmptyString ∉ col_title <$> columns b.
Proof.
  intros [Ht Hcols]%valid_board_spec. split; [done|].
  intros (c & Hc & Hin)%list_elem_of_fmap_1.
  by apply (proj1 (Forall_forall _ _) Hcols c Hin).
Qed.

Lemma handle_titled users st uid q :
  titled st → plain_titles st q → titled (handle users st uid q).2.
Proof.
  intros Ht Hplain.
  destruct q as [n d ids|pid n d|pid|pid u r|pid u r|pid u
                 |t d p newId c1 c2 c3|id t d|id|q|id c t|q|id req]; simpl.
  - unfold createProject.
    case_bool_decide; [done|].
    destruct (JS.blank n) eqn:Hblank; [done|]. simpl.
    case_bool_decide; [done|].
    case_bool_decide.
    + eapply titled_step; [done|..]; simpl; try apply kept_same.
      apply kept_insert. by apply blank_trim.
    + eapply titled_step; [done|..]; simpl; try apply kept_same.
      * apply kept_insert. by apply blank_trim.
      * apply kept_insert. by apply default_board_titled.
  - unfold updateProject, withAdminOrOwner.
    destruct (isAdminOrOwner st uid pid) as [p|r] eqn:Hacc; [|done].
    apply isAdminOrOwner_Granted in Hacc as [Hp _].
    unfold updateProject_handler. case_bool_decide; [done|].
    eapply titled_step; [done|..]; simpl; try apply kept_same.
    apply kept_insert. simpl. destruct n as [n|]; simpl.
    + by apply blank_trim, Hplain.
    + exact (titled_projects _ Ht _ _ Hp).
  - unfold deleteProject.
    destruct (isAdminOrOwner st uid pid); [|done].
    destruct (negb _); [done|].
    eapply titled_step; [done|..]; simpl; try apply kept_same.
    + apply kept_subseteq, delete_subseteq.
    + apply kept_subseteq, map_filter_subseteq.
  - unfold addMember, withAdminOrOwner.
    destruct (isAdminOrOwner st uid pid) as [p|r0] eqn:Hacc; [|done].
    apply isAdminOrOwner_Granted in Hacc as [Hp _].
    unfold addMember_handler. repeat (case_match; try done).
    eapply titled_step; [done|..]; simpl; try apply kept_same.
    apply kept_insert. exact (titled_projects _ Ht _ _ Hp).
  - unfold updateMemberRole, withAdminOrOwner.
    destruct (isAdminOrOwner st uid pid) as [p|r0] eqn:Hacc; [|done].
    apply isAdminOrOwner_Granted in Hacc as [Hp _].
    unfold updateMemberRole_handler. repeat (case_match; try done).
    eapply titled_step; [done|..]; simpl; try apply kept_same.
    apply kept_insert. exact (titled_projects _ Ht _ _ Hp).
  - unfold removeMember, withAdminOrOwner.
    destruct (isAdminOrOwner st uid pid) as [p|r0] eqn:Hacc; [|done].
    apply isAdminOrOwner_Granted in Hacc as [Hp _].
    unfold removeMember_handler. repeat (case_match; try done).
    eapply titled_step; [done|..]; simpl; try apply kept_same.
    apply kept_insert. exact (titled_projects _ Ht _ _ Hp).
  - unfold createBoard.
    case_bool_decide; [done|].
    destruct (projects st !! p); [|done].
    destruct (negb _); [done|].
    destruct (JS.blank t) eqn:Hblank; [done|]. simpl.
    case_bool_decide; [done|].
    eapply titled_step; [done|..]; simpl; try apply kept_same.
    apply kept_insert. apply default_board_titled; [|done].
    by apply blank_trim.
  - unfold updateBoard, withBoardAccess.
    destruct (canAccessBoard st uid id) as [ctx|r] eqn:Hacc; [|done].
    apply canAccessBoard_Granted in Hacc.
    unfold updateBoard_handler. case_bool_decide; [done|].
    eapply titled_step; [done|..]; simpl; try apply kept_same.
    apply kept_insert. simpl. split.
    + destruct t as [t|]; simpl.
      * by apply blank_trim, Hplain.
      * exact (titled_boards _ Ht _ _ Hacc).
    + exact (titled_columns _ Ht _ _ Hacc).
  - unfold deleteBoard, withBoardAccess.
    destruct (canAccessBoard st uid id) as [ctx|r] eqn:Hacc; [|done].
    unfold deleteBoard_handler. destruct (negb _); [done|].
    eapply titled_step; [done|..]; simpl; try apply kept_same.
    + apply kept_subseteq, delete_subseteq.
    + apply kept_subseteq, map_filter_subseteq.
  - destruct q as [u id title newId|u id columnId|u id newOrder]; simpl.
    + unfold createColumn, withBoardAccess.
      destruct (canAccessBoard st u id) as [ctx|r] eqn:Hacc; [|done].
      apply canAccessBoard_Granted in Hacc.
      unfold createColumn_handler. case_bool_decide; [done|].
      destruct (negb (valid_board _)) eqn:Hv; [done|].
      apply negb_false_iff in Hv.
      eapply titled_step; [done|..]; simpl; try apply kept_same.
      apply kept_insert. by apply valid_board_titled.
    + pose proof (handle_column_projects st (DeleteColumn u id columnId))
        as Hproj. simpl in Hproj.
      unfold deleteColumn, withBoardAccess in *.
      destruct (canAccessBoard st u id) as [ctx|r] eqn:Hacc; [|done].
      apply canAccessBoard_Granted in Hacc.
      destruct (JS.findIndex (has_id columnId) (columns (req_board ctx)))
        as [i|] eqn:Hi.
      * destruct (findIndex_has_id_Some _ _ _ Hi) as (c & Hc & _).
        assert (valid_board (req_board ctx) = true) as Hv
          by by apply (titled_valid st Ht) in Hacc.
        destruct (deleteColumn_store st u id columnId ctx i c Hi Hc Hv)
          as [Hboards Htasks].
        eapply titled_step; [done|..].
        -- rewrite Hproj. apply kept_same.
        -- rewrite Hboards. apply kept_insert. simpl. split.
           ++ exact (titled_boards _ Ht _ _ Hacc).
           ++ intros Hin. apply (titled_columns _ Ht _ _ Hacc).
              eapply elem_of_sublist; [done|].
              apply fmap_sublist, sublist_delete.
        -- rewrite Htasks. apply kept_subseteq, map_filter_subseteq.
      * unfold deleteColumn_handler. by rewrite Hi.
    + by rewrite reorderColumns_unchanged.
  - unfold updateColumn, putColumn, withBoardAccess.
    destruct (canAccessBoard st uid id) as [ctx|r] eqn:Hacc; [|done].
    apply canAccessBoard_Granted in Hacc.
    unfold updateColumn_handler. case_bool_decide; [done|].
    destruct (JS.findIndex _ _) as [i|]; [|done].
    destruct t as [t|]; [|done].
    destruct (negb (valid_board _)) eqn:Hv; [done|].
    apply negb_false_iff in Hv.
    eapply titled_step; [done|..]; simpl; try apply kept_same.
    apply kept_insert. by apply valid_board_titled.
  - eapply titled_step; [done|..].
    + rewrite handle_task_projects. apply kept_same.
    + destruct (handle_task_shape st q)
        as [Hsame|(B & b & cols' & Hb & Hboards & _ & Htitles & _)].
      * rewrite Hsame. apply kept_same.
      * rewrite Hboards. apply kept_insert. simpl. split.
        -- exact (titled_boards _ Ht _ _ Hb).
        -- rewrite Htitles. exact (titled_columns _ Ht _ _ Hb).
    + by apply handle_task_tasks.
  - destruct (board_routes_projects st uid) as (_ & _ & _ & _ & Hproj).
    eapply titled_step; [done|..].
    + rewrite Hproj. apply kept_same.
    + rewrite updateTask_frame. apply kept_same.
    + unfold updateTask, withTaskAccess.
      destruct (canAccessTask st uid id) as [[t b p]|r] eqn:Hacc;
        [|apply kept_same].
      apply canAccessTask_Granted in Hacc as [Htask Hb]. simpl in Htask, Hb.
      unfold updateTask_handler. case_bool_decide; [apply kept_same|]. simpl.
      set (st3 := match tu_assignedTo req with Some _ => _ | None => _ end).
      simpl.
      assert (tasks st3
              = <[id := mkTask
                    (default (task_title t) (JS.trim <$> tu_title req))
                    (default (task_description t)
                             (JS.trim <$> tu_description req))
                    (task_board t) (task_column t) (task_order t)
                    (default (assignedTo t) (tu_assignedTo req))
                    (createdBy t)]> (tasks st)) as ->
        by (unfold st3; by repeat case_match).
      apply kept_insert. simpl.
      destruct (tu_title req) as [s|] eqn:Hs; simpl.
      * by apply blank_trim, Hplain.
      * exact (titled_tasks _ Ht _ _ Htask).
Qed.

(** X9: the strings that the schemas require (project name, board,
    column and task title) stay non-empty in the store under every sequence
    of requests in which no update of a project, board or task sends a name
    or title made of white space only. *)
Theorem run_titled users st qs :
  titled st → along plain_titles users st qs → titled (run users st qs).
Proof.
  revert st. induction qs as [|q qs IH]; intros st Ht Hqs; [done|].
  destruct Hqs as [Hq Hqs]. apply IH; [|done].
  by apply handle_titled.
Qed.

Lemma sample_st2_titled : titled Sample.st2.
Proof.
  change Sample.st2 with
    (handle ∅
       (handle ∅
          (handle ∅ Sample.empty_store Sample.alice
             (CreateProject "Eng" "Engineering" Sample.ids)).2
          Sample.alice
          (TaskReq (CreateTask Sample.alice Sample.fix_bug Sample.t1))).2
       Sample.alice
       (TaskReq (CreateTask Sample.alice Sample.write_doc Sample.t2))).2.
  repeat (apply handle_titled; [|done]).
  by split.
Qed.

Lemma along_plain_titles users st qs :
  Forall (λ q, ∀ st', plain_titles st' q.2) qs →
  along plain_titles users st qs.
Proof.
  intros Hqs. revert st. induction Hqs as [|q qs Hq Hqs IH]; intros st; [done|].
  split; [apply Hq|apply IH].
Qed.

Lemma scenario_plain :
  along plain_titles Scenario.users Sample.st2 Scenario.requests.
Proof.
  apply along_plain_titles.
  unfold Scenario.requests, Scenario.joining, Scenario.working. simpl.
  repeat apply Forall_cons_2; try apply Forall_nil_2; intros st';
    try exact I.
  intros t Ht. simpl in Ht. injection Ht as <-. vm_compute. reflexivity.
Qed.

Lemma run_titled_witness :
  titled Sample.st2
  ∧ titled (run Scenario.users Sample.st2 Scenario.requests).
Proof.
  split; [apply sample_st2_titled|].
  apply (run_titled Scenario.users Sample.st2 Scenario.requests).
  - apply sample_st2_titled.
  - apply scenario_plain.
Defined.

(** ** Well-formedness *)

Lemma along_and (P Q : Store → Request → Prop) users st qs :
  along P users st qs → along Q users st qs →
  along (λ st q, P st q ∧ Q st q) users st qs.
Proof.
  revert st. induction qs as [|q qs IH]; intros st HP HQ; [done|].
  destruct HP as [HP HPs], HQ as [HQ HQs]. split; [done|]. by apply IH.
Qed.






Lemma blank_trim_empty t : JS.blank t = true → JS.trim t = EmptyString.
Proof. unfold JS.blank. by intros ?%bool_decide_eq_true. Qed.

(** X10: a title made of white space only gets past the validator and
    the [if (title)] test of the three update routes, and is stored as the
    empty string: the board, the project or the task is left with an empty
    required string, while the route answers 200. *)
Theorem blank_title_is_stored t :
  t ≠ EmptyString → JS.blank t = true →
  (∀ st uid id d b p,
     board_chain st id = Some (b, p) → isMember uid p = true →
     status (updateBoard st uid id (Some t) d).1 = 200
     ∧ board_title <$> boards (updateBoard st uid id (Some t) d).2 !! id
       = Some EmptyString)
  ∧ (∀ st uid id d p,
       isAdminOrOwner st uid id = Granted p →
       code (updateProject st uid id (Some t) d).1 = 200
       ∧ project_name <$> projects (updateProject st uid id (Some t) d).2 !! id
         = Some EmptyString)
  ∧ (∀ st uid id req tk b p,
       task_chain st id = Some (tk, b, p) → isMember uid p = true →
       tu_title req = Some t →
       status (updateTask st uid id req).1 = 200
       ∧ task_title <$> tasks (updateTask st uid id req).2 !! id
         = Some EmptyString).
Proof.
  intros Hne Hblank%blank_trim_empty. split_and!.
  - intros st uid id d b p Hc Hm. unfold updateBoard.
    rewrite (withBoardAccess_granted _ _ _ _ _ _ Hc Hm).
    unfold updateBoard_handler.
    rewrite bool_decide_eq_false_2 by congruence. simpl.
    by rewrite lookup_insert_eq, Hblank.
  - intros st uid id d p Hacc. unfold updateProject, withAdminOrOwner.
    rewrite Hacc. unfold updateProject_handler.
    rewrite bool_decide_eq_false_2 by congruence. simpl.
    by rewrite lookup_insert_eq, Hblank.
  - intros st uid id req tk b p Hc Hm Htitle. unfold updateTask.
    rewrite (withTaskAccess_granted _ _ _ _ _ _ _ Hc Hm).
    unfold updateTask_handler. rewrite Htitle.
    rewrite bool_decide_eq_false_2 by congruence. simpl.
    split; [done|].
    set (t' := mkTask _ _ _ _ _ _ _).
    set (st3 := match tu_assignedTo req with Some _ => _ | None => _ end).
    assert (tasks st3 = <[id := t']> (tasks st)) as ->
      by (unfold st3; by repeat case_match).
    rewrite lookup_insert_eq. simpl. by rewrite Hblank.
Qed.

Lemma blank_title_is_stored_witness :
  status (updateBoard Sample.st2 Sample.alice Sample.main (Some " ") None).1
  = 200
  ∧ board_title
      <$> boards (updateBoard Sample.st2 Sample.alice Sample.main
                              (Some " ") None).2 !! Sample.main
    = Some EmptyString.
Proof.
  eapply (blank_title_is_stored " ").
  - done.
  - vm_compute. reflexivity.
  - vm_compute. reflexivity.
  - vm_compute. reflexivity.
Defined.

(** X11: the same title is refused where a document is created: with a
    title (or name) made of white space only, the routes that create a
    project, a board, a column or a task never answer 201 and leave the
    store as it is. *)
Theorem blank_title_is_refused st uid t :
  JS.blank t = true →
  (∀ d ids, status (createProject st uid t d ids).1 ≠ 201
            ∧ (createProject st uid t d ids).2 = st)
  ∧ (∀ d p newId c1 c2 c3,
       status (createBoard st uid t d p newId c1 c2 c3).1 ≠ 201
       ∧ (createBoard st uid t d p newId c1 c2 c3).2 = st)
  ∧ (∀ id newId, status (createColumn st uid id t newId).1 ≠ 201
                 ∧ (createColumn st uid id t newId).2 = st)
  ∧ (∀ d b c a newId,
       status (createTask st uid (mkNewTask t d b c a) newId).1 ≠ 201
       ∧ (createTask st uid (mkNewTask t d b c a) newId).2 = st).
Proof.
  intros Hblank. split_and!.
  - intros d ids. unfold createProject. rewrite Hblank.
    by case_bool_decide.
  - intros d p newId c1 c2 c3. unfold createBoard. rewrite Hblank.
    by repeat case_match.
  - intros id newId. unfold createColumn, withBoardAccess.
    destruct (canAccessBoard st uid id) as [ctx|r] eqn:Hacc.
    + unfold createColumn_handler. case_bool_decide; [done|].
      destruct (valid_board _) eqn:Hv; [|done].
      apply valid_board_spec in Hv as [_ Hv]. simpl in Hv.
      rewrite Forall_app, Forall_singleton in Hv. destruct Hv as [_ Hv].
      simpl in Hv. by apply blank_trim_empty in Hblank.
    + unfold canAccessBoard in Hacc. by repeat case_match; simplify_eq.
  - intros d b c a newId. unfold createTask. simpl. rewrite Hblank.
    by repeat case_match.
Qed.

Lemma blank_title_is_refused_witness :
  status (createTask Sample.st2 Sample.alice
            (mkNewTask " " "Nothing" Sample.main Sample.todoId [])
            Sample.t3).1 ≠ 201
  ∧ (createTask Sample.st2 Sample.alice
       (mkNewTask " " "Nothing" Sample.main Sample.todoId [])
       Sample.t3).2 = Sample.st2.
Proof.
  apply (blank_title_is_refused Sample.st2 Sample.alice " ").
  vm_compute. reflexivity.
Defined.

(** ** Every task is listed *)

Lemma all_listed_replace st st' :
  all_listed st →
  (∀ x t', tasks st' !! x = Some t' →
     ∃ t, tasks st !! x = Some t ∧ task_board t = task_board t') →
  (∀ x t' b c, tasks st' !! x = Some t' →
     boards st !! task_board t' = Some b → c ∈ columns b → x ∈ taskIds c →
     ∃ b' c', boards st' !! task_board t' = Some b'
              ∧ c' ∈ columns b' ∧ x ∈ taskIds c') →
  all_listed st'.
Proof.
  intros Hall Htasks Hboards x t' Hx.
  destruct (Htasks _ _ Hx) as (t & Ht & Hboard).
  destruct (Hall _ _ Ht) as (b & c & Hb & Hc & Hin).
  rewrite Hboard in Hb. by eapply Hboards.
Qed.

Lemma tasks_kept (m : gmap ObjectId Task) :
  ∀ x t', m !! x = Some t' →
    ∃ t, m !! x = Some t ∧ task_board t = task_board t'.
Proof. intros x t' Hx. by exists t'. Qed.

Lemma tasks_subseteq (m m' : gmap ObjectId Task) :
  m' ⊆ m →
  ∀ x t', m' !! x = Some t' →
    ∃ t, m !! x = Some t ∧ task_board t = task_board t'.
Proof. intros Hsub x t' Hx. exists t'. split; [|done]. by eapply lookup_weaken. Qed.

Lemma all_listed_same st st' :
  all_listed st → boards st' = boards st →
  (∀ x t', tasks st' !! x = Some t' →
     ∃ t, tasks st !! x = Some t ∧ task_board t = task_board t') →
  all_listed st'.
Proof.
  intros Hall Hboards Htasks.
  eapply all_listed_replace; [done|done|].
  intros x t' b c _ Hb Hc Hin. exists b, c. by rewrite Hboards.
Qed.

Lemma all_listed_relabel st st' B b b' :
  all_listed st → boards st !! B = Some b →
  boards st' = <[B := b']> (boards st) →
  col_id <$> columns b = col_id <$> columns b' →
  taskIds <$> columns b = taskIds <$> columns b' →
  (∀ x t', tasks st' !! x = Some t' →
     ∃ t, tasks st !! x = Some t ∧ task_board t = task_board t') →
  all_listed st'.
Proof.
  intros Hall HB Hboards Hids Hlists Htasks.
  eapply all_listed_replace; [done|done|].
  intros x t' b0 c _ Hb Hc Hin. rewrite Hboards.
  destruct (decide (task_board t' = B)) as [HeqB|Hne].
  - rewrite HeqB in Hb |- *. rewrite lookup_insert_eq.
    assert (b0 = b) as -> by congruence.
    destruct (same_columns_elem _ _ _ Hids Hlists Hc) as (c' & Hc' & _ & Heq).
    exists b', c'. split_and!; [done..|]. by rewrite <- Heq.
  - rewrite lookup_insert_ne by done. by exists b0, c.
Qed.

Lemma all_listed_new_board st st' B b' :
  all_listed st → boards st !! B = None →
  boards st' = <[B := b']> (boards st) → tasks st' = tasks st →
  all_listed st'.
Proof.
  intros Hall HB Hboards Htasks.
  eapply all_listed_replace; [done|rewrite Htasks; apply tasks_kept|].
  intros x t' b c _ Hb Hc Hin. exists b, c. rewrite Hboards.
  rewrite lookup_insert_ne; [done|]. intros Heq. congruence.
Qed.

Lemma createColumn_listed st uid id title newId :
  all_listed st → all_listed (createColumn st uid id title newId).2.
Proof.
  intros Hall. unfold createColumn, withBoardAccess.
  destruct (canAccessBoard st uid id) as [ctx|r] eqn:Hacc; [|done].
  apply canAccessBoard_Granted in Hacc.
  unfold createColumn_handler. case_bool_decide; [done|].
  destruct (negb (valid_board _)); [done|].
  eapply all_listed_replace; [done|apply tasks_kept|]. simpl.
  intros x t' b c _ Hb Hc Hin.
  destruct (decide (task_board t' = id)) as [Heq|Hne].
  - rewrite Heq in Hb |- *. rewrite lookup_insert_eq.
    assert (b = req_board ctx) as -> by congruence.
    eexists _, c. split_and!; [done| |done]. simpl.
    apply elem_of_app. by left.
  - rewrite lookup_insert_ne by done. by exists b, c.
Qed.

(** The boards after the deletion of a column: as before when the board
    is not saved. *)
Lemma deleteColumn_boards st uid id columnId ctx i c :
  JS.findIndex (has_id columnId) (columns (req_board ctx)) = Some i →
  columns (req_board ctx) !! i = Some c →
  let st' := (deleteColumn_handler id uid columnId ctx st).2 in
  boards st' = boards st
  ∨ boards st'
    = <[id := set_columnOrder
                (remove_first columnId (columnOrder (req_board ctx)))
                (set_columns (delete i (columns (req_board ctx)))
                             (req_board ctx))]> (boards st).
Proof.
  intros Hi Hc. unfold deleteColumn_handler. cbv zeta. rewrite Hi.
  rewrite (splice_columnOrder columnId (set_columns _ _)). rewrite Hc.
  simpl. destruct (negb (valid_board _)); simpl.
  - left. by case_bool_decide.
  - right. by case_bool_decide.
Qed.

Lemma deleteColumn_listed st uid id columnId :
  all_listed st → all_listed (deleteColumn st uid id columnId).2.
Proof.
  intros Hall. unfold deleteColumn, withBoardAccess.
  destruct (canAccessBoard st uid id) as [ctx|r] eqn:Hacc; [|done].
  apply canAccessBoard_Granted in Hacc.
  destruct (JS.findIndex (has_id columnId) (columns (req_board ctx)))
    as [i|] eqn:Hi.
  - destruct (findIndex_has_id_Some _ _ _ Hi) as (ci & Hci & _).
    pose proof (deleteColumn_tasks st uid id columnId ctx i ci Hi Hci)
      as Htasks.
    destruct (deleteColumn_boards st uid id columnId ctx i ci Hi Hci)
      as [Hsame|Hboards].
    { eapply all_listed_same; [done|done|].
      rewrite Htasks. apply tasks_subseteq, map_filter_subseteq. }
    eapply all_listed_replace; [done|..].
    + rewrite Htasks. apply tasks_subseteq, map_filter_subseteq.
    + intros x t' b c Hx Hb Hc Hin. rewrite Hboards.
      rewrite Htasks in Hx.
      apply map_lookup_filter_Some in Hx as [Hx Hkept]. simpl in Hkept.
      destruct (decide (task_board t' = id)) as [Heq|Hne].
      * rewrite Heq in Hb |- *. rewrite lookup_insert_eq.
        assert (b = req_board ctx) as -> by congruence.
        eexists _, c. split_and!; [done| |done]. simpl.
        apply list_elem_of_lookup_1 in Hc as [j Hj].
        assert (j ≠ i) as Hji by (intros ->; congruence).
        destruct (decide (j < i)) as [Hlt|Hge].
        -- apply (list_elem_of_lookup_2 _ j).
           by rewrite list_lookup_delete_lt.
        -- apply (list_elem_of_lookup_2 _ (pred j)).
           rewrite list_lookup_delete_ge by lia.
           by replace (S (pred j)) with j by lia.
      * rewrite lookup_insert_ne by done. by exists b, c.
  - unfold deleteColumn_handler. by rewrite Hi.
Qed.

Lemma deleteBoard_listed st uid id :
  all_listed st → all_listed (deleteBoard st uid id).2.
Proof.
  intros Hall. unfold deleteBoard, withBoardAccess.
  destruct (canAccessBoard st uid id) as [ctx|r] eqn:Hacc; [|done].
  unfold deleteBoard_handler. destruct (negb _); [done|].
  eapply all_listed_replace; [done|..]; simpl.
  - apply tasks_subseteq, map_filter_subseteq.
  - intros x t' b c [Hx Hkept]%map_lookup_filter_Some Hb Hc Hin.
    simpl in Hkept. exists b, c. by rewrite lookup_delete_ne.
Qed.

Lemma handle_all_listed users st uid q :
  all_listed st → titled st → keeps_boards st q →
  all_listed (handle users st uid q).2.
Proof.
  intros Hall Htitled Hkeep.
  destruct q as [n d ids|pid n d|pid|pid u r|pid u r|pid u
                 |t d p newId c1 c2 c3|id t d|id|q|id c t|q|id req]; simpl;
    try (destruct (member_routes_frame users st uid pid)
           as (Hadd & Hrole & Hremove & Hupdate)).
  - unfold createProject.
    case_bool_decide; [done|]. destruct (JS.blank n || _); [done|].
    case_bool_decide as Hnew; [done|]. simpl in Hnew.
    eapply all_listed_new_board; [done| |reflexivity|reflexivity].
    destruct (boards st !! new_board ids) eqn:E; [|done].
    destruct Hnew. by eexists.
  - destruct (Hupdate n d) as [Hb Ht].
    eapply all_listed_same; [done|done|]. rewrite Ht. apply tasks_kept.
  - destruct Hkeep.
  - destruct (Hadd u r) as [Hb Ht].
    eapply all_listed_same; [done|done|]. rewrite Ht. apply tasks_kept.
  - destruct (Hrole u r) as [Hb Ht].
    eapply all_listed_same; [done|done|]. rewrite Ht. apply tasks_kept.
  - destruct (Hremove u) as [Hb Ht].
    eapply all_listed_same; [done|done|]. rewrite Ht. apply tasks_kept.
  - unfold createBoard.
    case_bool_decide; [done|].
    destruct (projects st !! p); [|done].
    destruct (negb _); [done|]. destruct (JS.blank t); [done|]. simpl.
    case_bool_decide as Hnew; [done|].
    eapply all_listed_new_board; [done| |reflexivity|reflexivity].
    destruct (boards st !! newId) eqn:E; [|done].
    destruct Hnew. by eexists.
  - unfold updateBoard, withBoardAccess.
    destruct (canAccessBoard st uid id) as [ctx|r] eqn:Hacc; [|done].
    apply canAccessBoard_Granted in Hacc.
    unfold updateBoard_handler. case_bool_decide; [done|].
    eapply all_listed_relabel;
      [done|done|reflexivity|done|done|apply tasks_kept].
  - by apply deleteBoard_listed.
  - destruct q as [u id title newId|u id columnId|u id newOrder]; simpl.
    + by apply createColumn_listed.
    + by apply deleteColumn_listed.
    + by rewrite reorderColumns_unchanged.
  - unfold updateColumn, putColumn, withBoardAccess.
    destruct (canAccessBoard st uid id) as [ctx|r] eqn:Hacc; [|done].
    apply canAccessBoard_Granted in Hacc.
    unfold updateColumn_handler. case_bool_decide; [done|].
    destruct (JS.findIndex _ _) as [i|]; [|done].
    destruct t as [t|]; [|done]. destruct (negb (valid_board _)); [done|].
    eapply all_listed_relabel;
      [done|done|reflexivity| | |apply tasks_kept]; simpl;
      symmetry; by apply fmap_alter_same.
  - destruct q as [u req newId|u id columnId order|u id]; simpl.
    + destruct (createTask_listed_cases st u req newId Hall)
        as [?|[_ (b & Hb & Hbad)]]; [done|].
      destruct (titled_valid st Htitled) as (_ & Hvb & _).
      rewrite (Hvb _ _ Hb) in Hbad. done.
    + by apply moveTask_preserves_listed.
    + by apply deleteTask_preserves_listed.
  - eapply all_listed_same; [done|apply updateTask_frame|].
    unfold updateTask, withTaskAccess.
    destruct (canAccessTask st uid id) as [[t b p]|r] eqn:Hacc;
      [|apply tasks_kept].
    apply canAccessTask_Granted in Hacc as [Htask Hb]. simpl in Htask, Hb.
    unfold updateTask_handler. case_bool_decide; [apply tasks_kept|]. simpl.
    set (t' := mkTask _ _ _ _ _ _ _).
    set (st3 := match tu_assignedTo req with Some _ => _ | None => _ end).
    simpl.
    assert (tasks st3 = <[id := t']> (tasks st)) as ->
      by (unfold st3; by repeat case_match).
    intros x t0 [[<- <-]|[_ Hx]]%lookup_insert_Some.
    + by exists t.
    + by exists t0.
Qed.

(** X12: apart from the deletion of a project, no route leaves a stored
    task that no column of its board lists: "every task is listed" is kept
    by every sequence of requests without that deletion, the documents
    that are saved again passing the required checks (the store starts
    with non-empty required strings and no update sends a name or title
    made of white space only). *)
Theorem run_all_listed users st qs :
  all_listed st → titled st →
  along (λ st q, keeps_boards st q ∧ plain_titles st q) users st qs →
  all_listed (run users st qs) ∧ titled (run users st qs).
Proof.
  revert st. induction qs as [|[uid q] qs IH]; intros st Hall Ht Hqs; [done|].
  destruct Hqs as [[Hkeep Hplain] Hqs]. simpl. apply IH; [| |done].
  - by apply handle_all_listed.
  - by apply handle_titled.
Qed.

Lemma sample_st2_listed : all_listed Sample.st2.
Proof.
  change Sample.st2 with
    (run_tasks Sample.st0
       [CreateTask Sample.alice Sample.fix_bug Sample.t1;
        CreateTask Sample.alice Sample.write_doc Sample.t2]).
  refine (proj2 (run_tasks_succeeds Sample.st0 _ _) _); [compute_done|].
  by intros id t Ht.
Qed.

Lemma along_keeps_boards users st qs :
  Forall (λ q, ∀ st', keeps_boards st' q.2) qs →
  along keeps_boards users st qs.
Proof.
  intros Hqs. revert st. induction Hqs as [|q qs Hq Hqs IH]; intros st; [done|].
  split; [apply Hq|apply IH].
Qed.

Lemma scenario_keeps_boards :
  along keeps_boards Scenario.users Sample.st2 Scenario.requests.
Proof.
  apply along_keeps_boards.
  unfold Scenario.requests, Scenario.joining, Scenario.working. simpl.
  repeat apply Forall_cons_2; try apply Forall_nil_2; intros st'; exact I.
Qed.

Lemma run_all_listed_witness :
  (all_listed Sample.st2 ∧ titled Sample.st2)
  ∧ all_listed (run Scenario.users Sample.st2 Scenario.requests)
  ∧ titled (run Scenario.users Sample.st2 Scenario.requests).
Proof.
  split; [split; [apply sample_st2_listed|apply sample_st2_titled]|].
  apply (run_all_listed Scenario.users Sample.st2 Scenario.requests).
  - apply sample_st2_listed.
  - apply sample_st2_titled.
  - apply along_and; [apply scenario_keeps_boards|apply scenario_plain].
Defined.

(** * Properties of single routes *)

(** ** Boards and columns *)

Lemma blank_empty : JS.blank EmptyString = true.
Proof. reflexivity. Qed.

(** X13: [POST /api/boards] answers 201 exactly when the title is not
    blank, the project exists, the requester is one of its members and the
    id given to the board is unused; otherwise the store stays as it is.
    On success one board is added: it belongs to the project, carries the
    trimmed title and the three default columns, empty and in order, the
    ids of which make up [columnOrder]; projects and tasks are as
    before. *)
Theorem createBoard_outcome st uid title description projectId newId c1 c2 c3 :
  let '(r, st') :=
    createBoard st uid title description projectId newId c1 c2 c3 in
  (status r = 201 ↔
     JS.blank title = false
     ∧ (∃ p, projects st !! projectId = Some p ∧ isMember uid p = true)
     ∧ boards st !! newId = None)
  ∧ (status r ≠ 201 → st' = st)
  ∧ (status r = 201 →
     ∃ b, boards st' = <[newId := b]> (boards st)
          ∧ board_project b = projectId
          ∧ board_title b = JS.trim title
          ∧ col_title <$> columns b = ["To Do"; "In Progress"; "Done"]
          ∧ taskIds <$> columns b = [[]; []; []]
          ∧ column_ids b = [c1; c2; c3]
          ∧ columnOrder b = [c1; c2; c3]
          ∧ tasks st' = tasks st ∧ projects st' = projects st).
Proof.
  unfold createBoard.
  case_bool_decide as Hempty.
  { subst title. split_and!; [|done|done].
    split; [done|]. intros [Hblank _]. by rewrite blank_empty in Hblank. }
  destruct (projects st !! projectId) as [p|] eqn:Hp.
  2: { split_and!; [|done|done]. split; [done|]. by intros (_ & (? & ? & _) & _). }
  destruct (isMember uid p) eqn:Hm; simpl.
  2: { split_and!; [|done|done]. split; [done|].
       intros (_ & (p' & Hp' & Hm') & _). congruence. }
  destruct (JS.blank title) eqn:Hblank; simpl.
  { split_and!; [|done|done]. split; [done|]. by intros [? _]. }
  case_bool_decide as Hnew; simpl.
  { split_and!; [|done|done]. split; [done|].
    intros (_ & _ & Hnone). rewrite Hnone in Hnew. by destruct Hnew. }
  split_and!; [|done|].
  - split; [|done]. intros _. split_and!; [done|by exists p|].
    destruct (boards st !! newId) eqn:E; [|done]. destruct Hnew. by eexists.
  - intros _. eexists. by split_and!.
Qed.

(** X14: [PUT /api/boards/:id/columns/:columnId] changes one thing, the
    title of the column.  A request that is not answered 200 leaves the
    store as it is; a request without a title is never answered 200 (the
    handler assigns the missing title and the save is rejected: 500 when
    the column is found); on success the board is rewritten with the same
    columns, each with its id, its order and its tasks, the one at the
    index of [columnId] with the trimmed title, and [columnOrder], the
    tasks and the projects are as before. *)
Theorem updateColumn_retitles st uid id columnId title :
  let '(r, st') := updateColumn st uid id columnId title in
  (title = None → status r ≠ 200)
  ∧ (∀ b p, title = None → board_chain st id = Some (b, p) →
       isMember uid p = true → columnId ∈ column_ids b → status r = 500)
  ∧ (status r ≠ 200 → st' = st)
  ∧ (status r = 200 →
     ∃ b b' i t,
       boards st !! id = Some b ∧ title = Some t ∧ JS.blank t = false
       ∧ JS.findIndex (has_id columnId) (columns b) = Some i
       ∧ boards st' = <[id := b']> (boards st)
       ∧ tasks st' = tasks st ∧ projects st' = projects st
       ∧ columnOrder b' = columnOrder b
       ∧ board_title b' = board_title b
       ∧ length (columns b') = length (columns b)
       ∧ ∀ j c, columns b !! j = Some c →
           ∃ c', columns b' !! j = Some c'
                 ∧ col_id c' = col_id c ∧ col_order c' = col_order c
                 ∧ taskIds c' = taskIds c
                 ∧ col_title c'
                   = if decide (j = i) then JS.trim t else col_title c).
Proof.
  unfold updateColumn, putColumn, withBoardAccess.
  rewrite canAccessBoard_chain.
  destruct (board_chain st id) as [[b p]|] eqn:Hc.
  2: { split_and!; try done. }
  destruct (isMember uid p) eqn:Hm.
  2: { split_and!; try done. intros b0 p0 _ [= <- <-]. congruence. }
  unfold updateColumn_handler. simpl.
  case_bool_decide as Hempty.
  { split_and!; try done. intros b0 p0 Hnone. congruence. }
  destruct (JS.findIndex (has_id columnId) (columns b)) as [i|] eqn:Hi.
  2: { split_and!; try done. intros b0 p0 _ [= <- <-] _ Hin.
       apply findIndex_has_id_None in Hi. done. }
  destruct title as [t|]; [|by split_and!].
  destruct (valid_board _) eqn:Hv; simpl; [|by split_and!].
  assert (JS.blank t = false) as Hblank.
  { apply bool_decide_eq_false. intros Hblank.
    apply valid_board_spec in Hv as [_ Hv]. simpl in Hv.
    destruct (findIndex_has_id_Some _ _ _ Hi) as (c & Hci & _).
    apply (proj1 (Forall_forall _ _) Hv (set_col_title (JS.trim t) c));
      [|done].
    apply (list_elem_of_lookup_2 _ i). by rewrite list_lookup_alter_eq, Hci. }
  split_and!; try done.
  intros _. unfold board_chain in Hc.
  destruct (boards st !! id) as [b0|] eqn:Hb; [|done]. simpl in Hc.
  destruct (projects st !! board_project b0); [|done].
  injection Hc as -> ->.
  exists b, (set_columns (alter (set_col_title (JS.trim t)) i (columns b)) b),
    i, t.
  split_and!; try done.
  - simpl. by rewrite length_alter.
  - intros j c Hj. simpl.
    destruct (decide (j = i)) as [->|Hne].
    + rewrite list_lookup_alter_eq, Hj. by eexists.
    + rewrite list_lookup_alter_ne by done. by exists c.
Qed.

Lemma elem_of_board_taskIds x (b : Board) :
  x ∈ board_taskIds b ↔ ∃ c, c ∈ columns b ∧ x ∈ taskIds c.
Proof.
  unfold board_taskIds. induction (columns b) as [|c cols IH]; csimpl.
  - split; [by intros ?%elem_of_nil|]. by intros (c & ?%elem_of_nil & _).
  - rewrite elem_of_app, IH. split.
    + intros [Hx|(c' & Hc' & Hx)].
      * exists c. split; [apply list_elem_of_here|done].
      * exists c'. split; [by apply list_elem_of_further|done].
    + intros (c' & [->|Hc']%elem_of_cons & Hx); [by left|].
      right. by exists c'.
Qed.

(** X15: what [GET /api/boards/:id] sends for a well-formed store.  The
    board is the stored one, the store is not touched, every id listed by a
    column comes with its task (so the page finds a task for every id it
    renders) and that task names the column; the tasks sent are the stored
    tasks of the board, and when every task is listed each of them is in
    one of the columns. *)
Theorem getBoard_tasks st uid id b ts :
  store_wf st →
  (getBoard st uid id).1 = mkAnswer 200 (BoardWithTasks id b ts) →
  boards st !! id = Some b
  ∧ (getBoard st uid id).2 = st
  ∧ (∀ c x, c ∈ columns b → x ∈ taskIds c →
       ∃ t, ts !! x = Some t ∧ task_column t = col_id c)
  ∧ (∀ x t, ts !! x = Some t ↔ tasks st !! x = Some t ∧ task_board t = id)
  ∧ (all_listed st → ∀ x t, ts !! x = Some t → x ∈ board_taskIds b).
Proof.
  intros Hwf. unfold getBoard.
  destruct (canAccessBoard st uid id) as [ctx|r] eqn:Hacc; [|done].
  apply canAccessBoard_Granted in Hacc. unfold getBoard_handler. simpl.
  intros [= <- <-].
  assert (∀ x t, filter (λ kv, task_board kv.2 = id) (tasks st) !! x = Some t
                 ↔ tasks st !! x = Some t ∧ task_board t = id) as Hts.
  { intros x t. by rewrite map_lookup_filter_Some. }
  split_and!; [done|done| |done|].
  - intros c x Hc Hx.
    destruct (wf_listed _ Hwf _ _ _ _ Hacc Hc Hx) as (t & Ht & Hb & Hcol).
    exists t. split; [|done]. by apply Hts.
  - intros Hall x t [Ht Hb]%Hts.
    destruct (Hall _ _ Ht) as (b' & c & Hb' & Hc & Hin).
    rewrite Hb in Hb'. assert (b' = req_board ctx) as -> by congruence.
    apply elem_of_board_taskIds. by exists c.
Qed.

Lemma getBoard_tasks_witness :
  ∃ b ts,
    (getBoard Sample.st2 Sample.alice Sample.main).1
    = mkAnswer 200 (BoardWithTasks Sample.main b ts)
    ∧ ∀ c x, c ∈ columns b → x ∈ taskIds c →
        ∃ t, ts !! x = Some t ∧ task_column t = col_id c.
Proof.
  eexists _, _. split; [vm_compute; reflexivity|].
  eapply (getBoard_tasks Sample.st2 Sample.alice Sample.main).
  - apply sample_st2_wf.
  - vm_compute. reflexivity.
Defined.

(** ** Tasks *)

(** A route behind an access check answers 200 to members only. *)
Lemma withTaskAccess_200 h st uid id t b p :
  task_chain st id = Some (t, b, p) →
  status (withTaskAccess h st uid id).1 = 200 → isMember uid p = true.
Proof.
  intros Hc. unfold withTaskAccess. rewrite canAccessTask_chain, Hc.
  by destruct (isMember uid p).
Qed.

(** X16: [PUT /api/tasks/:id] never moves a task.  Whatever the body and
    the answer, boards and projects are as before, every other task is as
    before, and the task itself keeps its board, its column, its order and
    its author; the notifications added go to users of the new assignee
    list who were not assigned before, and to nobody else. *)
Theorem updateTask_keeps_place st uid id req :
  let '(r, st') := updateTask st uid id req in
  boards st' = boards st ∧ projects st' = projects st
  ∧ (∀ x, x ≠ id → tasks st' !! x = tasks st !! x)
  ∧ (∀ t, tasks st !! id = Some t →
       ∃ t', tasks st' !! id = Some t'
             ∧ task_board t' = task_board t ∧ task_column t' = task_column t
             ∧ task_order t' = task_order t ∧ createdBy t' = createdBy t)
  ∧ ∃ ns, notifications st' = notifications st ++ ns
          ∧ ∀ n, n ∈ ns →
              n_sender n = uid ∧ n_entityId n = id
              ∧ ∃ t new, tasks st !! id = Some t
                         ∧ tu_assignedTo req = Some new
                         ∧ n_recipient n ∈ new
                         ∧ n_recipient n ∉ assignedTo t.
Proof.
  assert (∀ l : list Notification, l = l ++ []) as Hnil
    by (intros l; by rewrite app_nil_r).
  unfold updateTask, withTaskAccess.
  destruct (canAccessTask st uid id) as [[t b p]|r] eqn:Hacc.
  2: { split_and!; try done. { intros t Ht. by exists t. }
       exists []. split; [apply Hnil|]. by intros n ?%elem_of_nil. }
  apply canAccessTask_Granted in Hacc as [Ht Hb]. simpl in Ht, Hb.
  unfold updateTask_handler. case_bool_decide.
  { split_and!; try done. { intros t0 Ht0. by exists t0. }
    exists []. split; [apply Hnil|]. by intros n ?%elem_of_nil. }
  simpl.
  set (t' := mkTask _ _ _ _ _ _ _).
  set (st3 := match tu_assignedTo req with Some _ => _ | None => _ end).
  assert (boards st3 = boards st ∧ projects st3 = projects st
          ∧ tasks st3 = <[id := t']> (tasks st)) as (Hboards & Hprojects & Htasks)
    by (unfold st3; by repeat case_match).
  split_and!; [done|done|..].
  - intros x Hx. by rewrite Htasks, lookup_insert_ne.
  - intros t0 Ht0. assert (t0 = t) as -> by congruence.
    exists t'. by rewrite Htasks, lookup_insert_eq.
  - unfold st3. destruct (tu_assignedTo req) as [new|] eqn:Hnew.
    2: { exists []. split; [apply Hnil|]. by intros n ?%elem_of_nil. }
    destruct (negb _).
    2: { exists []. split; [apply Hnil|]. by intros n ?%elem_of_nil. }
    case_bool_decide.
    2: { exists []. split; [apply Hnil|]. by intros n ?%elem_of_nil. }
    eexists. split; [reflexivity|].
    intros n (x & -> & Hx)%list_elem_of_fmap_1. simpl.
    apply list_elem_of_filter in Hx as [Hnot Hin].
    split_and!; [done|done|]. by exists t, new.
Qed.

Lemma set_columns_same (b : Board) : set_columns (columns b) b = b.
Proof. by destruct b. Qed.

(** X17: a task is created at the end of its column.  When [POST
    /api/tasks] answers 201, the id given to the task was unused, the task
    is stored with the board, the column and the author of the request, its
    id is appended to the [taskIds] of that column and to no other, and its
    [order] is the index at which it is listed. *)
Theorem createTask_appends st uid req newId :
  status (createTask st uid req newId).1 = 201 →
  let st' := (createTask st uid req newId).2 in
  ∃ b b' t,
    boards st !! nt_boardId req = Some b
    ∧ boards st' !! nt_boardId req = Some b'
    ∧ tasks st !! newId = None
    ∧ tasks st' !! newId = Some t
    ∧ task_board t = nt_boardId req ∧ task_column t = nt_columnId req
    ∧ createdBy t = uid
    ∧ column_taskIds (nt_columnId req) b'
      = column_taskIds (nt_columnId req) b ++ [newId]
    ∧ column_taskIds (nt_columnId req) b' !! Z.to_nat (task_order t)
      = Some newId
    ∧ (∀ X, X ≠ nt_columnId req → column_taskIds X b' = column_taskIds X b)
    ∧ (∀ x, x ≠ newId → tasks st' !! x = tasks st !! x).
Proof.
  unfold createTask.
  case_bool_decide; [done|].
  destruct (boards st !! nt_boardId req) as [b|] eqn:Hb; [|done].
  destruct (JS.findIndex (has_id (nt_columnId req)) (columns b))
    as [ci|] eqn:Hci; [|done].
  destruct (projects st !! board_project b) as [p|]; [|done].
  destruct (negb (isMember uid p)); [done|].
  destruct (JS.blank (nt_title req)); [done|]. simpl.
  case_bool_decide as Hnew; [done|].
  destruct (negb (valid_board _)); [done|]. intros _.
  set (task := mkTask _ _ _ _ _ _ _).
  set (st4 := if bool_decide _ then _ else _). simpl.
  assert (boards st4
          = <[nt_boardId req :=
                set_columns (map_taskIds (λ l, l ++ [newId]) ci (columns b)) b]>
              (boards st)
          ∧ tasks st4 = <[newId := task]> (tasks st)) as [Hboards Htasks].
  { unfold st4. rewrite (alter_set_taskIds (λ l, l ++ [newId])).
    by case_bool_decide. }
  assert (∀ X,
            column_taskIds X
              (set_columns (map_taskIds (λ l, l ++ [newId]) ci (columns b)) b)
            = if decide (X = nt_columnId req)
              then column_taskIds X b ++ [newId] else column_taskIds X b)
    as Hcol.
  { intros X. rewrite (column_taskIds_map X (nt_columnId req)) by done.
    by rewrite set_columns_same. }
  eexists b, _, task. rewrite Hboards, Htasks, !lookup_insert_eq.
  split_and!; try done.
  - destruct (tasks st !! newId) eqn:E; [|done]. destruct Hnew. by eexists.
  - by rewrite Hcol, decide_True.
  - rewrite Hcol, decide_True by done. simpl.
    rewrite Nat2Z.id, (column_taskIds_lookup _ _ _ Hci).
    by rewrite lookup_app_r, Nat.sub_diag.
  - intros X HX. by rewrite Hcol, decide_False.
  - intros x Hx. by rewrite lookup_insert_ne.
Qed.

Lemma createTask_appends_witness :
  ∃ b',
    boards (createTask Sample.st1 Sample.alice Sample.write_doc Sample.t2).2
      !! Sample.main = Some b'
    ∧ column_taskIds Sample.todoId b' = [Sample.t1; Sample.t2].
Proof.
  destruct (createTask_appends Sample.st1 Sample.alice Sample.write_doc
              Sample.t2)
    as (b & b' & t & Hb & Hb' & _ & _ & _ & _ & _ & Hcol & _).
  { vm_compute. reflexivity. }
  exists b'. split; [exact Hb'|].
  simpl in Hcol. rewrite Hcol.
  vm_compute in Hb. injection Hb as <-. reflexivity.
Defined.

(** X18: deleting a task leaves no reference to it.  From a well-formed
    store, when [DELETE /api/tasks/:id] answers 200 the task is gone from
    the collection, no column of any board lists its id any more, and
    reading it answers NotFound. *)
Theorem deleteTask_leaves_no_reference st uid id :
  store_wf st → status (deleteTask st uid id).1 = 200 →
  let st' := (deleteTask st uid id).2 in
  tasks st' = delete id (tasks st)
  ∧ (∀ bid b c, boards st' !! bid = Some b → c ∈ columns b → id ∉ taskIds c)
  ∧ (∀ u, NotFound (getTask st' u id).1).
Proof.
  intros Hwf H200 st'.
  pose proof (deleteTask_preserves_wf st uid id Hwf) as Hwf'. fold st' in Hwf'.
  assert (tasks st' = delete id (tasks st)) as Htasks.
  { unfold st'. unfold deleteTask, withTaskAccess in *.
    destruct (canAccessTask st uid id) as [[t b p]|r] eqn:Hacc.
    - apply canAccessTask_Granted in Hacc as [Ht Hb]. simpl in Ht, Hb.
      destruct (deleteTask_store st uid id t b p Hb)
        as [(_ & _ & ?)|(H500 & _)]; [done|].
      simpl in *. congruence.
    - unfold canAccessTask in Hacc. by repeat case_match; simplify_eq. }
  assert (tasks st' !! id = None) as Hgone
    by by rewrite Htasks, lookup_delete_eq.
  split_and!; [done| |].
  - intros bid b c Hb Hc Hin.
    destruct (wf_listed _ Hwf' _ _ _ _ Hb Hc Hin) as (t & Ht & _).
    congruence.
  - intros u. by apply getTask_missing.
Qed.

Lemma deleteTask_leaves_no_reference_witness :
  let st' := (deleteTask Sample.st2 Sample.alice Sample.t1).2 in
  tasks st' = delete Sample.t1 (tasks Sample.st2)
  ∧ (∀ bid b c, boards st' !! bid = Some b → c ∈ columns b →
       Sample.t1 ∉ taskIds c)
  ∧ (∀ u, NotFound (getTask st' u Sample.t1).1).
Proof.
  apply (deleteTask_leaves_no_reference Sample.st2 Sample.alice Sample.t1).
  - apply sample_st2_wf.
  - vm_compute. reflexivity.
Defined.

(** *** The ids listed by a board *)

Lemma board_taskIds_map f i (cols : list Column) c :
  cols !! i = Some c →
  concat (taskIds <$> map_taskIds f i cols)
  ≡ₚ f (taskIds c) ++ concat (taskIds <$> delete i cols).
Proof.
  revert i. induction cols as [|c0 cols IH]; intros [|i] Hi; try done.
  - injection Hi as ->. done.
  - simpl in Hi. unfold map_taskIds in *. csimpl.
    rewrite (IH _ Hi). apply Permutation_app_swap_app.
Qed.

Lemma board_taskIds_lookup i (cols : list Column) c :
  cols !! i = Some c →
  concat (taskIds <$> cols)
  ≡ₚ taskIds c ++ concat (taskIds <$> delete i cols).
Proof.
  intros Hi. rewrite <- (board_taskIds_map (λ l, l) i cols c Hi).
  by rewrite map_taskIds_id.
Qed.

(** The ids listed by a board once a task is detached from its column. *)
Lemma board_taskIds_detach st id t b :
  store_wf st → tasks st !! id = Some t →
  boards st !! task_board t = Some b →
  (id ∈ board_taskIds b →
     id :: concat (taskIds <$> detach id t (columns b)) ≡ₚ board_taskIds b)
  ∧ (id ∉ board_taskIds b →
     concat (taskIds <$> detach id t (columns b)) = board_taskIds b).
Proof.
  intros Hwf Ht Hb. split.
  - intros (c & Hc & Hin)%elem_of_board_taskIds.
    destruct (wf_listed _ Hwf _ _ _ _ Hb Hc Hin) as (t' & Ht' & _ & Hcol).
    assert (t' = t) as -> by congruence.
    apply list_elem_of_lookup_1 in Hc as [j Hj].
    destruct (findIndex_has_id_elem (task_column t) (columns b))
      as (si & cs & Hsi & Hcs & Hid).
    { rewrite Hcol. by apply list_elem_of_fmap_2, (list_elem_of_lookup_2 _ j). }
    assert (si = j) as ->.
    { apply (NoDup_lookup_col_id (columns b) si j cs c);
        [by eapply (wf_column_ids _ Hwf)|done|done|congruence]. }
    assert (cs = c) as -> by congruence.
    unfold detach. rewrite Hsi, remove_from_column_map.
    rewrite (board_taskIds_map _ _ _ _ Hj).
    unfold board_taskIds. rewrite (board_taskIds_lookup _ _ _ Hj).
    rewrite app_comm_cons. apply Permutation_app; [|done].
    symmetry. by apply remove_first_Permutation.
  - intros Hnot. unfold detach.
    destruct (JS.findIndex (has_id (task_column t)) (columns b))
      as [si|] eqn:Hsi; [|done].
    rewrite remove_from_column_map.
    rewrite (map_taskIds_ext _ (λ l, l)); [by rewrite map_taskIds_id|].
    intros c Hc. apply remove_first_notin. intros Hin. apply Hnot.
    apply elem_of_board_taskIds. exists c. split; [|done].
    by eapply list_elem_of_lookup_2.
Qed.

(** X19: a move neither loses nor duplicates an id.  From a well-formed
    store, a move that is answered 200 leaves the board listing the same
    ids as before, each as often, when the task was listed; a task that no
    column listed is listed once more, namely where it was dropped.  The
    other boards and the other tasks are as before. *)
Theorem moveTask_keeps_ids st uid id columnId order t b p :
  store_wf st → task_chain st id = Some (t, b, p) →
  status (moveTask st uid id columnId order).1 = 200 →
  let st' := (moveTask st uid id columnId order).2 in
  ∃ b', boards st' !! task_board t = Some b'
        ∧ (id ∈ board_taskIds b → board_taskIds b' ≡ₚ board_taskIds b)
        ∧ (id ∉ board_taskIds b → board_taskIds b' ≡ₚ id :: board_taskIds b)
        ∧ (∀ B, B ≠ task_board t → boards st' !! B = boards st !! B)
        ∧ (∀ x, x ≠ id → tasks st' !! x = tasks st !! x).
Proof.
  intros Hwf Hc H200 st'.
  destruct (moveTask_200_inv _ _ _ _ _ H200)
    as (t' & b' & p' & ti & Hc' & Hm & Hti & Hnum & Hvb & Hvt).
  rewrite Hc in Hc'. injection Hc' as <- <- <-.
  unfold st'.
  rewrite (moveTask_granted _ _ _ _ _ _ _ _ _ Hc Hm Hti Hnum Hvb Hvt). simpl.
  set (n := JS.to_double order).
  apply task_chain_Some in Hc as (Ht & Hb & Hp).
  eexists. rewrite lookup_insert_eq. split; [done|].
  assert (board_taskIds (move_in_board id columnId n t ti b)
          ≡ₚ id :: concat (taskIds <$> detach id t (columns b))) as Hmove.
  { unfold board_taskIds. rewrite move_in_board_columns.
    assert (JS.findIndex (has_id columnId) (detach id t (columns b)) = Some ti)
      as HtiD by by rewrite (findIndex_same_ids _ _ _ (detach_ids _ _ _)).
    destruct (findIndex_has_id_Some _ _ _ HtiD) as (dt & Hdt & _).
    rewrite (board_taskIds_map _ _ _ _ Hdt).
    rewrite (board_taskIds_lookup _ _ _ Hdt).
    rewrite app_comm_cons. apply Permutation_app; [|done].
    apply splice_insert_Permutation. }
  destruct (board_taskIds_detach st id t b Hwf Ht Hb) as [Hlisted Hunlisted].
  split_and!.
  - intros Hid. by rewrite Hmove, Hlisted.
  - intros Hid. by rewrite Hmove, Hunlisted.
  - intros B HB. by rewrite lookup_insert_ne.
  - intros x Hx. by rewrite lookup_insert_ne.
Qed.

Lemma moveTask_keeps_ids_witness :
  ∃ b', boards (moveTask Sample.st2 Sample.alice Sample.t1 Sample.doneId 0).2
          !! Sample.main = Some b'
        ∧ board_taskIds b' ≡ₚ [Sample.t1; Sample.t2].
Proof.
  destruct (moveTask_keeps_ids Sample.st2 Sample.alice Sample.t1
              Sample.doneId 0
              (mkTask "Fix bug" "Crash on save" Sample.main Sample.todoId 0 []
                      Sample.alice)
              (mkBoard "Main Board" "Default board for the project" Sample.eng
                 [mkColumn Sample.todoId "To Do" 0 [Sample.t1; Sample.t2];
                  mkColumn Sample.inProgressId "In Progress" 1 [];
                  mkColumn Sample.doneId "Done" 2 []]
                 [Sample.todoId; Sample.inProgressId; Sample.doneId])
              (mkProject "Eng" "Engineering" Sample.alice
                 [mkMember Sample.alice owner]))
    as (b' & Hb' & Hperm & _).
  - apply sample_st2_wf.
  - vm_compute. reflexivity.
  - reflexivity.
  - exists b'. split; [exact Hb'|]. apply Hperm. simpl. compute_done.
Defined.

(** * The client store and the server *)

(** ** Removal by filter, by position and by id *)

Lemma remove_first_cons id x l :
  remove_first id (x :: l) = if decide (x = id) then l else x :: remove_first id l.
Proof.
  unfold remove_first. simpl. case_bool_decide as Hx.
  - by rewrite decide_True.
  - rewrite decide_False by done.
    by destruct (JS.findIndex _ l).
Qed.

Lemma filter_notin id (l : list ObjectId) :
  id ∉ l → filter (λ x, x ≠ id) l = l.
Proof.
  induction l as [|x l IH]; [done|]. intros [Hx Hl]%not_elem_of_cons.
  rewrite filter_cons_True by (by intros ->). by rewrite IH.
Qed.

(** Where an id occurs once, filtering it out is taking its first
    occurrence out. *)
Lemma filter_remove_first id (l : list ObjectId) :
  NoDup l → filter (λ x, x ≠ id) l = remove_first id l.
Proof.
  induction 1 as [|x l Hx Hnd IH]; [done|].
  rewrite remove_first_cons. destruct (decide (x = id)) as [->|Hne].
  - rewrite filter_cons_False by (by intros ?).
    by apply filter_notin.
  - rewrite filter_cons_True by done. by rewrite IH.
Qed.

(** ... and so is taking out the element at the index where it is. *)
Lemma splice_remove_remove_first id (l : list ObjectId) k :
  NoDup l → (0 ≤ k)%Z → l !! Z.to_nat k = Some id →
  JS.splice_remove k l = remove_first id l.
Proof.
  intros Hnd Hk Hl.
  rewrite splice_remove_in_range.
  2: { apply lookup_lt_Some in Hl. lia. }
  destruct (findIndex_eq_elem id l) as [i Hi];
    [by eapply list_elem_of_lookup_2|].
  unfold remove_first. rewrite Hi.
  apply findIndex_eq_Some in Hi as [Hi _].
  by rewrite (NoDup_lookup _ _ _ _ Hnd Hi Hl).
Qed.

(** X20: the optimistic update of [moveTask] in the client store is the
    board that the server's move route computes, provided the source column
    named by the call is the column of the task, lists no id twice, and
    has the task's id at [sourceIndex]. *)
Theorem optimistic_move_matches_server c (board : Board) t si ti :
  JS.findIndex (has_id (BoardStore.sourceColumnId c)) (columns board) = Some si →
  JS.findIndex (has_id (BoardStore.destinationColumnId c)) (columns board)
    = Some ti →
  task_column t = BoardStore.sourceColumnId c →
  NoDup (column_taskIds (BoardStore.sourceColumnId c) board) →
  (0 ≤ BoardStore.sourceIndex c)%Z →
  column_taskIds (BoardStore.sourceColumnId c) board
    !! Z.to_nat (BoardStore.sourceIndex c) = Some (BoardStore.taskId c) →
  BoardStore.optimistic_move c board
  = move_in_board (BoardStore.taskId c) (BoardStore.destinationColumnId c)
                  (BoardStore.destinationIndex c) t ti board.
Proof.
  intros Hsi Hti Hcol Hnd Hk Hat.
  rewrite (optimistic_move_columns _ _ _ _ Hsi Hti).
  unfold move_in_board. rewrite alter_set_taskIds.
  unfold detach. rewrite Hcol, Hsi, remove_from_column_map.
  f_equal. f_equal. apply map_taskIds_ext. intros cs Hcs.
  rewrite (column_taskIds_lookup _ _ _ Hsi), Hcs in Hnd, Hat.
  by apply splice_remove_remove_first.
Qed.

Lemma optimistic_move_matches_server_witness :
  BoardStore.optimistic_move
    (BoardStore.mkMoveCall Sample.t2 Sample.todoId Sample.doneId 1 0)
    (BoardStore.currentBoard Sample.mirror)
  = move_in_board Sample.t2 Sample.doneId 0
      (mkTask "Write doc" "User guide" Sample.main Sample.todoId 1 []
              Sample.alice)
      2 (BoardStore.currentBoard Sample.mirror).
Proof.
  apply (optimistic_move_matches_server
           (BoardStore.mkMoveCall Sample.t2 Sample.todoId Sample.doneId 1 0)
           (BoardStore.currentBoard Sample.mirror) _ 0 2).
  - reflexivity.
  - reflexivity.
  - reflexivity.
  - simpl. compute_done.
  - done.
  - reflexivity.
Defined.

(** X21: a move received from the socket ([handleTaskMove]) is applied to
    the mirror as the server applied it to the board: when the mirror knows
    the task with the column the server had for it, both columns are in
    the mirror and the task's column lists no id twice, the new
    [currentBoard] is the board computed by the move route. *)
Theorem handleTaskMove_matches_server taskId destinationColumnId
    destinationIndex (s : BoardStore.State) entry t si ti :
  JS.find (λ e, bool_decide (e.1 = taskId)) (BoardStore.tasks s) = Some entry →
  task_column entry.2 = task_column t →
  JS.findIndex (has_id (task_column t)) (columns (BoardStore.currentBoard s))
    = Some si →
  JS.findIndex (has_id destinationColumnId)
               (columns (BoardStore.currentBoard s)) = Some ti →
  NoDup (column_taskIds (task_column t) (BoardStore.currentBoard s)) →
  BoardStore.currentBoard
    (Mirror.handleTaskMove taskId destinationColumnId destinationIndex s)
  = move_in_board taskId destinationColumnId destinationIndex t ti
                  (BoardStore.currentBoard s).
Proof.
  intros Hfind Hcol Hsi Hti Hnd.
  unfold Mirror.handleTaskMove. rewrite Hfind. simpl.
  rewrite Hcol, Hsi, Hti.
  unfold move_in_board, detach. rewrite Hsi, remove_from_column_map.
  rewrite (alter_set_taskIds (filter (λ id, id ≠ taskId))).
  assert (map_taskIds (filter (λ id, id ≠ taskId)) si
                      (columns (BoardStore.currentBoard s))
          = map_taskIds (remove_first taskId) si
                        (columns (BoardStore.currentBoard s))) as ->; [|done].
  apply map_taskIds_ext. intros cs Hcs.
  rewrite (column_taskIds_lookup _ _ _ Hsi), Hcs in Hnd.
  by apply filter_remove_first.
Qed.

Lemma handleTaskMove_matches_server_witness :
  BoardStore.currentBoard (Mirror.handleTaskMove Sample.t2 Sample.doneId 0
                                                 Sample.mirror)
  = move_in_board Sample.t2 Sample.doneId 0
      (mkTask "Write doc" "User guide" Sample.main Sample.todoId 1 []
              Sample.alice)
      2 (BoardStore.currentBoard Sample.mirror).
Proof.
  eapply (handleTaskMove_matches_server Sample.t2 Sample.doneId 0
            Sample.mirror _ _ 0 2).
  - reflexivity.
  - reflexivity.
  - reflexivity.
  - reflexivity.
  - simpl. compute_done.
Defined.

(** X22: the client store's updates after [createTask] and [deleteTask]
    keep the mirror in step with the server.  When the mirror holds the
    board as the server had it and the server answers 201 or 200, the
    board that the mirror holds after the update is the board the server
    stored: the new id appended to the column, or (the store being well
    formed and the mirror knowing the task's column) the deleted id taken
    out of it. *)
Theorem mirror_follows_server st uid (s : BoardStore.State) :
  (∀ req newId t,
     (createTask st uid req newId).1 = json 201 (TaskDoc newId t) →
     boards st !! nt_boardId req = Some (BoardStore.currentBoard s) →
     boards (createTask st uid req newId).2 !! nt_boardId req
     = Some (BoardStore.currentBoard
               (Mirror.createTask_applied (nt_columnId req) (newId, t) s)))
  ∧ (∀ id t b p entry,
       store_wf st → task_chain st id = Some (t, b, p) →
       status (deleteTask st uid id).1 = 200 →
       b = BoardStore.currentBoard s →
       JS.find (λ e, bool_decide (e.1 = id)) (BoardStore.tasks s)
         = Some entry →
       task_column entry.2 = task_column t →
       boards (deleteTask st uid id).2 !! task_board t
       = Some (BoardStore.currentBoard (Mirror.deleteTask_applied id s))).
Proof.
  split.
  - intros req newId t. unfold createTask.
    case_bool_decide; [done|].
    destruct (boards st !! nt_boardId req) as [b|] eqn:Hb; [|done].
    destruct (JS.findIndex (has_id (nt_columnId req)) (columns b))
      as [ci|] eqn:Hci; [|done].
    destruct (projects st !! board_project b) as [p|]; [|done].
    destruct (negb (isMember uid p)); [done|].
    destruct (JS.blank (nt_title req)); [done|]. simpl.
    case_bool_decide as Hnew; [done|].
    destruct (negb (valid_board _)); [done|]. intros _ [= Hs].
    unfold Mirror.createTask_applied. rewrite <- Hs, Hci. simpl.
    set (st4 := if bool_decide _ then _ else _).
    assert (boards st4
            = <[nt_boardId req :=
                  set_columns
                    (alter (set_taskIds
                              (default [] (taskIds <$> columns b !! ci)
                               ++ [newId])) ci (columns b)) b]> (boards st))
      as -> by (unfold st4; by case_bool_decide).
    by rewrite lookup_insert_eq.
  - intros id t b p entry Hwf Hc H200 -> Hfind Hcol.
    pose proof (withTaskAccess_200 _ _ _ _ _ _ _ Hc H200) as Hm.
    unfold deleteTask in H200 |- *.
    rewrite (withTaskAccess_granted _ _ _ _ _ _ _ Hc Hm) in H200 |- *.
    apply task_chain_Some in Hc as (Ht & Hb & Hp).
    destruct (deleteTask_store st uid id t _ p Hb)
      as [(_ & -> & _)|(H500 & _)]; [|simpl in *; congruence].
    rewrite lookup_insert_eq. f_equal.
    unfold Mirror.deleteTask_applied. rewrite Hfind, Hcol. simpl.
    unfold detach.
    destruct (JS.findIndex (has_id (task_column t))
                (columns (BoardStore.currentBoard s))) as [si|] eqn:Hsi;
      [|done].
    rewrite remove_from_column_map.
    rewrite (alter_set_taskIds (filter (λ x, x ≠ id))).
    f_equal. apply map_taskIds_ext. intros cs Hcs.
    symmetry. apply filter_remove_first.
    eapply (wf_taskIds _ Hwf); [done|]. by eapply list_elem_of_lookup_2.
Qed.

Lemma mirror_follows_server_witness :
  boards (deleteTask Sample.st2 Sample.alice Sample.t1).2 !! Sample.main
  = Some (BoardStore.currentBoard
            (Mirror.deleteTask_applied Sample.t1 Sample.mirror)).
Proof.
  destruct (mirror_follows_server Sample.st2 Sample.alice Sample.mirror)
    as [_ H].
  apply (H Sample.t1
           (mkTask "Fix bug" "Crash on save" Sample.main Sample.todoId 0 []
                   Sample.alice)
           (BoardStore.currentBoard Sample.mirror)
           (mkProject "Eng" "Engineering" Sample.alice
                      [mkMember Sample.alice owner])
           (Sample.t1,
            mkTask "Fix bug" "Crash on save" Sample.main Sample.todoId 0 []
                   Sample.alice)).
  - apply sample_st2_wf.
  - vm_compute. reflexivity.
  - reflexivity.
  - reflexivity.
  - reflexivity.
  - reflexivity.
Defined.

(** ** The board page *)

(** X23: dropping a column elsewhere asks for a reordering of the same
    column ids.  When the id dragged is the one at the source
    index of [columnOrder], the order that [handleDragEnd] hands to
    [reorderColumns] is a permutation of [columnOrder] (so of the column
    ids, without repeats, when [columnOrder] was one), and it has the
    dragged id at the destination index when that index is inside the
    list. *)
Theorem handleDragEnd_reorders (b : Board) draggableId sourceIndex
    destinationIndex :
  (0 ≤ sourceIndex)%Z →
  columnOrder b !! Z.to_nat sourceIndex = Some draggableId →
  destinationIndex ≠ sourceIndex →
  ∃ o, BoardPage.handleDragEnd b
         (BoardPage.ColumnDrop draggableId sourceIndex (Some destinationIndex))
       = BoardPage.Reorder o
       ∧ o ≡ₚ columnOrder b
       ∧ (order_is_permutation b → o ≡ₚ column_ids b ∧ NoDup o)
       ∧ ((0 ≤ destinationIndex < Z.of_nat (length (columnOrder b)))%Z →
          o !! Z.to_nat destinationIndex = Some draggableId).
Proof.
  intros Hs Hat Hne. unfold BoardPage.handleDragEnd.
  rewrite bool_decide_eq_false_2 by done.
  eexists. split; [done|].
  pose proof (lookup_lt_Some _ _ _ Hat) as Hlt.
  rewrite splice_remove_in_range by lia.
  assert (JS.splice_insert destinationIndex draggableId
            (delete (Z.to_nat sourceIndex) (columnOrder b))
          ≡ₚ columnOrder b) as Hperm.
  { rewrite splice_insert_Permutation. symmetry. by apply delete_Permutation. }
  split_and!; [done| |].
  - intros [Hids Hnd]. split; [by rewrite Hperm|by rewrite Hperm].
  - intros Hd. unfold JS.splice_insert.
    rewrite splice_start_nonneg by lia.
    rewrite length_delete by (by eexists).
    set (l := delete _ _).
    assert (length l = length (columnOrder b) - 1) as Hl
      by (unfold l; apply length_delete; by eexists).
    replace (Z.to_nat (clamp 0 (Z.of_nat (length (columnOrder b) - 1))
                             destinationIndex))
      with (Z.to_nat destinationIndex) by (unfold clamp; lia).
    rewrite lookup_app_r by (rewrite length_take; lia).
    rewrite length_take.
    by replace (Z.to_nat destinationIndex
                - Z.to_nat destinationIndex `min` length l) with 0 by lia.
Qed.

Lemma handleDragEnd_reorders_witness :
  ∃ o, BoardPage.handleDragEnd (BoardStore.currentBoard Sample.mirror)
         (BoardPage.ColumnDrop Sample.todoId 0 (Some 2%Z))
       = BoardPage.Reorder o
       ∧ o ≡ₚ [Sample.todoId; Sample.inProgressId; Sample.doneId].
Proof.
  destruct (handleDragEnd_reorders (BoardStore.currentBoard Sample.mirror)
              Sample.todoId 0 2) as (o & Ho & Hperm & _).
  - done.
  - reflexivity.
  - done.
  - exists o. split; [exact Ho|exact Hperm].
Defined.

Lemma find_column_of (cols : list Column) j c :
  NoDup (col_id <$> cols) → cols !! j = Some c →
  JS.find (has_id (col_id c)) cols = Some c.
Proof.
  intros Hnd Hj. rewrite find_findIndex.
  rewrite (findIndex_first _ _ j c); [done|done| |].
  - by apply bool_decide_eq_true.
  - intros i y Hi Hy. apply bool_decide_eq_false. intros Heq.
    assert (i = j); [|lia].
    by apply (NoDup_lookup_col_id cols i j y c).
Qed.

Lemma omap_find_ids (cols all : list Column) :
  (∀ c, c ∈ cols → JS.find (has_id (col_id c)) all = Some c) →
  omap (λ x, JS.find (has_id x) all) (col_id <$> cols) = cols.
Proof.
  induction cols as [|c cols IH]; intros Hfind; [done|]. csimpl.
  rewrite Hfind by apply list_elem_of_here. f_equal.
  apply IH. intros c' Hc'. by apply Hfind, list_elem_of_further.
Qed.

Lemma omap_column_of (b : Board) :
  NoDup (column_ids b) →
  omap (BoardPage.column_of b) (column_ids b) = columns b.
Proof.
  intros Hnd. apply omap_find_ids.
  intros c [j Hj]%list_elem_of_lookup_1. by eapply find_column_of.
Qed.

(** X24: the page shows every column once.  When [columnOrder] lists the
    column ids of the board, each once, and no two columns share an id,
    the columns rendered are the columns of the board, each once, in the
    order given by [columnOrder]. *)
Theorem page_shows_every_column (b : Board) :
  order_is_permutation b → NoDup (column_ids b) →
  BoardPage.shown_columns b ≡ₚ columns b
  ∧ col_id <$> BoardPage.shown_columns b = columnOrder b.
Proof.
  intros [Hperm Hnd] Hids. unfold BoardPage.shown_columns. split.
  - rewrite Hperm. by rewrite omap_column_of.
  - assert (∀ x, x ∈ columnOrder b → x ∈ column_ids b) as Hin
      by (intros x Hx; by rewrite <- Hperm).
    revert Hin. generalize (columnOrder b). intros l Hin.
    induction l as [|x l IH]; [done|]. csimpl.
    destruct (findIndex_has_id_elem x (columns b)) as (i & c & Hi & Hc & Hid).
    { apply Hin, list_elem_of_here. }
    unfold BoardPage.column_of at 1. rewrite find_findIndex, Hi. simpl.
    rewrite Hc. csimpl. rewrite Hid. f_equal.
    apply IH. intros y Hy. by apply Hin, list_elem_of_further.
Qed.

Lemma page_shows_every_column_witness :
  BoardPage.shown_columns (BoardStore.currentBoard Sample.mirror)
  ≡ₚ columns (BoardStore.currentBoard Sample.mirror).
Proof.
  apply (page_shows_every_column (BoardStore.currentBoard Sample.mirror)).
  - split; [reflexivity|]. simpl. compute_done.
  - simpl. compute_done.
Defined.

Lemma find_by_id (tasks : list (ObjectId * Task)) x e :
  JS.find (λ task, bool_decide (task.1 = x)) tasks = Some e → e.1 = x.
Proof.
  rewrite find_findIndex.
  destruct (JS.findIndex _ tasks) as [i|] eqn:Hi; [|done]. simpl.
  intros He. apply findIndex_Some in Hi as (y & Hy & Hp & _).
  assert (y = e) as -> by congruence. by apply bool_decide_eq_true in Hp.
Qed.

(** X25: the index of a card is the index of its task in [taskIds] as
    long as the mirror holds every task that the column lists: the ids of
    the cards of the column are then its [taskIds], so that a card dragged
    from index [k] elsewhere makes [handleDragEnd] call [moveTask] with the
    id that the column has at [sourceIndex]. *)
Theorem card_index_is_task_index (tasks : list (ObjectId * Task))
    (b : Board) column :
  BoardPage.column_of b (col_id column) = Some column →
  (∀ x, x ∈ taskIds column →
     is_Some (JS.find (λ task, bool_decide (task.1 = x)) tasks)) →
  fst <$> BoardPage.columnTasks tasks column = taskIds column
  ∧ ∀ k card dest,
      (0 ≤ k)%Z →
      BoardPage.columnTasks tasks column !! Z.to_nat k = Some card →
      dest ≠ (col_id column, k) →
      ∃ c, BoardPage.handleDragEnd b
             (BoardPage.TaskDrop card.1 (col_id column, k) (Some dest))
           = BoardPage.Move c
           ∧ BoardStore.taskId c = card.1
           ∧ column_taskIds (BoardStore.sourceColumnId c) b
               !! Z.to_nat (BoardStore.sourceIndex c)
             = Some (BoardStore.taskId c).
Proof.
  intros Hcol Hall.
  assert (fst <$> BoardPage.columnTasks tasks column = taskIds column) as Hids.
  { unfold BoardPage.columnTasks. revert Hall.
    generalize (taskIds column). intros l Hall.
    induction l as [|x l IH]; [done|]. csimpl.
    destruct (Hall x) as [e He]; [apply list_elem_of_here|].
    rewrite He. csimpl. rewrite (find_by_id _ _ _ He). f_equal.
    apply IH. intros y Hy. by apply Hall, list_elem_of_further. }
  split; [done|].
  intros k card dest Hk Hcard Hdest.
  unfold BoardPage.handleDragEnd. simpl.
  destruct (bool_decide (dest.1 = col_id column)
            && bool_decide (dest.2 = k)) eqn:Hsame.
  { apply andb_true_iff in Hsame as [H1%bool_decide_eq_true
                                        H2%bool_decide_eq_true].
    destruct Hdest. by destruct dest; simplify_eq/=. }
  eexists. split; [done|]. simpl. split; [done|].
  unfold column_taskIds. unfold BoardPage.column_of in Hcol. rewrite Hcol.
  simpl. rewrite <- Hids, list_lookup_fmap, Hcard. done.
Qed.

Lemma card_index_is_task_index_witness :
  fst <$> BoardPage.columnTasks (BoardStore.tasks Sample.mirror)
            (mkColumn Sample.todoId "To Do" 0 [Sample.t1; Sample.t2])
  = [Sample.t1; Sample.t2].
Proof.
  apply (card_index_is_task_index (BoardStore.tasks Sample.mirror)
           (BoardStore.currentBoard Sample.mirror)
           (mkColumn Sample.todoId "To Do" 0 [Sample.t1; Sample.t2])).
  - reflexivity.
  - intros x Hx. simpl in Hx.
    repeat (apply elem_of_cons in Hx as [->|Hx]); [by eexists..|].
    by apply elem_of_nil in Hx.
Defined.

(** * More on single routes *)

(** ** A board lists a task once *)





(** ** The creator of a project *)

(** X27: whoever creates a project owns it.  When [POST /api/projects]
    answers 201, the id given to the project was unused and the project is
    stored with the requester as its owner and as its only member, with the
    role [owner] (the [pre('save')] hook adds the entry); the requester
    passes [isAdminOrOwner] for the project and the access check of its
    default board, and nobody else is a member. *)
Theorem createProject_creator_is_owner st uid name description ids :
  status (createProject st uid name description ids).1 = 201 →
  let st' := (createProject st uid name description ids).2 in
  ∃ p, projects st !! new_project ids = None
       ∧ projects st' !! new_project ids = Some p
       ∧ project_owner p = uid
       ∧ members p = [mkMember uid owner]
       ∧ project_name p = JS.trim name
       ∧ isAdminOrOwner st' uid (new_project ids) = Granted p
       ∧ (∃ b, canAccessBoard st' uid (new_board ids)
               = Granted (mkBoardCtx b p))
       ∧ (∀ other, other ≠ uid → isMember other p = false).
Proof.
  unfold createProject.
  case_bool_decide; [done|].
  destruct (JS.blank name); [done|]. simpl.
  case_bool_decide as Hnew; [done|].
  case_bool_decide as Hboard; [done|]. intros _. simpl.
  eexists. split_and!.
  - destruct (projects st !! new_project ids) eqn:E; [|done].
    destruct Hnew. by eexists.
  - by rewrite lookup_insert_eq.
  - done.
  - done.
  - done.
  - unfold isAdminOrOwner. simpl. rewrite lookup_insert_eq. simpl.
    unfold is_user. simpl. rewrite bool_decide_eq_true_2 by done.
    case_bool_decide as Hrole; [done|]. destruct Hrole. by right.
  - eexists. unfold canAccessBoard. simpl.
    rewrite lookup_insert_eq. simpl. rewrite lookup_insert_eq.
    unfold isMember, is_user. simpl.
    by rewrite bool_decide_eq_true_2.
  - intros other Hother. unfold isMember, is_user. simpl.
    by rewrite bool_decide_eq_false_2.
Qed.

Lemma createProject_creator_is_owner_witness :
  ∃ p, projects Sample.st0 !! Sample.eng = Some p
       ∧ project_owner p = Sample.alice
       ∧ members p = [mkMember Sample.alice owner].
Proof.
  destruct (createProject_creator_is_owner Sample.empty_store Sample.alice
              "Eng" "Engineering" Sample.ids)
    as (p & _ & Hp & Hown & Hmem & _).
  { vm_compute. reflexivity. }
  exists p. split_and!; [|done..].
  rewrite <- Hp. reflexivity.
Defined.

(** ** There and back *)

Lemma splice_insert_back id (l : list ObjectId) i :
  NoDup l → l !! i = Some id →
  JS.splice_insert (Z.of_nat i) id (remove_first id l) = l.
Proof.
  intros Hnd Hi.
  assert (remove_first id l = take i l ++ drop (S i) l) as ->.
  { destruct (findIndex_eq_elem id l) as [k Hk];
      [by eapply list_elem_of_lookup_2|].
    unfold remove_first. rewrite Hk.
    apply findIndex_eq_Some in Hk as [Hk _].
    rewrite (NoDup_lookup _ _ _ _ Hnd Hk Hi). apply delete_take_drop. }
  pose proof (lookup_lt_Some _ _ _ Hi) as Hlt.
  assert (length (take i l) = i) as Hlen by (rewrite length_take; lia).
  unfold JS.splice_insert. rewrite splice_start_nonneg by lia.
  replace (Z.to_nat (clamp 0 (Z.of_nat (length (take i l ++ drop (S i) l)))
                           (Z.of_nat i))) with i.
  2: { rewrite length_app, Hlen. unfold clamp. lia. }
  rewrite take_app_length' by done. rewrite drop_app_length' by done.
  by apply take_drop_middle.
Qed.

Lemma column_taskIds_elem x X (b : Board) :
  x ∈ column_taskIds X b →
  ∃ c, c ∈ columns b ∧ col_id c = X ∧ column_taskIds X b = taskIds c.
Proof.
  unfold column_taskIds. rewrite find_findIndex.
  destruct (JS.findIndex (has_id X) (columns b)) as [i|] eqn:Hi; simpl.
  - destruct (findIndex_has_id_Some _ _ _ Hi) as (c & Hc & Hid).
    rewrite Hc. simpl. intros _. exists c.
    split_and!; [by eapply list_elem_of_lookup_2|done..].
  - by intros ?%elem_of_nil.
Qed.

(** X29: there and back.  In a well-formed store, a move of a task that
    is answered 200, to any place, followed by the move back to its column
    at the index where it was (an index that a double holds exactly, as
    the indices of an array are), leaves every column of the board with
    the [taskIds] it had; the task names its column again and has that
    index as its [order]. *)
Theorem moveTask_round_trip st uid id columnId order t b p i :
  store_wf st → task_chain st id = Some (t, b, p) →
  status (moveTask st uid id columnId order).1 = 200 →
  column_taskIds (task_column t) b !! i = Some id →
  (Z.of_nat i < 2 ^ 53)%Z →
  let st1 := (moveTask st uid id columnId order).2 in
  let st2 := (moveTask st1 uid id (task_column t) (Z.of_nat i)).2 in
  ∃ b2 t2,
    boards st2 !! task_board t = Some b2
    ∧ (∀ X, column_taskIds X b2 = column_taskIds X b)
    ∧ column_ids b2 = column_ids b
    ∧ tasks st2 !! id = Some t2
    ∧ task_column t2 = task_column t
    ∧ task_order t2 = Z.of_nat i.
Proof.
  intros Hwf Hc H200 Hi Hsafe st1 st2.
  destruct (moveTask_200_inv _ _ _ _ _ H200)
    as (t' & b' & p' & ti & Hc' & Hm & Hti & Hnum & Hvb & Hvt).
  rewrite Hc in Hc'. injection Hc' as <- <- <-.
  assert (Z.abs (Z.of_nat i) < 2 ^ 53)%Z as Hsafe' by lia.
  pose proof (list_elem_of_lookup_2 _ _ _ Hi) as Hlisted.
  destruct (column_taskIds_elem _ _ _ Hlisted) as (ca & Hca & Hcaid & Hl0).
  destruct (findIndex_has_id_elem (task_column t) (columns b))
    as (ta & ca' & Hta & _ & _).
  { rewrite <- Hcaid. by apply list_elem_of_fmap_2. }
  unfold st2, st1.
  rewrite (moveTask_granted _ _ _ _ _ _ _ _ _ Hc Hm Hti Hnum Hvb Hvt). simpl.
  apply task_chain_Some in Hc as (Ht & Hb & Hp).
  set (n := JS.to_double order).
  set (t1 := set_column_order columnId n t).
  set (b1 := move_in_board id columnId n t ti b).
  set (s1 := log_activity _ _).
  assert (task_chain s1 id = Some (t1, b1, p)) as Hc1.
  { apply task_chain_Some. simpl. by rewrite !lookup_insert_eq. }
  assert (col_id <$> columns b1 = col_id <$> columns b) as Hids1.
  { unfold b1. rewrite move_in_board_columns.
    by rewrite map_taskIds_ids, detach_ids. }
  assert (JS.findIndex (has_id (task_column t)) (columns b1) = Some ta) as Hta1
    by by rewrite (findIndex_same_ids _ _ _ Hids1).
  assert (valid_board b1 = true) as Hvb1
    by (unfold b1; by rewrite valid_move_in_board).
  rewrite (moveTask_granted _ _ _ _ _ _ _ _ _ Hc1 Hm Hta1
             (isNumeric_safe _ Hsafe') Hvb1 Hvt).
  rewrite (to_double_safe _ Hsafe'). simpl.
  eexists _, _. rewrite !lookup_insert_eq. split; [done|].
  assert (NoDup (column_taskIds (task_column t) b)) as Hnd.
  { rewrite Hl0. by eapply (wf_taskIds _ Hwf). }
  assert (∀ X, X ≠ task_column t → id ∉ column_taskIds X b) as Hnot.
  { intros X HX Hx.
    destruct (column_taskIds_elem _ _ _ Hx) as (c & Hcin & Hcid & Heq).
    rewrite Heq in Hx.
    destruct (wf_listed _ Hwf _ _ c id Hb Hcin Hx) as (t' & Ht' & _ & Hcol).
    congruence. }
  split_and!; try done.
  - intros X.
    rewrite (move_in_board_taskIds X _ _ _ _ _ _ Hta1). simpl.
    unfold b1. rewrite (move_in_board_taskIds X _ _ _ _ _ _ Hti). simpl.
    destruct (decide (task_column t = X)) as [<-|HA].
    + rewrite (decide_True (P := task_column t = task_column t)) by done.
      destruct (decide (task_column t = columnId)) as [<-|HB].
      * rewrite (decide_True (P := task_column t = task_column t)) by done.
        rewrite remove_first_splice_insert
          by (by apply NoDup_remove_first).
        by apply splice_insert_back.
      * rewrite (decide_False (P := columnId = task_column t)) by done.
        by apply splice_insert_back.
    + rewrite (decide_False (P := X = task_column t)) by done.
      destruct (decide (X = columnId)) as [->|HB].
      * rewrite (decide_True (P := columnId = columnId)) by done.
        apply remove_first_splice_insert. by apply Hnot.
      * by rewrite (decide_False (P := columnId = X)) by done.
  - unfold column_ids. rewrite move_in_board_columns.
    by rewrite map_taskIds_ids, detach_ids.
Qed.

Lemma moveTask_round_trip_witness :
  let st1 := (moveTask Sample.st2 Sample.alice Sample.t1 Sample.doneId 0).2 in
  let st2 := (moveTask st1 Sample.alice Sample.t1 Sample.todoId 0).2 in
  ∃ b2, boards st2 !! Sample.main = Some b2
        ∧ column_taskIds Sample.todoId b2 = [Sample.t1; Sample.t2].
Proof.
  destruct (moveTask_round_trip Sample.st2 Sample.alice Sample.t1
              Sample.doneId 0
              (mkTask "Fix bug" "Crash on save" Sample.main Sample.todoId 0 []
                      Sample.alice)
              (mkBoard "Main Board" "Default board for the project" Sample.eng
                 [mkColumn Sample.todoId "To Do" 0 [Sample.t1; Sample.t2];
                  mkColumn Sample.inProgressId "In Progress" 1 [];
                  mkColumn Sample.doneId "Done" 2 []]
                 [Sample.todoId; Sample.inProgressId; Sample.doneId])
              (mkProject "Eng" "Engineering" Sample.alice
                 [mkMember Sample.alice owner]) 0)
    as (b2 & t2 & Hb2 & Hcols & _).
  - apply sample_st2_wf.
  - vm_compute. reflexivity.
  - reflexivity.
  - reflexivity.
  - simpl. lia.
  - exists b2. split; [exact Hb2|]. by rewrite Hcols.
Defined.
